(** * Course search aggregation across Coursera, Udemy and edX

    A shallow embedding of [course_provider_integrations_v7.py]: the three
    provider adapters, the request helper of their base class and the
    [CourseAggregator] with its filter and sort pipeline, followed by the
    properties of the aggregator that the design document states, and of
    the two scripts that run it, [run_courses.py] and
    [run_courses_interactive.py].

    Layout: the fragment of Python the module relies on (exceptions,
    JSON-shaped values, numbers, the builtins [float], [int], [bool], [str],
    [==], [<] and [sorted]); the HTTP boundary; the adapters; the aggregator;
    the vocabulary of the properties; the two runs; general lemmas; the
    properties of the design document; further properties of the code.

    The functions are modelled as they are written.  (The signature of
    [search_all_providers] names [Tuple], which the module does not import
    from [typing]; the model is of the module once that name resolves.)
    A [str] is modelled up to the code point 255, with the builtins exact
    on those strings; an exception has one of the classes listed below;
    the standard output is a parameter of what prints. *)

From Stdlib Require Import ZArith QArith List String Ascii Bool Lia.
From Stdlib Require Import Permutation Sorted.
From Stdlib Require Import SpecFloat DecimalString DecimalPos.
Import ListNotations.

Local Open Scope string_scope.
Local Open Scope Z_scope.

(* ===================================================================== *)
(** * Exceptions and results *)
(* ===================================================================== *)

(** The exception classes that the module raises, catches or can meet.  All
    of them derive from [Exception].  [JSONDecodeError] is
    [json.JSONDecodeError], a subclass of [ValueError]; [ClientError] is
    [aiohttp.ClientError] together with those of its subclasses that have
    no other base among the classes listed (connector errors,
    [ContentTypeError], ...; [aiohttp.InvalidURL], which is also a
    [ValueError], cannot come from the constant URLs of the adapters and is
    left out); [TimeoutError] is the builtin, of which
    [asyncio.TimeoutError] is an alias since Python 3.11;
    [ServerTimeoutError] is [aiohttp.ServerTimeoutError] with its
    subclasses, which derives from both [aiohttp.ClientError] and
    [asyncio.TimeoutError]; [APIError] and [RateLimitError] are the two
    classes the module declares itself. *)
Inductive exn_class : Type :=
| KeyError | TypeError | ValueError | IndexError | OverflowError
| AttributeError
| JSONDecodeError
| ClientError
| ServerTimeoutError
| ConnectionError
| TimeoutError
| APIError
| RateLimitError.

Definition exn_class_eqb (a b : exn_class) : bool :=
  match a, b with
  | KeyError, KeyError | TypeError, TypeError | ValueError, ValueError
  | IndexError, IndexError | OverflowError, OverflowError
  | AttributeError, AttributeError
  | JSONDecodeError, JSONDecodeError | ClientError, ClientError
  | ServerTimeoutError, ServerTimeoutError
  | ConnectionError, ConnectionError | TimeoutError, TimeoutError
  | APIError, APIError | RateLimitError, RateLimitError => true
  | _, _ => false
  end.

(** [issubclass(c, base)] among these classes. *)
Definition issubclass (c base : exn_class) : bool :=
  match c, base with
  | JSONDecodeError, ValueError => true
  | ServerTimeoutError, ClientError => true
  | ServerTimeoutError, TimeoutError => true
  | _, _ => exn_class_eqb c base
  end.

(** An exception object: its class and the text [str(e)] returns. *)
Record exn : Type := Exn { exn_type : exn_class; exn_str : string }.

(** [isinstance(e, cls)], which is what an [except cls] clause tests. *)
Definition isinstance_exn (e : exn) (cls : exn_class) : bool :=
  issubclass (exn_type e) cls.

(** The outcome of evaluating a Python expression or call. *)
Inductive result (A : Type) : Type :=
| Ok (a : A)
| Raise (e : exn).
Arguments Ok {A} a.
Arguments Raise {A} e.

Definition bind {A B : Type} (c : result A) (k : A -> result B) : result B :=
  match c with
  | Ok a => k a
  | Raise e => Raise e
  end.

Declare Scope py_scope.
Delimit Scope py_scope with py.
Notation "x <- c ;; k" := (bind c (fun x => k))
  (at level 61, c at next level, right associativity) : py_scope.
Local Open Scope py_scope.

(** [try: body except: handler], the handler deciding per exception. *)
Definition try_except {A : Type} (body : result A) (handler : exn -> result A)
  : result A :=
  match body with
  | Ok a => Ok a
  | Raise e => handler e
  end.

(** A [for] loop or comprehension that evaluates [f] on every element in
    order and stops at the first exception. *)
Fixpoint mapM {A B : Type} (f : A -> result B) (l : list A) : result (list B) :=
  match l with
  | [] => Ok []
  | x :: r => y <- f x ;; ys <- mapM f r ;; Ok (y :: ys)
  end.

(** A comprehension [[x for x in l if p(x)]] whose condition may raise. *)
Fixpoint filterM {A : Type} (p : A -> result bool) (l : list A)
  : result (list A) :=
  match l with
  | [] => Ok []
  | x :: r =>
      b <- p x ;; ys <- filterM p r ;; Ok (if b then x :: ys else ys)
  end.

(* ===================================================================== *)
(** * Values *)
(* ===================================================================== *)

(** What [response.json()] can return, which is also what a course record
    can hold.  A [dict] is kept as the list of its items in insertion
    order; a [float] is an IEEE 754 binary64 number.  A [str] is the list
    of its characters, and a character is its code point: the model covers
    the strings whose code points are below 256. *)
#[local] Set Warnings "-register-all".
Inductive value : Type :=
| VNone
| VBool (b : bool)
| VInt (z : Z)
| VFloat (f : spec_float)
| VStr (s : string)
| VList (l : list value)
| VDict (d : list (string * value)).

Definition dict : Type := list (string * value).

(** [d[k]] on a dict seen as its item list: the first binding of [k]. *)
Fixpoint lookup (k : string) (d : dict) : option value :=
  match d with
  | [] => None
  | (k', v) :: r => if String.eqb k k' then Some v else lookup k r
  end.

(** [d.get(k)] and [d.get(k, default)]. *)
Definition dict_get_default (d : dict) (k : string) (default : value) : value :=
  match lookup k d with
  | Some v => v
  | None => default
  end.

Definition dict_get (d : dict) (k : string) : value :=
  dict_get_default d k VNone.

(** The code point of a character. *)
Definition code (c : ascii) : Z := Z.of_nat (nat_of_ascii c).

(** [str.isprintable] on one character: below 256 everything prints but
    the control characters, the no-break space and the soft hyphen. *)
Definition isprintable (c : ascii) : bool :=
  ((32 <=? code c) && (code c <? 127))
  || ((161 <=? code c) && negb (code c =? 173)).

Definition hex_digit (n : Z) : ascii :=
  ascii_of_nat (Z.to_nat (if n <? 10 then 48 + n else 87 + n)).

(** The double quote. *)
Definition dquote : ascii := ascii_of_nat 34.

Fixpoint contains (c : ascii) (s : string) : bool :=
  match s with
  | EmptyString => false
  | String c' r => Ascii.eqb c' c || contains c r
  end.

(** How [repr] writes one character of a str between quotes [q]. *)
Definition repr_char (q c : ascii) : string :=
  if Ascii.eqb c q || Ascii.eqb c "\" then String "\" (String c EmptyString)
  else if code c =? 9 then "\t"
  else if code c =? 10 then "\n"
  else if code c =? 13 then "\r"
  else if isprintable c then String c EmptyString
  else
    String "\"
      (String "x"
         (String (hex_digit (code c / 16))
            (String (hex_digit (code c mod 16)) EmptyString))).

Fixpoint repr_chars (q : ascii) (s : string) : string :=
  match s with
  | EmptyString => String q EmptyString
  | String c r => repr_char q c ++ repr_chars q r
  end.

(** [repr(s)] of a str, which is also what [str(KeyError(s))] shows:
    between single quotes, or between double quotes when [s] has a single
    quote and no double quote. *)
Definition repr_str (s : string) : string :=
  let q := if contains "'" s && negb (contains dquote s) then dquote else "'"%char in
  String q (repr_chars q s).

(** The first [n] characters of [s], as the format [%.nR] cuts a text. *)
Fixpoint truncate (n : nat) (s : string) : string :=
  match n, s with
  | S n', String c r => String c (truncate n' r)
  | _, _ => EmptyString
  end.

(** A name between single quotes. *)
Definition quoted (k : string) : string := "'" ++ k ++ "'".

Definition type_name (v : value) : string :=
  match v with
  | VNone => "NoneType"
  | VBool _ => "bool"
  | VInt _ => "int"
  | VFloat _ => "float"
  | VStr _ => "str"
  | VList _ => "list"
  | VDict _ => "dict"
  end.

(** [v[k]] with a string subscript [k]. *)
Definition getitem (v : value) (k : string) : result value :=
  match v with
  | VDict d =>
      match lookup k d with
      | Some x => Ok x
      | None => Raise (Exn KeyError (repr_str k))
      end
  | VList _ =>
      Raise (Exn TypeError "list indices must be integers or slices, not str")
  | VStr _ => Raise (Exn TypeError "string indices must be integers, not 'str'")
  | _ =>
      Raise (Exn TypeError
               ("'" ++ type_name v ++ "' object is not subscriptable"))
  end.

(** [v[0]]. *)
Definition getitem0 (v : value) : result value :=
  match v with
  | VList (x :: _) => Ok x
  | VList [] => Raise (Exn IndexError "list index out of range")
  | VStr (String c _) => Ok (VStr (String c EmptyString))
  | VStr EmptyString => Raise (Exn IndexError "string index out of range")
  | VDict _ => Raise (Exn KeyError "0")
  | _ =>
      Raise (Exn TypeError
               ("'" ++ type_name v ++ "' object is not subscriptable"))
  end.

Fixpoint chars (s : string) : list value :=
  match s with
  | EmptyString => []
  | String c r => VStr (String c EmptyString) :: chars r
  end.

(** The elements [for x in v] visits: the items of a list, the keys of a
    dict, the characters of a str. *)
Definition iterate (v : value) : result (list value) :=
  match v with
  | VList l => Ok l
  | VDict d => Ok (map (fun kv => VStr (fst kv)) d)
  | VStr s => Ok (chars s)
  | _ =>
      Raise (Exn TypeError ("'" ++ type_name v ++ "' object is not iterable"))
  end.

(** [sep.join(parts)]. *)
Fixpoint join (sep : string) (parts : list string) : string :=
  match parts with
  | [] => ""
  | [s] => s
  | s :: r => s ++ sep ++ join sep r
  end.

(* ===================================================================== *)
(** * Numbers *)
(* ===================================================================== *)

(** A Python number: an [int] of any size or a binary64 [float] ([bool]
    counts as the int 0 or 1). *)
Inductive pynum : Type :=
| NInt (z : Z)
| NFloat (f : spec_float).

Definition as_num (v : value) : option pynum :=
  match v with
  | VBool b => Some (NInt (if b then 1 else 0))
  | VInt z => Some (NInt z)
  | VFloat f => Some (NFloat f)
  | _ => None
  end.

(** Python compares numbers by their exact mathematical value, also
    between an int and a float; a NaN has none and compares false with
    everything. *)
Inductive xreal : Type :=
| XNegInf
| XFin (q : Q)
| XPosInf.

Definition Q_of_finite (s : bool) (m : positive) (e : Z) : Q :=
  let mag :=
    match e with
    | Z0 => Zpos m # 1
    | Zpos p => (Zpos m * 2 ^ Zpos p) # 1
    | Zneg p => Zpos m # (2 ^ p)
    end in
  if s then Qopp mag else mag.

Definition float_value (f : spec_float) : option xreal :=
  match f with
  | S754_nan => None
  | S754_zero _ => Some (XFin 0)
  | S754_infinity s => Some (if s then XNegInf else XPosInf)
  | S754_finite s m e => Some (XFin (Q_of_finite s m e))
  end.

Definition num_value (n : pynum) : option xreal :=
  match n with
  | NInt z => Some (XFin (inject_Z z))
  | NFloat f => float_value f
  end.

Definition xcompare (a b : xreal) : comparison :=
  match a, b with
  | XNegInf, XNegInf => Eq
  | XNegInf, _ => Lt
  | _, XNegInf => Gt
  | XPosInf, XPosInf => Eq
  | XPosInf, _ => Gt
  | _, XPosInf => Lt
  | XFin p, XFin q => Qcompare p q
  end.

Definition num_compare (a b : pynum) : option comparison :=
  match num_value a, num_value b with
  | Some x, Some y => Some (xcompare x y)
  | _, _ => None
  end.

(** [a < b], [a <= b], [a >= b] and [a == b] on numbers. *)
Definition num_lt (a b : pynum) : bool :=
  match num_compare a b with Some Lt => true | _ => false end.

Definition num_le (a b : pynum) : bool :=
  match num_compare a b with Some Lt | Some Eq => true | _ => false end.

Definition num_ge (a b : pynum) : bool := num_le b a.

Definition num_eq (a b : pynum) : bool :=
  match num_compare a b with Some Eq => true | _ => false end.

(** A number that takes part in the order, that is, anything but a NaN. *)
Definition ordered (n : pynum) : Prop := num_value n <> None.

(** The nearest binary64 number to an integer, ties to even; beyond the
    largest finite float the rounding gives an infinity. *)
Definition Z_to_float (z : Z) : spec_float := binary_normalize 53 1024 z 0 false.

Definition float_zero : spec_float := S754_zero false.

Definition is_infinite (f : spec_float) : bool :=
  match f with
  | S754_infinity _ => true
  | _ => false
  end.

(** [float(n)] for an int [n]. *)
Definition float_of_int (z : Z) : result spec_float :=
  let f := Z_to_float z in
  if is_infinite f
  then Raise (Exn OverflowError "int too large to convert to float")
  else Ok f.

(** [int(f)] for a float [f]: truncation towards zero. *)
Definition int_of_float (f : spec_float) : result Z :=
  match f with
  | S754_nan => Raise (Exn ValueError "cannot convert float NaN to integer")
  | S754_infinity _ =>
      Raise (Exn OverflowError "cannot convert float infinity to integer")
  | S754_zero _ => Ok 0
  | S754_finite s m e =>
      let mag :=
        match e with
        | Zneg p => Z.shiftr (Zpos m) (Zpos p)
        | _ => Z.shiftl (Zpos m) e
        end in
      Ok (if s then - mag else mag)
  end.

(* ===================================================================== *)
(** * Strings and conversions *)
(* ===================================================================== *)

(** [str.isdecimal] on one character: below 256 the decimal digits are
    [0] to [9].  They are the digits [float] and [int] read. *)
Definition isdecimal (c : ascii) : bool := (48 <=? code c) && (code c <=? 57).

(** [str.isdigit] on one character: the decimal digits and, below 256, the
    superscripts two, three and one, which [float] and [int] reject. *)
Definition isdigit (c : ascii) : bool :=
  isdecimal c || (code c =? 178) || (code c =? 179) || (code c =? 185).

(** [str.isspace] on one character, the whitespace [str.strip] removes:
    below 256, tab to carriage return, the four separators from 28 on, the
    space, the next-line control and the no-break space. *)
Definition isspace (c : ascii) : bool :=
  ((9 <=? code c) && (code c <=? 13))
  || ((28 <=? code c) && (code c <=? 32))
  || (code c =? 133) || (code c =? 160).

(** The whitespace [float] and [int] skip around a number: of the
    characters below 128 only tab to carriage return and the space, and
    the whitespace from 128 on. *)
Definition isspace_num (c : ascii) : bool :=
  ((9 <=? code c) && (code c <=? 13))
  || (code c =? 32) || (code c =? 133) || (code c =? 160).

Definition digit_value (c : ascii) : Z := code c - 48.

(** The integer written by a run of decimal digits. *)
Definition Z_of_digits (ds : list ascii) : Z :=
  fold_left (fun acc c => 10 * acc + digit_value c) ds 0.

(** [''.join(filter(p, s))]. *)
Fixpoint filter_chars (p : ascii -> bool) (s : string) : string :=
  match s with
  | EmptyString => EmptyString
  | String c r => if p c then String c (filter_chars p r) else filter_chars p r
  end.

(** The characters left when the leading ones that [space] holds of are
    removed, and when those at both ends are. *)
Fixpoint lstrip (space : ascii -> bool) (l : list ascii) : list ascii :=
  match l with
  | c :: r => if space c then lstrip space r else l
  | [] => []
  end.

Definition strip (space : ascii -> bool) (l : list ascii) : list ascii :=
  rev (lstrip space (rev (lstrip space l))).

(** [digit (["_"] digit)*] after the first digit: the digits read, without
    the underscores, and the rest of the input. *)
Fixpoint digits_tail (l : list ascii) : list ascii * list ascii :=
  match l with
  | c :: r =>
      if isdecimal c then
        let (ds, rest) := digits_tail r in (c :: ds, rest)
      else if Ascii.eqb c "_" then
        match r with
        | c' :: r' =>
            if isdecimal c' then
              let (ds, rest) := digits_tail r' in (c' :: ds, rest)
            else ([], l)
        | [] => ([], l)
        end
      else ([], l)
  | [] => ([], [])
  end.

Definition digitpart (l : list ascii) : option (list ascii * list ascii) :=
  match l with
  | c :: r =>
      if isdecimal c then
        let (ds, rest) := digits_tail r in Some (c :: ds, rest)
      else None
  | [] => None
  end.

(** An optional sign: whether it is a minus, and the rest. *)
Definition sign (l : list ascii) : bool * list ascii :=
  match l with
  | c :: r =>
      if Ascii.eqb c "-" then (true, r)
      else if Ascii.eqb c "+" then (false, r)
      else (false, l)
  | [] => (false, [])
  end.

Definition lower (c : ascii) : ascii :=
  if (65 <=? code c) && (code c <=? 90)
  then ascii_of_nat (nat_of_ascii c + 32)
  else c.

(** The binary64 number nearest to [(-1)^neg * m * 10^e], ties to even.
    A negative [e] divides: the quotient is taken with 64 bits and more and
    its last bit records whether anything was left over, so the single
    rounding of [binary_normalize] is that of the exact quotient. *)
Definition decimal_to_float (neg : bool) (m e : Z) : spec_float :=
  let sgn (z : Z) := if neg then - z else z in
  if m =? 0 then S754_zero neg
  else if 0 <=? e then binary_normalize 53 1024 (sgn (m * 10 ^ e)) 0 neg
  else
    let d := 10 ^ (- e) in
    let s := Z.max 0 (Z.log2 d - Z.log2 m + 64) in
    let n := m * 2 ^ s in
    let q := n / d in
    let sticky := if n mod d =? 0 then 0 else 1 in
    binary_normalize 53 1024 (sgn (2 * q + sticky)) (- s - 1) neg.

(** [[digitpart] "." digitpart | digitpart ["."]]: the digits before and
    after the point, and the rest. *)
Definition number (l : list ascii)
  : option (list ascii * list ascii * list ascii) :=
  match digitpart l with
  | Some (ip, r) =>
      match r with
      | c :: r' =>
          if Ascii.eqb c "." then
            match digitpart r' with
            | Some (fp, r'') => Some (ip, fp, r'')
            | None => Some (ip, [], r')
            end
          else Some (ip, [], r)
      | [] => Some (ip, [], [])
      end
  | None =>
      match l with
      | c :: r' =>
          if Ascii.eqb c "." then
            match digitpart r' with
            | Some (fp, r'') => Some ([], fp, r'')
            | None => None
            end
          else None
      | [] => None
      end
  end.

(** [("e" | "E") [sign] digitpart] up to the end of the input, or nothing:
    the decimal exponent. *)
Definition exponent (l : list ascii) : option Z :=
  match l with
  | [] => Some 0
  | c :: r =>
      if Ascii.eqb (lower c) "e" then
        let (neg, r') := sign r in
        match digitpart r' with
        | Some (ds, []) => Some (if neg then - Z_of_digits ds else Z_of_digits ds)
        | _ => None
        end
      else None
  end.

Definition could_not_convert (s : string) : exn :=
  Exn ValueError ("could not convert string to float: " ++ repr_str s).

(** [float(s)] for a str [s]: surrounding whitespace, a sign, then
    [inf], [infinity], [nan] in any case or a decimal number with an
    optional exponent. *)
Definition float_of_str (s : string) : result spec_float :=
  let (neg, body) := sign (strip isspace_num (list_ascii_of_string s)) in
  let word := string_of_list_ascii (map lower body) in
  if String.eqb word "inf" || String.eqb word "infinity"
  then Ok (S754_infinity neg)
  else if String.eqb word "nan" then Ok S754_nan
  else
    match number body with
    | Some (ip, fp, r) =>
        match exponent r with
        | Some e =>
            Ok (decimal_to_float neg (Z_of_digits (ip ++ fp)%list)
                  (e - Z.of_nat (List.length fp)))
        | None => Raise (could_not_convert s)
        end
    | None => Raise (could_not_convert s)
    end.

(** [int(s)] for a str [s], base ten; the message shows at most 200
    characters of [repr(s)].  The interpreter's limit on the number of
    digits of an int read from or written to a str, 4300 unless it is
    configured otherwise, is not part of the model, which is of the
    interpreter with that limit lifted. *)
Definition int_of_str (s : string) : result Z :=
  let (neg, body) := sign (strip isspace_num (list_ascii_of_string s)) in
  match digitpart body with
  | Some (ds, []) => Ok (if neg then - Z_of_digits ds else Z_of_digits ds)
  | _ =>
      Raise (Exn ValueError
               ("invalid literal for int() with base 10: "
                  ++ truncate 200 (repr_str s)))
  end.

(** The builtin [float(v)]. *)
Definition py_float (v : value) : result spec_float :=
  match v with
  | VFloat f => Ok f
  | VInt z => float_of_int z
  | VBool b => Ok (Z_to_float (if b then 1 else 0))
  | VStr s => float_of_str s
  | _ =>
      Raise (Exn TypeError
               ("float() argument must be a string or a real number, not "
                  ++ quoted (type_name v)))
  end.

(** The builtin [int(v)]. *)
Definition py_int (v : value) : result Z :=
  match v with
  | VInt z => Ok z
  | VBool b => Ok (if b then 1 else 0)
  | VFloat f => int_of_float f
  | VStr s => int_of_str s
  | _ =>
      Raise (Exn TypeError
               ("int() argument must be a string, a bytes-like object or a "
                  ++ "real number, not " ++ quoted (type_name v)))
  end.

(** The builtin [bool(v)]: the truth value of [v]. *)
Definition py_bool (v : value) : bool :=
  match v with
  | VNone => false
  | VBool b => b
  | VInt z => negb (z =? 0)
  | VFloat f => match f with S754_zero _ => false | _ => true end
  | VStr s => negb (String.eqb s "")
  | VList l => match l with [] => false | _ => true end
  | VDict d => match d with [] => false | _ => true end
  end.

(** [a == b].  Numbers compare by value across [bool], [int] and [float];
    lists item by item; dicts as sets of items.  (For containers CPython
    first tests the items for identity; identity is not part of this
    model, which only matters for a NaN stored in a container.) *)
Fixpoint py_eq (a b : value) {struct a} : bool :=
  match a, b with
  | VNone, VNone => true
  | VStr s, VStr t => String.eqb s t
  | VList l, VList l' =>
      (fix items (l l' : list value) {struct l} : bool :=
         match l, l' with
         | [], [] => true
         | x :: r, y :: r' => py_eq x y && items r r'
         | _, _ => false
         end) l l'
  | VDict d, VDict d' =>
      Nat.eqb (List.length d) (List.length d')
      && (fix items (d : list (string * value)) {struct d} : bool :=
            match d with
            | [] => true
            | (k, x) :: r =>
                match lookup k d' with
                | Some y => py_eq x y
                | None => false
                end && items r
            end) d
  | VBool x, _ =>
      match as_num b with
      | Some n => num_eq (NInt (if x then 1 else 0)) n
      | None => false
      end
  | VInt x, _ =>
      match as_num b with Some n => num_eq (NInt x) n | None => false end
  | VFloat x, _ =>
      match as_num b with Some n => num_eq (NFloat x) n | None => false end
  | _, _ => false
  end.

(** [str(v)], as an f-string formats a value.  The text of a float and of
    a container comes from [repr], which is left to the caller as
    [repr_other].  As for [int_of_str], the interpreter's limit on the
    digits of an int written to a str is taken as lifted. *)
Definition py_str (repr_other : value -> string) (v : value) : string :=
  match v with
  | VStr s => s
  | VNone => "None"
  | VBool true => "True"
  | VBool false => "False"
  | VInt z => NilZero.string_of_int (Z.to_int z)
  | _ => repr_other v
  end.

(** [v.get(k, default)]: only a dict has the method. *)
Definition get_method (v : value) (k : string) (default : value)
  : result value :=
  match v with
  | VDict d => Ok (dict_get_default d k default)
  | _ =>
      Raise (Exn AttributeError
               ("'" ++ type_name v ++ "' object has no attribute 'get'"))
  end.

(* ===================================================================== *)
(** * Sorting *)
(* ===================================================================== *)

(** [list.sort] with a key works on the pairs of a key and its item and
    compares keys with [<] only.  With [reverse=True] it reverses the
    list, sorts it stably in ascending order and reverses the outcome.
    CPython's merge sort and the insertion sort below return the same list
    whenever [<] is a strict weak order on the keys met, as it is on ints
    and on floats other than NaN.  With a NaN among the keys the order
    CPython gives depends on its search for runs, which is not modelled:
    the list below is then an arrangement of the same items, but not
    always CPython's.  The properties that read the order of an outcome
    assume keys without NaN; the one list with a NaN key whose outcome is
    stated, [nan_rated_courses], is a single run for CPython, which leaves
    it as it is, as the insertion sort does. *)
Section ListSort.
Context {K A : Type}.
Variable lt : K -> K -> bool.

Fixpoint insert (x : K * A) (l : list (K * A)) : list (K * A) :=
  match l with
  | [] => [x]
  | y :: r => if lt (fst y) (fst x) then y :: insert x r else x :: y :: r
  end.

Fixpoint stable_sort (l : list (K * A)) : list (K * A) :=
  match l with
  | [] => []
  | x :: r => insert x (stable_sort r)
  end.

Definition sort_reverse (l : list (K * A)) : list (K * A) :=
  rev (stable_sort (rev l)).

(** Ascending: no later key is below an earlier one. *)
Definition ascending : list (K * A) -> Prop :=
  StronglySorted (fun x y => lt (fst y) (fst x) = false).

(** Descending: no earlier key is below a later one. *)
Definition descending : list (K * A) -> Prop :=
  StronglySorted (fun x y => lt (fst x) (fst y) = false).

(** The items whose key is neither below nor above [k]. *)
Definition tied (k : K) (x : K * A) : bool :=
  negb (lt k (fst x)) && negb (lt (fst x) k).
End ListSort.

(** [sorted(l, key=key, reverse=True)]: the keys are computed first, item
    by item, and the first exception of [key] leaves the call. *)
Definition sorted_reverse {A : Type} (key : A -> result pynum) (l : list A)
  : result (list A) :=
  keys <- mapM key l ;;
  Ok (map snd (sort_reverse num_lt (combine keys l))).

(* ===================================================================== *)
(** * The HTTP boundary *)
(* ===================================================================== *)

Record request : Type := {
  req_method : string;
  req_url : string;
  req_headers : list (string * string);
  req_params : list (string * value)
}.

(** A response: its status and what [await response.json()] does, which is
    to return the decoded body or to raise ([json.JSONDecodeError] on a body
    that is not JSON, aiohttp's [ContentTypeError] on a wrong content
    type). *)
Record response : Type := {
  status : Z;
  json : result value
}.

(** A coroutine seen from [asyncio.wait_for]: it has finished, with a value
    or an exception, or it is still pending when the time is up. *)
Inductive awaited (A : Type) : Type :=
| Finished (r : result A)
| Pending.
Arguments Finished {A} r.
Arguments Pending {A}.

Definition await {A B : Type} (t : awaited A) (k : result A -> result B)
  : awaited B :=
  match t with
  | Finished r => Finished (k r)
  | Pending => Pending
  end.

(** [asyncio.wait_for(t, timeout)]. *)
Definition wait_for {A : Type} (t : awaited A) : result A :=
  match t with
  | Finished r => r
  | Pending => Raise (Exn TimeoutError "")
  end.

(** What the [aiohttp.ClientSession] of an adapter does with a request:
    it yields a response, raises, or does not come back in time. *)
Definition client_session : Type := request -> awaited response.

(* ===================================================================== *)
(** * The provider adapters *)
(* ===================================================================== *)

Module CourseProviderBase.

Record t : Type := {
  api_key : string;
  api_secret : option string;
  session : client_session
}.


End CourseProviderBase.

(** The one method the aggregator calls on an adapter. *)
Record provider : Type := Provider {
  search_courses : list string -> Z -> awaited (list dict)
}.

Module CourseraAPI.
Import CourseProviderBase.

Definition BASE_URL : string := "https://api.coursera.org/api/courses.v1".

Definition _process_coursera_course (repr_other : value -> string)
    (course : value) : result dict :=
  name <- getitem course "name" ;;
  description <- getitem course "description" ;;
  slug <- getitem course "slug" ;;
  partnerLogo <- get_method course "partnerLogo" VNone ;;
  workload <- get_method course "workload" (VStr "Flexible") ;;
  primaryLanguages <-
    get_method course "primaryLanguages" (VList [VStr "English"]) ;;
  language <- getitem0 primaryLanguages ;;
  certificates <- get_method course "certificates" VNone ;;
  startDate <- get_method course "startDate" (VStr "Self-paced") ;;
  id <- getitem course "id" ;;
  Ok [ ("provider", VStr "Coursera");
       ("title", name);
       ("description", description);
       ("url",
         VStr ("https://www.coursera.org/learn/" ++ py_str repr_other slug));
       ("image_url", partnerLogo);
       ("duration", workload);
       ("language", language);
       ("certificate", VBool (py_bool certificates));
       ("start_date", startDate);
       ("price", VStr "Free to audit, Certificate available");
       ("provider_id", id) ].

Definition _process_coursera_results (repr_other : value -> string)
    (courses : value) : result (list dict) :=
  items <- iterate courses ;;
  mapM (_process_coursera_course repr_other) items.

Definition search_courses (repr_other : value -> string) (self : t)
    (skills : list string) (limit : Z) : awaited (list dict) :=
  let query_params :=
    [ ("q", VStr (join " OR " skills));
      ("limit", VInt limit);
      ("fields",
        VStr ("name,slug,description,workload,primaryLanguages,"
                ++ "subtitleLanguages,partnerLogo,certificates,startDate,"
                ++ "closeDate,courseType"));
      ("includes", VStr "partnerIds,instructorIds") ] in
  await (session self
           {| req_method := "GET"; req_url := BASE_URL ++ "/search";
              req_headers := []; req_params := query_params |})
    (fun sent =>
       response <- sent ;;
       data <- json response ;;
       elements <- getitem data "elements" ;;
       _process_coursera_results repr_other elements).

Definition make (repr_other : value -> string) (self : t) : provider :=
  Provider (search_courses repr_other self).

End CourseraAPI.

Module UdemyAPI.
Import CourseProviderBase.

Definition BASE_URL : string := "https://www.udemy.com/api-2.0".

Definition _process_udemy_course (repr_other : value -> string)
    (course : value) : result dict :=
  title <- getitem course "title" ;;
  headline <- getitem course "headline" ;;
  url <- getitem course "url" ;;
  image <- getitem course "image_480x270" ;;
  price <- getitem course "price" ;;
  avg_rating <- getitem course "avg_rating" ;;
  num_reviews <- getitem course "num_reviews" ;;
  id <- getitem course "id" ;;
  Ok [ ("provider", VStr "Udemy");
       ("title", title);
       ("description", headline);
       ("url", url);
       ("image_url", image);
       ("price", VStr ("$" ++ py_str repr_other price));
       ("rating", avg_rating);
       ("reviews", num_reviews);
       ("provider_id", id) ].

Definition _process_udemy_results (repr_other : value -> string)
    (courses : value) : result (list dict) :=
  items <- iterate courses ;;
  mapM (_process_udemy_course repr_other) items.

Definition search_courses (repr_other : value -> string) (self : t)
    (skills : list string) (limit : Z) : awaited (list dict) :=
  let headers :=
    [ ("Authorization", "Bearer " ++ api_key self);
      ("Content-Type", "application/json") ] in
  let query_params :=
    [ ("search", VStr (join " OR " skills));
      ("page_size", VInt limit);
      ("ordering", VStr "relevance");
      ("fields[course]",
        VStr ("title,headline,url,image_480x270,price,published_title,"
                ++ "avg_rating,num_reviews")) ] in
  await (session self
           {| req_method := "GET"; req_url := BASE_URL ++ "/courses";
              req_headers := headers; req_params := query_params |})
    (fun sent =>
       response <- sent ;;
       data <- json response ;;
       results <- getitem data "results" ;;
       _process_udemy_results repr_other results).

Definition make (repr_other : value -> string) (self : t) : provider :=
  Provider (search_courses repr_other self).

End UdemyAPI.

Module EdXAPI.
Import CourseProviderBase.

Definition BASE_URL : string := "https://api.edx.org/catalog/v1".

Definition _process_edx_course (course : value) : result dict :=
  title <- getitem course "title" ;;
  short_description <- getitem course "short_description" ;;
  marketing_url <- getitem course "marketing_url" ;;
  image_url <- getitem course "image_url" ;;
  price <-
    get_method course "price" (VStr "Free to audit, Certificate available") ;;
  start <- get_method course "start" (VStr "Self-paced") ;;
  pacing_type <- get_method course "pacing_type" (VStr "Self-paced") ;;
  id <- getitem course "id" ;;
  Ok [ ("provider", VStr "EdX");
       ("title", title);
       ("description", short_description);
       ("url", marketing_url);
       ("image_url", image_url);
       ("price", price);
       ("start_date", start);
       ("pacing", pacing_type);
       ("provider_id", id) ].

Definition _process_edx_results (courses : value) : result (list dict) :=
  items <- iterate courses ;;
  mapM _process_edx_course items.

Definition search_courses (self : t) (skills : list string) (limit : Z)
  : awaited (list dict) :=
  let headers := [ ("X-Edx-Api-Key", api_key self) ] in
  let query_params :=
    [ ("q", VStr (join " OR " skills));
      ("limit", VInt limit);
      ("fields",
        VStr ("title,short_description,marketing_url,image_url,price,start,"
                ++ "end,pacing_type")) ] in
  await (session self
           {| req_method := "GET"; req_url := BASE_URL ++ "/courses/";
              req_headers := headers; req_params := query_params |})
    (fun sent =>
       response <- sent ;;
       data <- json response ;;
       results <- getitem data "results" ;;
       _process_edx_results results).

Definition make (self : t) : provider := Provider (search_courses self).

End EdXAPI.

(* ===================================================================== *)
(** * The aggregator *)
(* ===================================================================== *)

(** One entry of the mapping [search_all_providers] returns:
    [{'error': ..., 'courses': ...}]. *)
Record bucket : Type := {
  error : option string;
  courses : list dict
}.

(** [d[k] = v] on a dict kept as its item list. *)
Fixpoint setitem {V : Type} (d : list (string * V)) (k : string) (v : V)
  : list (string * V) :=
  match d with
  | [] => [(k, v)]
  | (k', v') :: r =>
      if String.eqb k k' then (k', v) :: r else (k', v') :: setitem r k v
  end.

Module CourseAggregator.

Record t : Type := {
  coursera : provider;
  udemy : provider;
  edx : provider
}.

(** [_get_numeric_price(price)]. *)
Definition _get_numeric_price (price : value) : result spec_float :=
  match price with
  | VBool _ | VInt _ | VFloat _ => py_float price
  | VStr s =>
      try_except (py_float (VStr (filter_chars isdigit s)))
        (fun e =>
           if isinstance_exn e ValueError then Ok float_zero else Raise e)
  | _ => Ok float_zero
  end.

(** The condition of the price comprehension of [_apply_filters]; [and]
    evaluates its right operand only when the left one holds. *)
Definition in_price_range (min_price max_price : pynum) (course : dict)
  : result bool :=
  low <- _get_numeric_price (dict_get_default course "price" (VInt 0)) ;;
  if num_ge (NFloat low) min_price then
    high <- _get_numeric_price (dict_get_default course "price" (VInt 0)) ;;
    Ok (num_le (NFloat high) max_price)
  else Ok false.

(** One turn of the loop over [filters.items()]. *)
Definition keep_equal (filtered_courses : list dict) (item : string * value)
  : list dict :=
  filter (fun course => py_eq (dict_get course (fst item)) (snd item))
    filtered_courses.

(** The truth value of an optional dict: [None] and [{}] are false. *)
Definition nonempty (filters : option dict) : bool :=
  match filters with
  | Some (_ :: _) => true
  | _ => false
  end.

(** [_apply_filters(courses, filters, price_range)].  A price range is
    [None] or a pair, and a pair is true. *)
Definition _apply_filters (courses : list dict) (filters : option dict)
    (price_range : option (pynum * pynum)) : result (list dict) :=
  if negb (nonempty filters)
     && negb (match price_range with Some _ => true | None => false end)
  then Ok courses
  else
    let filtered_courses :=
      match filters with
      | Some items =>
          if nonempty filters then fold_left keep_equal items courses
          else courses
      | None => courses
      end in
    match price_range with
    | Some (min_price, max_price) =>
        filterM (in_price_range min_price max_price) filtered_courses
    | None => Ok filtered_courses
    end.

(** The closure [get_sort_key] of [_sort_courses]. *)
Definition get_sort_key (sort_by : string) (course : dict) : result pynum :=
  if String.eqb sort_by "price" then
    p <- _get_numeric_price (dict_get_default course "price" (VInt 0)) ;;
    Ok (NFloat p)
  else if String.eqb sort_by "rating" then
    r <- py_float (dict_get_default course "rating" (VInt 0)) ;;
    Ok (NFloat r)
  else if String.eqb sort_by "reviews" then
    n <- py_int (dict_get_default course "reviews" (VInt 0)) ;;
    Ok (NInt n)
  else Ok (NInt 0).

(** [_sort_courses(courses, sort_by)]: [None] and [''] are false. *)
Definition _sort_courses (courses : list dict) (sort_by : option string)
  : result (list dict) :=
  match sort_by with
  | None => Ok courses
  | Some key =>
      if String.eqb key "" then Ok courses
      else sorted_reverse (get_sort_key key) courses
  end.

(** [_safe_provider_search(provider, skills, limit)]. *)
Definition _safe_provider_search (p : provider) (skills : list string)
    (limit : Z) : result (list dict) :=
  try_except (wait_for (search_courses p skills limit))
    (fun e =>
       if isinstance_exn e TimeoutError
       then Raise (Exn TimeoutError "Request timed out")
       else Raise e).

(** The bucket the first loop of [search_all_providers] makes of one
    outcome.  With [return_exceptions=True], [asyncio.gather] hands every
    task's exception over as a value, and every exception modelled here is
    an [Exception]. *)
Definition bucket_of (outcome : result (list dict)) : bucket :=
  match outcome with
  | Raise e => {| error := Some (exn_str e); courses := [] |}
  | Ok found => {| error := None; courses := found |}
  end.

(** The first loop of [search_all_providers], over
    [zip(['coursera', 'udemy', 'edx'], results)]. *)
Definition collect (outcomes : list (string * result (list dict)))
  : list (string * bucket) :=
  fold_left
    (fun processed_results item =>
       setitem processed_results (fst item) (bucket_of (snd item)))
    outcomes [].

(** The body of the second loop, for one provider. *)
Definition refine (sort_by : option string) (filters : option dict)
    (price_range : option (pynum * pynum)) (entry : string * bucket)
  : result (string * bucket) :=
  match error (snd entry) with
  | None =>
      kept <- _apply_filters (courses (snd entry)) filters price_range ;;
      ranked <- _sort_courses kept sort_by ;;
      Ok (fst entry, {| error := None; courses := ranked |})
  | Some _ => Ok entry
  end.

(** [search_all_providers(skills, limit_per_provider, sort_by, filters,
    price_range)].  The sessions the [async with] opens and closes are the
    adapters' own and are part of [self]. *)
Definition search_all_providers (self : t) (skills : list string)
    (limit_per_provider : Z) (sort_by : option string)
    (filters : option dict) (price_range : option (pynum * pynum))
  : result (list (string * bucket)) :=
  let tasks :=
    map (fun p => _safe_provider_search p skills limit_per_provider)
      [coursera self; udemy self; edx self] in
  let results := tasks in
  let processed_results :=
    collect (combine ["coursera"; "udemy"; "edx"] results) in
  mapM (refine sort_by filters price_range) processed_results.

(** [CourseAggregator(api_keys)] over the three sessions. *)
Definition make (repr_other : value -> string)
    (sessions : string -> client_session) (api_keys : string -> string) : t :=
  let base name :=
    {| CourseProviderBase.api_key := api_keys name;
       CourseProviderBase.api_secret := None;
       CourseProviderBase.session := sessions name |} in
  {| coursera := CourseraAPI.make repr_other (base "coursera");
     udemy := UdemyAPI.make repr_other (base "udemy");
     edx := EdXAPI.make (base "edx") |}.

End CourseAggregator.

(* ===================================================================== *)
(** * Vocabulary of the properties *)
(* ===================================================================== *)

(** The key of [x] is at least the key of [y]. *)
Definition key_ge {A : Type} (key : A -> result pynum) (x y : A) : Prop :=
  exists a b, key x = Ok a /\ key y = Ok b /\ num_ge a b = true.

(** The key of [x] equals [k]. *)
Definition key_is {A : Type} (key : A -> result pynum) (k : pynum) (x : A)
  : bool :=
  match key x with
  | Ok a => num_eq a k
  | Raise _ => false
  end.

(** A pair the decoration step of [sorted] can have made. *)
Definition decorated {A : Type} (key : A -> result pynum) (p : pynum * A)
  : Prop :=
  key (snd p) = Ok (fst p) /\ ordered (fst p).

(** [key] returns an ordered number on [x]. *)
Definition keyed {A : Type} (key : A -> result pynum) (x : A) : Prop :=
  exists k, key x = Ok k /\ ordered k.

(** The digit characters of [s], in order. *)
Definition digits_of (s : string) : list ascii :=
  list_ascii_of_string (filter_chars isdigit s).

(** The float a run of kept characters stands for: the nearest to the
    integer they write when there is one and all are decimal digits, and
    [0.0] when there is none or [float] rejects one of them. *)
Definition float_of_kept (ds : list ascii) : spec_float :=
  match ds with
  | [] => float_zero
  | _ =>
      if forallb isdecimal ds then Z_to_float (Z_of_digits ds) else float_zero
  end.

(** The superscript two, a digit for [str.isdigit] that [float] does not
    read. *)
Definition superscript_two : string := String (ascii_of_nat 178) EmptyString.

(** The float the literal [49.99] denotes. *)
Definition float_49_99 : spec_float := S754_finite false 7035467042882847 (-47).

(** The rule as the design document words it, for comparison with
    [_get_numeric_price]: a number is used directly; of a string, the
    longest contiguous run of digit characters (the first of them if
    several are as long) is read as a decimal number, and [0.0] stands in
    when there is no digit. *)
Fixpoint digit_runs (current : list ascii) (l : list ascii)
  : list (list ascii) :=
  match l with
  | [] => [rev current]
  | c :: r =>
      if isdecimal c then digit_runs (c :: current) r
      else rev current :: digit_runs [] r
  end.

Definition longest_digit_run (s : string) : list ascii :=
  fold_left
    (fun best run =>
       if (List.length best <? List.length run)%nat then run else best)
    (digit_runs [] (list_ascii_of_string s)) [].

Definition spec_derive_price (price : value) : result spec_float :=
  match price with
  | VBool _ | VInt _ | VFloat _ => py_float price
  | VStr s =>
      match longest_digit_run s with
      | [] => Ok float_zero
      | run => Ok (Z_to_float (Z_of_digits run))
      end
  | _ => Ok float_zero
  end.

(** [course] passes every equality filter of [items]. *)
Definition satisfies (items : dict) (course : dict) : bool :=
  forallb (fun item => py_eq (dict_get course (fst item)) (snd item)) items.

(** The derived numeric price of [course] lies in [[low, high]]. *)
Definition price_within (low high : pynum) (course : dict) : Prop :=
  exists p,
    CourseAggregator._get_numeric_price
      (dict_get_default course "price" (VInt 0)) = Ok p
    /\ num_ge (NFloat p) low = true /\ num_le (NFloat p) high = true.

(** The equality filters of an optional filter mapping. *)
Definition items_of (filters : option dict) : dict :=
  match filters with
  | Some items => items
  | None => []
  end.

(** Sample courses used to run the properties on concrete data. *)
Definition sample_course (title language : string) (price : value)
    (rating : Z) : dict :=
  [ ("title", VStr title); ("language", VStr language); ("price", price);
    ("rating", VInt rating) ].

Definition sample_courses : list dict :=
  [ sample_course "Intro to Python" "English" (VStr "$30") 3;
    sample_course "Python avance" "French" (VStr "$20") 5;
    sample_course "Data Science" "English" (VInt 50) 5;
    sample_course "Deep Learning" "English" (VStr "$120") 1 ].

(** The upstream fields each adapter reads with a subscript. *)
Definition coursera_required : list string :=
  ["name"; "description"; "slug"; "id"].

Definition udemy_required : list string :=
  ["title"; "headline"; "url"; "image_480x270"; "price"; "avg_rating";
   "num_reviews"; "id"].

Definition edx_required : list string :=
  ["title"; "short_description"; "marketing_url"; "image_url"; "id"].

(** A normalized record that has both a title and a url. *)
Definition has_title_and_url (course : dict) : Prop :=
  (exists title, lookup "title" course = Some title)
  /\ (exists url, lookup "url" course = Some url).

(** The price every Coursera record is given. *)
Definition coursera_price : string := "Free to audit, Certificate available".

(** Formatting of floats and containers in the sample runs, which format
    neither. *)
Definition no_repr (v : value) : string := "".

(** The filter and sort stage of [search_all_providers] on the courses of
    one provider. *)
Definition stage (sort_by : option string) (filters : option dict)
    (price_range : option (pynum * pynum)) (found : list dict)
  : result (list dict) :=
  kept <- CourseAggregator._apply_filters found filters price_range ;;
  CourseAggregator._sort_courses kept sort_by.

(** The three adapters of an aggregator under their names, in the order
    [search_all_providers] lists them. *)
Definition providers (self : CourseAggregator.t) : list (string * provider) :=
  [ ("coursera", CourseAggregator.coursera self);
    ("udemy", CourseAggregator.udemy self);
    ("edx", CourseAggregator.edx self) ].

(** The entry of [name] in a response. *)
Fixpoint bucket_at (name : string) (found : list (string * bucket))
  : option bucket :=
  match found with
  | [] => None
  | (name', b) :: r => if String.eqb name name' then Some b else bucket_at name r
  end.





(** A session that answers every request with [sent]. *)
Definition answering (sent : result response) : client_session :=
  fun _ => Finished sent.


Definition ok_response (body : value) : result response :=
  Ok {| status := 200; json := Ok body |}.

(** A session that answers only the request whose query parameter [name]
    is [query] and whose parameter [size] is [limit], and keeps every other
    request waiting. *)
Definition answering_only (name : string) (query : string) (size : string)
    (limit : Z) (sent : result response) : client_session :=
  fun req =>
    match lookup name (req_params req), lookup size (req_params req) with
    | Some (VStr q), Some (VInt n) =>
        if String.eqb q query && (n =? limit) then Finished sent else Pending
    | _, _ => Pending
    end.

Definition coursera_record (id name slug : string) : value :=
  VDict [ ("id", VStr id); ("name", VStr name);
          ("description", VStr "An introduction"); ("slug", VStr slug) ].

Definition udemy_record (id : Z) (title : string) (price avg_rating : value)
  : value :=
  VDict [ ("id", VInt id); ("title", VStr title);
          ("headline", VStr "From zero to hero");
          ("url", VStr "/course/python-bootcamp/");
          ("image_480x270", VStr "https://img.example/480x270.jpg");
          ("price", price); ("avg_rating", avg_rating);
          ("num_reviews", VInt 120) ].

(** How the bucket of a provider follows from the outcome of its search:
    a failure gives the error bucket, a success gives the courses the
    filter and sort stage returns. *)
Definition settles (sort_by : option string) (filters : option dict)
    (price_range : option (pynum * pynum)) (outcome : result (list dict))
    (b : bucket) : Prop :=
  match outcome with
  | Raise e => b = {| error := Some (exn_str e); courses := [] |}
  | Ok found =>
      exists ranked,
        stage sort_by filters price_range found = Ok ranked
        /\ b = {| error := None; courses := ranked |}
  end.

(** Sessions for a sample run: Coursera answers with one course, Udemy
    with one course whose [avg_rating] is [null], edX does not answer in
    time. *)
Definition unrated_sessions (name : string) : client_session :=
  if String.eqb name "coursera" then
    answering
      (ok_response
         (VDict [ ("elements",
                   VList [ coursera_record "c-1" "Machine Learning"
                             "machine-learning" ]) ]))
  else if String.eqb name "udemy" then
    answering
      (ok_response
         (VDict [ ("results",
                   VList [ udemy_record 7 "Python Bootcamp" (VInt 20)
                             VNone ]) ]))
  else fun _ => Pending.

(** Sessions for a sample run with an empty skills list: Coursera answers
    only the request it makes for no skill and ten courses; the others
    fail. *)
Definition empty_query_sessions (name : string) : client_session :=
  if String.eqb name "coursera" then
    answering_only "q" "" "limit" 10
      (ok_response
         (VDict [ ("elements",
                   VList [ coursera_record "c-1" "Machine Learning"
                             "machine-learning" ]) ]))
  else if String.eqb name "udemy" then
    answering (Raise (Exn ClientError "Cannot connect to host www.udemy.com"))
  else fun _ => Pending.

(** Sessions for a sample run with the limit [0]: Udemy answers only the
    request for ["python"] with page size [0]. *)
Definition zero_limit_sessions (name : string) : client_session :=
  if String.eqb name "udemy" then
    answering_only "search" "python" "page_size" 0
      (ok_response
         (VDict [ ("results",
                   VList [ udemy_record 7 "Python Bootcamp" (VInt 20)
                             (VInt 4) ]) ]))
  else fun _ => Pending.

Definition sample_keys (name : string) : string := "key-of-" ++ name.

(** The call is rejected with a validation error of its own, before any
    provider is searched: whatever the sessions do, it raises. *)
Definition rejected_before_dispatch (skills : list string) (limit : Z) : Prop :=
  forall sessions sort_by filters price_range,
  exists e,
    CourseAggregator.search_all_providers
      (CourseAggregator.make no_repr sessions sample_keys) skills limit
      sort_by filters price_range
    = Raise e.

(** The session [s] with every response status replaced by [f] of it. *)
Definition with_status (f : Z -> Z) (s : client_session) : client_session :=
  fun req =>
    match s req with
    | Finished (Ok r) => Finished (Ok {| status := f (status r); json := json r |})
    | other => other
    end.

(** An adapter object with the given key, secret and session. *)
Definition adapter (key : string) (secret : option string)
    (s : client_session) : CourseProviderBase.t :=
  {| CourseProviderBase.api_key := key;
     CourseProviderBase.api_secret := secret;
     CourseProviderBase.session := s |}.

(** The normalized record [c] comes from the upstream record [item]: it
    carries the provider's name, the title found under [title_field] and
    the identifier found under [id]. *)
Definition from_record (name title_field : string) (item : value) (c : dict)
  : Prop :=
  lookup "provider" c = Some (VStr name)
  /\ (exists title,
        getitem item title_field = Ok title /\ lookup "title" c = Some title)
  /\ (exists id,
        getitem item "id" = Ok id /\ lookup "provider_id" c = Some id).

(** What [_apply_filters] keeps: the courses that pass every equality
    filter and, when a price range is given, the range check. *)
Definition retained (filters : option dict)
    (price_range : option (pynum * pynum)) (course : dict) : bool :=
  satisfies (items_of filters) course
  && match price_range with
     | Some (low, high) =>
         match CourseAggregator.in_price_range low high course with
         | Ok b => b
         | Raise _ => false
         end
     | None => true
     end.

(** The courses of [courses] have a sort key for [sort_by], when there is
    one. *)
Definition sortable (sort_by : option string) (courses : list dict) : Prop :=
  match sort_by with
  | Some key => Forall (keyed (CourseAggregator.get_sort_key key)) courses
  | None => True
  end.

(** The aggregator of the sample run with its Udemy adapter replaced by
    one that never answers. *)
Definition without_udemy (self : CourseAggregator.t) : CourseAggregator.t :=
  {| CourseAggregator.coursera := CourseAggregator.coursera self;
     CourseAggregator.udemy := Provider (fun _ _ => Pending);
     CourseAggregator.edx := CourseAggregator.edx self |}.

(** The buckets of the three providers before the filter and sort stage. *)
Definition raw_buckets (self : CourseAggregator.t) (skills : list string)
    (limit : Z) : list (string * bucket) :=
  map
    (fun entry =>
       (fst entry,
        CourseAggregator.bucket_of
          (CourseAggregator._safe_provider_search (snd entry) skills limit)))
    (providers self).

(** Sessions for a run in which only edX answers, with one course whose
    price is the int [2^1024]. *)
Definition overpriced_sessions (name : string) : client_session :=
  if String.eqb name "edx" then
    answering
      (ok_response
         (VDict [ ("results",
                   VList [ VDict [ ("id", VStr "e-1");
                                   ("title", VStr "Linear Algebra");
                                   ("short_description",
                                     VStr "Vectors and matrices");
                                   ("marketing_url",
                                     VStr "https://www.edx.org/la");
                                   ("image_url", VNone);
                                   ("price", VInt (2 ^ 1024)) ] ]) ]))
  else fun _ => Pending.

(** The fields of the records each mapping builds. *)
Definition coursera_fields : list string :=
  [ "provider"; "title"; "description"; "url"; "image_url"; "duration";
    "language"; "certificate"; "start_date"; "price"; "provider_id" ].

Definition udemy_fields : list string :=
  [ "provider"; "title"; "description"; "url"; "image_url"; "price";
    "rating"; "reviews"; "provider_id" ].

Definition edx_fields : list string :=
  [ "provider"; "title"; "description"; "url"; "image_url"; "price";
    "start_date"; "pacing"; "provider_id" ].

(** The bucket of [name] in a response holds no course. *)
Definition no_courses (name : string) (found : list (string * bucket))
  : Prop :=
  forall b, bucket_at name found = Some b -> courses b = [].

(* ===================================================================== *)
(** * The two runs: [run_courses.py] and [run_courses_interactive.py] *)
(* ===================================================================== *)

(** The line feed. *)
Definition nl : string := String (ascii_of_nat 10) EmptyString.

(** The standard output as [print] meets it: a text is written, or the
    write raises, as it does with [UnicodeEncodeError] on a character the
    stream cannot encode and with [BrokenPipeError] on a closed pipe.
    Among the classes listed, [UnicodeEncodeError] counts as the
    [ValueError] and [BrokenPipeError] as the [ConnectionError] it derives
    from. *)
Definition stream : Type := string -> option exn.

(** A stream that writes every text. *)
Definition writes_all (out : stream) : Prop := forall text, out text = None.

(** A piece of code that prints: the texts its [print] calls have written,
    in order, and how it went on. *)
Definition printing (A : Type) : Type := (list string * result A)%type.

(** [print(text)]: a write that raises has written nothing. *)
Definition print (out : stream) (text : string) : printing unit :=
  match out text with
  | None => ([text], Ok tt)
  | Some e => ([], Raise e)
  end.

Definition quiet {A : Type} (r : result A) : printing A := ([], r).

Definition and_then {A B : Type} (c : printing A) (k : A -> printing B)
  : printing B :=
  match snd c with
  | Ok a => (fst c ++ fst (k a), snd (k a))%list
  | Raise e => (fst c, Raise e)
  end.

Notation "x <~ c ;; k" := (and_then c (fun x => k))
  (at level 61, c at next level, right associativity) : py_scope.

(** A [for] loop whose body prints. *)
Fixpoint for_each {A : Type} (l : list A) (body : A -> printing unit)
  : printing unit :=
  match l with
  | [] => ([], Ok tt)
  | x :: r => _ <~ body x ;; for_each r body
  end.

(** [try: body except Exception as e: print(f"An error occurred: {str(e)}")]:
    what has been printed stays, and the message follows if it can be
    written. *)
Definition reporting (out : stream) (body : printing unit) : printing unit :=
  match snd body with
  | Ok _ => body
  | Raise e =>
      _ <~ (fst body, Ok tt) ;; print out ("An error occurred: " ++ exn_str e)
  end.

(** [str.upper] on one character: the small letters become capitals and
    the sharp s becomes [SS].  The capitals of the micro sign and of the y
    with diaeresis lie beyond the code points of the model; the two are
    left as they are. *)
Definition upper_char (c : ascii) : string :=
  if ((97 <=? code c) && (code c <=? 122))
     || ((224 <=? code c) && (code c <=? 254) && negb (code c =? 247))
  then String (ascii_of_nat (nat_of_ascii c - 32)) EmptyString
  else if code c =? 223 then "SS"
  else String c EmptyString.

Fixpoint upper (s : string) : string :=
  match s with
  | EmptyString => EmptyString
  | String c r => upper_char c ++ upper r
  end.

(** [str.strip()] and [str.split(sep)] for a separator of one character. *)
Definition str_strip (s : string) : string :=
  string_of_list_ascii (strip isspace (list_ascii_of_string s)).

Fixpoint split_parts (sep : ascii) (s : string) : string * list string :=
  match s with
  | EmptyString => (EmptyString, [])
  | String c r =>
      let (part, parts) := split_parts sep r in
      if Ascii.eqb c sep then (EmptyString, part :: parts)
      else (String c part, parts)
  end.

Definition split (sep : ascii) (s : string) : list string :=
  let (part, parts) := split_parts sep s in part :: parts.

Module run_courses.

Definition API_KEYS : dict :=
  [ ("coursera", VStr "your_coursera_api_key");
    ("udemy", VStr "your_udemy_api_key");
    ("edx", VStr "your_edx_api_key") ].

(** [API_KEYS[name]] for the three names the aggregator asks for. *)
Definition api_key_of (name : string) : string :=
  match lookup name API_KEYS with
  | Some (VStr key) => key
  | _ => EmptyString
  end.

(** The body of the loop over the courses of a bucket. *)
Definition show_course (repr_other : value -> string) (out : stream)
    (course : dict) : printing unit :=
  _ <~ print out (nl ++ "---") ;;
  title <~ quiet (getitem (VDict course) "title") ;;
  _ <~ print out ("Title: " ++ py_str repr_other title) ;;
  price <~ quiet (getitem (VDict course) "price") ;;
  _ <~ print out ("Price: " ++ py_str repr_other price) ;;
  url <~ quiet (getitem (VDict course) "url") ;;
  _ <~ print out ("URL: " ++ py_str repr_other url) ;;
  match lookup "rating" course with
  | Some rating => print out ("Rating: " ++ py_str repr_other rating)
  | None => ([], Ok tt)
  end.

(** The body of the loop over [results.items()].  An error is shown when
    it is truthy, that is, a message that is not empty. *)
Definition show_provider (repr_other : value -> string) (out : stream)
    (item : string * bucket) : printing unit :=
  let provider := fst item in
  let data := snd item in
  _ <~ print out (nl ++ upper provider ++ ":") ;;
  match error data with
  | Some (String c r) => print out ("Error: " ++ String c r)
  | _ =>
      _ <~ print out ("Found "
                        ++ py_str repr_other
                             (VInt (Z.of_nat (List.length (courses data))))
                        ++ " courses:") ;;
      for_each (courses data) (show_course repr_other out)
  end.

(** The search [main] makes. *)
Definition search (repr_other : value -> string)
    (sessions : string -> client_session)
  : result (list (string * bucket)) :=
  let aggregator := CourseAggregator.make repr_other sessions api_key_of in
  CourseAggregator.search_all_providers aggregator
    ["python"; "machine learning"] 5 (Some "rating")
    (Some [("language", VStr "English")]) (Some (NInt 0, NInt 100)).

(** [main()]: what it prints and how it ends, given what the standard
    output and the three sessions do. *)
Definition main (repr_other : value -> string) (out : stream)
    (sessions : string -> client_session) : printing unit :=
  reporting out
    (results <~ quiet (search repr_other sessions) ;;
     _ <~ print out (nl ++ "=== Course Search Results ===" ++ nl) ;;
     for_each results (show_provider repr_other out)).

End run_courses.

Module run_courses_interactive.

Record search_params : Type := {
  skills : list string;
  limit_per_provider : Z;
  sort_by : option string;
  filters : option dict;
  price_range : option (pynum * pynum)
}.

(** [x or None] for a str [x]. *)
Definition or_None (x : string) : option string :=
  match x with
  | EmptyString => None
  | _ => Some x
  end.

(** The parameters [main] builds from the four lines it reads with
    [input()], each without its line end.  Its [float(max_price)] is made
    before the [try] of [main]. *)
Definition read_search_params (skills_line max_price sort_line
    language_line : string) : result search_params :=
  let skills := map str_strip (split ","%char skills_line) in
  price_range <-
    match max_price with
    | EmptyString => Ok None
    | _ => high <- float_of_str max_price ;; Ok (Some (NInt 0, NFloat high))
    end ;;
  let sort_by := or_None sort_line in
  let language := or_None language_line in
  let filters :=
    match language with
    | Some l => [("language", VStr l)]
    | None => []
    end in
  Ok {| skills := skills;
        limit_per_provider := 5;
        sort_by := sort_by;
        filters := match filters with [] => None | _ => Some filters end;
        price_range := price_range |}.

(** The search [main] makes with these parameters. *)
Definition search (repr_other : value -> string)
    (sessions : string -> client_session) (params : search_params)
  : result (list (string * bucket)) :=
  let aggregator :=
    CourseAggregator.make repr_other sessions run_courses.api_key_of in
  CourseAggregator.search_all_providers aggregator (skills params)
    (limit_per_provider params) (sort_by params) (filters params)
    (price_range params).

End run_courses_interactive.

(** The lines [main] of [run_courses.py] prints for one course of the
    Coursera bucket. *)
Definition coursera_card (repr_other : value -> string) (course : dict)
  : list string :=
  [ nl ++ "---";
    "Title: " ++ py_str repr_other (dict_get course "title");
    "Price: Free to audit, Certificate available";
    "URL: " ++ py_str repr_other (dict_get course "url") ].

(** The lines for a bucket that shows no course: the count [0], or the
    error of the provider. *)
Definition shows_no_course (lines : list string) : Prop :=
  lines = ["Found 0 courses:"]
  \/ exists message, message <> EmptyString /\ lines = ["Error: " ++ message].

(** A course taught in English, as the filter of [run_courses.py] has it. *)
Definition in_english (course : dict) : bool :=
  py_eq (dict_get course "language") (VStr "English").

(** A string that neither starts nor ends with whitespace. *)
Definition stripped (s : string) : Prop :=
  lstrip isspace (list_ascii_of_string s) = list_ascii_of_string s
  /\ lstrip isspace (rev (list_ascii_of_string s))
     = rev (list_ascii_of_string s).

(** The number of occurrences of [c] in [s]. *)
Fixpoint count_char (c : ascii) (s : string) : nat :=
  match s with
  | EmptyString => 0
  | String c' r => (if Ascii.eqb c' c then 1 else 0) + count_char c r
  end.

(** The decimal text of a count, as an f-string shows it. *)
Definition decimal (n : nat) : string :=
  NilZero.string_of_int (Z.to_int (Z.of_nat n)).

(** The bucket of the Coursera adapter before the filter and sort stage,
    in a run of [run_courses.py]. *)
Definition coursera_answer (repr_other : value -> string)
    (sessions : string -> client_session) : bucket :=
  CourseAggregator.bucket_of
    (CourseAggregator._safe_provider_search
       (CourseAggregator.coursera
          (CourseAggregator.make repr_other sessions run_courses.api_key_of))
       ["python"; "machine learning"] 5).

(** A standard output that writes everything. *)
Definition terminal : stream := fun _ => None.

(** The first line [main] prints after the search, and the line that
    opens the lines of a provider. *)
Definition banner : string := nl ++ "=== Course Search Results ===" ++ nl.

Definition heading (name : string) : string := nl ++ name ++ ":".

(** The key the design document ranks by, section 4.5, on a course whose
    selected field is absent or holds a number: for [price] the derived
    numeric price; for [rating] the rating as a float, [0.0] when absent;
    for [reviews] the count of reviews, [0] when absent.  There is none
    when the field holds something else, or an int beyond the floats. *)
Definition selected_key (sort_by : string) (course : dict) : option pynum :=
  if String.eqb sort_by "price" then
    match CourseAggregator._get_numeric_price
            (dict_get_default course "price" (VInt 0)) with
    | Ok p => Some (NFloat p)
    | Raise _ => None
    end
  else if String.eqb sort_by "rating" then
    match lookup "rating" course with
    | None => Some (NFloat float_zero)
    | Some (VFloat f) => Some (NFloat f)
    | Some (VInt z) =>
        if is_infinite (Z_to_float z) then None
        else Some (NFloat (Z_to_float z))
    | Some _ => None
    end
  else if String.eqb sort_by "reviews" then
    match lookup "reviews" course with
    | None => Some (NInt 0)
    | Some (VInt z) => Some (NInt z)
    | Some _ => None
    end
  else None.

(** The selected key of [course] is a number that takes part in the
    order. *)
Definition has_ordered_key (sort_by : string) (course : dict) : Prop :=
  exists k, selected_key sort_by course = Some k /\ ordered k.

(** The selected key of [x] is at least that of [y]. *)
Definition not_below (sort_by : string) (x y : dict) : Prop :=
  exists a b,
    selected_key sort_by x = Some a /\ selected_key sort_by y = Some b
    /\ num_ge a b = true.

(** The selected key of [course] equals [k]. *)
Definition has_key (sort_by : string) (k : pynum) (course : dict) : bool :=
  match selected_key sort_by course with
  | Some a => num_eq a k
  | None => false
  end.

(** Sample courses with and without a count of reviews. *)
Definition reviewed_course (title : string) (reviews : option Z) : dict :=
  ("title", VStr title)
    :: match reviews with
       | Some n => [("reviews", VInt n)]
       | None => []
       end.

Definition reviewed_courses : list dict :=
  [ reviewed_course "Intro to Python" (Some 10);
    reviewed_course "Python avance" None;
    reviewed_course "Data Science" (Some 250);
    reviewed_course "Deep Learning" (Some 10) ].

(** Sample courses one of which has a NaN for a rating. *)
Definition rated_course (title : string) (rating : spec_float) : dict :=
  [ ("title", VStr title); ("rating", VFloat rating) ].

Definition nan_rated_courses : list dict :=
  [ rated_course "Intro to Python" (Z_to_float 2);
    rated_course "Python avance" S754_nan;
    rated_course "Data Science" (Z_to_float 3) ].

(** The first of [fields], in the order given, that [d] does not have. *)
Fixpoint first_missing (fields : list string) (d : dict) : option string :=
  match fields with
  | [] => None
  | field :: rest =>
      match lookup field d with
      | None => Some field
      | Some _ => first_missing rest d
      end
  end.

(** The title and the url of the normalized record [c] are taken from the
    upstream record [item]: the title is what [item] holds under
    [title_field], and the url is [url_of] of what it holds under
    [url_field]. *)
Definition title_and_url_from (title_field url_field : string)
    (url_of : value -> value) (item : value) (c : dict) : Prop :=
  (exists title,
      getitem item title_field = Ok title /\ lookup "title" c = Some title)
  /\ (exists source,
        getitem item url_field = Ok source
        /\ lookup "url" c = Some (url_of source)).

(** The url of a Coursera record whose slug is [slug]. *)
Definition coursera_url (repr_other : value -> string) (slug : value)
  : value :=
  VStr ("https://www.coursera.org/learn/" ++ py_str repr_other slug).

(** The language step of the Coursera mapping on the record [d]:
    [course.get('primaryLanguages', ['English'])[0]]. *)
Definition coursera_language (d : dict) : result value :=
  getitem0 (dict_get_default d "primaryLanguages" (VList [VStr "English"])).

(* ===================================================================== *)
(** * Lemmas: the order on numbers *)
(* ===================================================================== *)

Lemma xcompare_antisym (a b : xreal) : xcompare b a = CompOpp (xcompare a b).
Proof.
  destruct a, b; simpl; try reflexivity.
  symmetry; apply Qcompare_antisym.
Qed.

Lemma xcompare_refl (a : xreal) : xcompare a a = Eq.
Proof.
  destruct a; simpl; try reflexivity.
  apply Qeq_alt; reflexivity.
Qed.

(** [a >= b] and [b >= c] give [a >= c]. *)
Lemma xcompare_not_lt_trans (a b c : xreal) :
  xcompare a b <> Lt -> xcompare b c <> Lt -> xcompare a c <> Lt.
Proof.
  destruct a as [|p|], b as [|q|], c as [|r|]; simpl;
    try congruence; intros Hab Hbc.
  rewrite <- Qlt_alt in *.
  apply Qle_not_lt.
  apply Qle_trans with q; apply Qnot_lt_le; assumption.
Qed.

Lemma num_lt_asym (a b : pynum) : num_lt a b = true -> num_lt b a = false.
Proof.
  unfold num_lt, num_compare.
  destruct (num_value a) as [x|], (num_value b) as [y|]; try discriminate.
  rewrite (xcompare_antisym x y).
  destruct (xcompare x y); simpl; congruence.
Qed.

Lemma num_lt_negtrans (a b c : pynum) :
  ordered a -> ordered b -> ordered c ->
  num_lt a b = false -> num_lt b c = false -> num_lt a c = false.
Proof.
  unfold ordered, num_lt, num_compare.
  destruct (num_value a) as [x|], (num_value b) as [y|],
    (num_value c) as [z|]; try congruence.
  intros _ _ _ Hab Hbc.
  assert (H : xcompare x z <> Lt).
  { apply xcompare_not_lt_trans with y.
    - destruct (xcompare x y); congruence.
    - destruct (xcompare y z); congruence. }
  destruct (xcompare x z); congruence.
Qed.

(** On ordered numbers, [not (a < b)] is [a >= b]. *)
Lemma num_ge_iff_not_lt (a b : pynum) :
  ordered a -> ordered b -> num_ge a b = negb (num_lt a b).
Proof.
  unfold ordered, num_ge, num_le, num_lt, num_compare.
  destruct (num_value a) as [x|], (num_value b) as [y|]; try congruence.
  intros _ _. rewrite (xcompare_antisym x y).
  destruct (xcompare x y); reflexivity.
Qed.

(** On ordered numbers, [a == b] is [not (a < b) and not (b < a)]. *)
Lemma num_eq_iff_incomparable (a b : pynum) :
  ordered a -> ordered b ->
  num_eq a b = negb (num_lt a b) && negb (num_lt b a).
Proof.
  unfold ordered, num_eq, num_lt, num_compare.
  destruct (num_value a) as [x|], (num_value b) as [y|]; try congruence.
  intros _ _. rewrite (xcompare_antisym x y).
  destruct (xcompare x y); reflexivity.
Qed.

Lemma ordered_int (z : Z) : ordered (NInt z).
Proof. unfold ordered; simpl; discriminate. Qed.

(* ===================================================================== *)
(** * Lemmas: the stable sort *)
(* ===================================================================== *)

Section ListSortFacts.
Context {K A : Type}.
Variable lt : K -> K -> bool.
Variable P : K -> Prop.
Hypothesis lt_asym : forall a b, lt a b = true -> lt b a = false.
Hypothesis lt_negtrans :
  forall a b c, P a -> P b -> P c ->
    lt a b = false -> lt b c = false -> lt a c = false.

Lemma insert_perm (x : K * A) (l : list (K * A)) :
  Permutation (insert lt x l) (x :: l).
Proof.
  induction l as [|y r IH]; simpl.
  - apply Permutation_refl.
  - destruct (lt (fst y) (fst x)).
    + eapply perm_trans; [apply perm_skip, IH | apply perm_swap].
    + apply Permutation_refl.
Qed.

Lemma stable_sort_perm (l : list (K * A)) : Permutation (stable_sort lt l) l.
Proof.
  induction l as [|x r IH]; simpl.
  - apply perm_nil.
  - eapply perm_trans; [apply insert_perm | apply perm_skip, IH].
Qed.

Lemma sort_reverse_perm (l : list (K * A)) : Permutation (sort_reverse lt l) l.
Proof.
  unfold sort_reverse.
  eapply perm_trans; [symmetry; apply Permutation_rev |].
  eapply perm_trans; [apply stable_sort_perm |].
  symmetry; apply Permutation_rev.
Qed.

Lemma insert_ascending (x : K * A) (l : list (K * A)) :
  P (fst x) -> Forall (fun y => P (fst y)) l ->
  ascending lt l -> ascending lt (insert lt x l).
Proof.
  intros Px Pl Hl. induction Hl as [|y r Hr IH Hy]; simpl.
  - constructor; constructor.
  - apply Forall_cons_iff in Pl as [Py Pr].
    destruct (lt (fst y) (fst x)) eqn:E.
    + constructor; [apply IH, Pr |].
      apply Forall_forall. intros z Hz.
      apply (Permutation_in _ (insert_perm x r)) in Hz as [<- | Hz].
      * apply lt_asym, E.
      * exact (proj1 (Forall_forall _ _) Hy z Hz).
    + constructor; [constructor; assumption |].
      constructor; [exact E |].
      apply Forall_forall. intros z Hz.
      apply lt_negtrans with (fst y); auto.
      * exact (proj1 (Forall_forall _ _) Pr z Hz).
      * exact (proj1 (Forall_forall _ _) Hy z Hz).
Qed.

Lemma stable_sort_ascending (l : list (K * A)) :
  Forall (fun y => P (fst y)) l -> ascending lt (stable_sort lt l).
Proof.
  induction l as [|x r IH]; simpl; intros Pl.
  - constructor.
  - apply Forall_cons_iff in Pl as [Px Pr].
    apply insert_ascending; auto.
    apply Forall_forall. intros z Hz.
    apply (Permutation_in _ (stable_sort_perm r)) in Hz.
    exact (proj1 (Forall_forall _ _) Pr z Hz).
Qed.

Lemma StronglySorted_app_inv {B : Type} (R : B -> B -> Prop) (l1 l2 : list B) :
  StronglySorted R l1 -> StronglySorted R l2 ->
  (forall x y, In x l1 -> In y l2 -> R x y) ->
  StronglySorted R (l1 ++ l2)%list.
Proof.
  intros H1 H2 H. induction H1 as [|x r Hr IH Hx]; simpl.
  - exact H2.
  - constructor.
    + apply IH. intros a b Ha Hb. apply H; [right; exact Ha | exact Hb].
    + apply Forall_app; split; [exact Hx |].
      apply Forall_forall. intros y Hy. apply H; [left; reflexivity | exact Hy].
Qed.

Lemma StronglySorted_rev {B : Type} (R : B -> B -> Prop) (l : list B) :
  StronglySorted R l -> StronglySorted (fun x y => R y x) (rev l).
Proof.
  induction 1 as [|x r Hr IH Hx]; simpl.
  - constructor.
  - apply StronglySorted_app_inv.
    + exact IH.
    + constructor; constructor.
    + intros a b Ha [<- | []].
      apply in_rev in Ha.
      exact (proj1 (Forall_forall _ _) Hx a Ha).
Qed.

Lemma sort_reverse_descending (l : list (K * A)) :
  Forall (fun y => P (fst y)) l -> descending lt (sort_reverse lt l).
Proof.
  intros Pl. unfold sort_reverse, descending.
  apply (StronglySorted_rev (fun x y => lt (fst y) (fst x) = false)).
  apply stable_sort_ascending.
  apply Forall_forall. intros z Hz. apply in_rev in Hz.
  exact (proj1 (Forall_forall _ _) Pl z Hz).
Qed.

Lemma insert_tied (k : K) (x : K * A) (l : list (K * A)) :
  P k -> P (fst x) -> Forall (fun y => P (fst y)) l ->
  filter (tied lt k) (insert lt x l) = filter (tied lt k) (x :: l).
Proof.
  intros Pk Px Pl. induction l as [|y r IH]; [reflexivity |].
  apply Forall_cons_iff in Pl as [Py Pr].
  simpl. destruct (lt (fst y) (fst x)) eqn:E; [| reflexivity].
  simpl. rewrite (IH Pr). simpl.
  destruct (tied lt k x) eqn:Tx, (tied lt k y) eqn:Ty; try reflexivity.
  unfold tied in Tx, Ty.
  apply andb_prop in Tx as [Tx _]. apply andb_prop in Ty as [_ Ty].
  apply negb_true_iff in Tx, Ty.
  rewrite (lt_negtrans (fst y) k (fst x) Py Pk Px Ty Tx) in E.
  discriminate.
Qed.

Lemma stable_sort_tied (k : K) (l : list (K * A)) :
  P k -> Forall (fun y => P (fst y)) l ->
  filter (tied lt k) (stable_sort lt l) = filter (tied lt k) l.
Proof.
  intros Pk. induction l as [|x r IH]; [reflexivity |]. intros Pl.
  apply Forall_cons_iff in Pl as [Px Pr].
  simpl stable_sort. rewrite insert_tied; auto.
  - simpl. rewrite (IH Pr). reflexivity.
  - apply Forall_forall. intros z Hz.
    apply (Permutation_in _ (stable_sort_perm r)) in Hz.
    exact (proj1 (Forall_forall _ _) Pr z Hz).
Qed.

Lemma filter_rev {B : Type} (p : B -> bool) (l : list B) :
  filter p (rev l) = rev (filter p l).
Proof.
  induction l as [|x r IH]; [reflexivity |].
  simpl. rewrite filter_app, IH. simpl.
  destruct (p x); simpl; [reflexivity | apply app_nil_r].
Qed.

(** Stability: the items tied with [k] leave in the order they came in. *)
Lemma sort_reverse_tied (k : K) (l : list (K * A)) :
  P k -> Forall (fun y => P (fst y)) l ->
  filter (tied lt k) (sort_reverse lt l) = filter (tied lt k) l.
Proof.
  intros Pk Pl. unfold sort_reverse.
  rewrite filter_rev, stable_sort_tied, filter_rev, rev_involutive; auto.
  apply Forall_forall. intros z Hz. apply in_rev in Hz.
  exact (proj1 (Forall_forall _ _) Pl z Hz).
Qed.

End ListSortFacts.

(* ===================================================================== *)
(** * Lemmas: loops and [sorted] *)
(* ===================================================================== *)

Lemma mapM_Ok_inv {A B : Type} (f : A -> result B) (l : list A) (ys : list B) :
  mapM f l = Ok ys -> Forall2 (fun x y => f x = Ok y) l ys.
Proof.
  revert ys. induction l as [|x r IH]; simpl; intros ys H.
  - injection H as <-. constructor.
  - destruct (f x) as [y|e] eqn:Fx; simpl in H; [| discriminate].
    destruct (mapM f r) as [zs|e] eqn:Fr; simpl in H; [| discriminate].
    injection H as <-. constructor; auto.
Qed.

Lemma mapM_total {A B : Type} (f : A -> result B) (l : list A) :
  Forall (fun x => exists y, f x = Ok y) l -> exists ys, mapM f l = Ok ys.
Proof.
  induction 1 as [|x r [y Hy] _ [ys Hys]]; simpl.
  - eexists; reflexivity.
  - rewrite Hy, Hys. simpl. eexists; reflexivity.
Qed.

Lemma mapM_Raise_inv {A B : Type} (f : A -> result B) (l : list A) (e : exn) :
  mapM f l = Raise e -> exists x, In x l /\ f x = Raise e.
Proof.
  induction l as [|x r IH]; simpl; intros H; [discriminate |].
  destruct (f x) as [y|e'] eqn:Fx; simpl in H.
  - destruct (mapM f r) as [zs|e''] eqn:Fr; simpl in H; [discriminate |].
    injection H as ->. destruct (IH eq_refl) as [z [Hz Fz]].
    exists z; split; [right |]; assumption.
  - injection H as ->. exists x; split; [left; reflexivity | exact Fx].
Qed.

Lemma map_snd_combine {A B : Type} (R : B -> A -> Prop)
    (l : list A) (ks : list B) :
  Forall2 R ks l -> map snd (combine ks l) = l.
Proof.
  induction 1; simpl; congruence.
Qed.

Lemma Forall2_combine {A B : Type} (R : B -> A -> Prop)
    (l : list A) (ks : list B) :
  Forall2 R ks l -> Forall (fun p => R (fst p) (snd p)) (combine ks l).
Proof.
  induction 1; simpl; constructor; auto.
Qed.

Lemma Forall2_flip {A B : Type} (R : A -> B -> Prop) (l : list A) (ks : list B) :
  Forall2 R l ks -> Forall2 (fun k x => R x k) ks l.
Proof.
  induction 1; constructor; auto.
Qed.

Lemma StronglySorted_map {A B : Type} (R : A -> A -> Prop) (R' : B -> B -> Prop)
    (f : A -> B) (l : list A) :
  (forall x y, In x l -> In y l -> R x y -> R' (f x) (f y)) ->
  StronglySorted R l -> StronglySorted R' (map f l).
Proof.
  intros H S. induction S as [|x r Sr IH Hx]; simpl.
  - constructor.
  - constructor.
    + apply IH. intros a b Ha Hb. apply H; right; assumption.
    + apply Forall_forall. intros y Hy.
      apply in_map_iff in Hy as [z [<- Hz]].
      apply H; [left; reflexivity | right; exact Hz |].
      exact (proj1 (Forall_forall _ _) Hx z Hz).
Qed.

Lemma filter_map_agree {A B : Type} (q : B -> bool) (p : A -> bool)
    (f : A -> B) (l : list A) :
  Forall (fun x => q (f x) = p x) l ->
  filter q (map f l) = map f (filter p l).
Proof.
  induction 1 as [|x r Hx _ IH]; simpl; [reflexivity |].
  rewrite Hx, IH. destruct (p x); reflexivity.
Qed.

Section Sorted.
Context {A : Type}.
Variable key : A -> result pynum.

(** [sorted(l, key=key, reverse=True)] on a list whose keys are all ordered
    numbers: it returns, the outcome has the items of [l], no item comes
    before one with a larger key, and the items of equal key keep the order
    they had in [l]. *)
Lemma sorted_reverse_spec (l : list A) :
  Forall (keyed key) l ->
  exists out,
    sorted_reverse key l = Ok out
    /\ Permutation out l
    /\ StronglySorted (key_ge key) out
    /\ forall k, ordered k -> filter (key_is key k) out = filter (key_is key k) l.
Proof.
  intros Hl.
  destruct (mapM_total key l) as [ks Hks].
  { eapply Forall_impl; [| exact Hl]. intros x [k [Hk _]]. exists k; exact Hk. }
  pose proof (Forall2_flip _ _ _ (mapM_Ok_inv _ _ _ Hks)) as F2.
  assert (Hdec : Forall (decorated key) (combine ks l)).
  { apply Forall_forall. intros [k x] Hin.
    pose proof (proj1 (Forall_forall _ _) (Forall2_combine _ _ _ F2) _ Hin) as Hk.
    simpl in Hk. split; [exact Hk |]. simpl.
    apply in_combine_r in Hin.
    destruct (proj1 (Forall_forall _ _) Hl x Hin) as [k' [Hk' Ok']].
    congruence. }
  set (pairs := combine ks l) in *.
  assert (Hsrt : Forall (decorated key) (sort_reverse num_lt pairs)).
  { apply Forall_forall. intros p Hp.
    apply (Permutation_in _ (sort_reverse_perm num_lt pairs)) in Hp.
    exact (proj1 (Forall_forall _ _) Hdec p Hp). }
  assert (Hord : Forall (fun p : pynum * A => ordered (fst p)) pairs).
  { eapply Forall_impl; [| exact Hdec]. intros p [_ H]; exact H. }
  assert (Htied : forall k, ordered k ->
            forall ps, Forall (decorated key) ps ->
              Forall (fun p => key_is key k (snd p) = tied num_lt k p) ps).
  { intros k Hk ps Hps. eapply Forall_impl; [| exact Hps].
    intros [a x] [Ha Oa]. simpl in *. unfold key_is, tied. rewrite Ha. simpl.
    rewrite num_eq_iff_incomparable by assumption. apply andb_comm. }
  exists (map snd (sort_reverse num_lt pairs)). repeat split.
  - unfold sorted_reverse. rewrite Hks. reflexivity.
  - eapply perm_trans; [apply Permutation_map, sort_reverse_perm |].
    unfold pairs. rewrite (map_snd_combine _ _ _ F2). apply Permutation_refl.
  - eapply StronglySorted_map;
      [| apply (sort_reverse_descending num_lt ordered num_lt_asym
                  num_lt_negtrans pairs Hord)].
    intros p q Hp Hq Hpq.
    destruct (proj1 (Forall_forall _ _) Hsrt p Hp) as [Kp Op].
    destruct (proj1 (Forall_forall _ _) Hsrt q Hq) as [Kq Oq].
    exists (fst p), (fst q). repeat split; try assumption.
    rewrite num_ge_iff_not_lt by assumption. simpl in Hpq. rewrite Hpq.
    reflexivity.
  - intros k Hk.
    rewrite (filter_map_agree _ _ _ _ (Htied k Hk _ Hsrt)).
    rewrite (sort_reverse_tied num_lt ordered num_lt_negtrans k pairs Hk Hord).
    rewrite <- (filter_map_agree _ _ _ _ (Htied k Hk _ Hdec)).
    unfold pairs. rewrite (map_snd_combine _ _ _ F2). reflexivity.
Qed.

(** The first item whose key raises decides the exception. *)
Lemma sorted_reverse_raises (l : list A) (e : exn) :
  sorted_reverse key l = Raise e -> exists x, In x l /\ key x = Raise e.
Proof.
  unfold sorted_reverse. intros H.
  destruct (mapM key l) as [ks|e'] eqn:E; simpl in H; [discriminate |].
  injection H as ->. apply mapM_Raise_inv, E.
Qed.

End Sorted.

(* ===================================================================== *)
(** * Lemmas: reading digits *)
(* ===================================================================== *)

Lemma digit_char (c : ascii) :
  isdigit c = true ->
  isspace_num c = false /\ Ascii.eqb c "-" = false /\ Ascii.eqb c "+" = false
  /\ Ascii.eqb (lower c) "i" = false /\ Ascii.eqb (lower c) "n" = false
  /\ Ascii.eqb c "_" = false /\ Ascii.eqb c "." = false
  /\ Ascii.eqb (lower c) "e" = false.
Proof.
  destruct c as [[] [] [] [] [] [] [] []]; vm_compute; intro H;
    try discriminate H; repeat split.
Qed.

Lemma isdecimal_isdigit (c : ascii) : isdecimal c = true -> isdigit c = true.
Proof. unfold isdigit. intros ->. reflexivity. Qed.

Lemma decimals_digits (l : list ascii) :
  Forall (fun c => isdecimal c = true) l -> Forall (fun c => isdigit c = true) l.
Proof. apply Forall_impl. exact isdecimal_isdigit. Qed.

Lemma digits_of_digits (s : string) :
  Forall (fun c => isdigit c = true) (digits_of s).
Proof.
  unfold digits_of. induction s as [|c r IH]; simpl; [constructor |].
  destruct (isdigit c) eqn:E; simpl; [constructor |]; assumption.
Qed.

Lemma digits_tail_digits (l : list ascii) :
  Forall (fun c => isdecimal c = true) l -> digits_tail l = (l, []).
Proof.
  induction 1 as [|c r Hc _ IH]; simpl; [reflexivity |].
  rewrite Hc, IH. reflexivity.
Qed.

(** On digit characters that are not all decimal, the reading of digits
    stops at the first that is not. *)
Lemma digits_tail_stops (l : list ascii) :
  Forall (fun c => isdigit c = true) l -> forallb isdecimal l = false ->
  exists ds c r,
    digits_tail l = (ds, c :: r) /\ isdigit c = true /\ isdecimal c = false.
Proof.
  induction 1 as [|c r Hc Hr IH]; simpl; [discriminate |].
  destruct (isdecimal c) eqn:D; simpl.
  - intros H. destruct (IH H) as (ds & c' & r' & -> & H1 & H2).
    exists (c :: ds), c', r'. auto.
  - intros _. destruct (digit_char c Hc) as (_ & _ & _ & _ & _ & -> & _).
    exists [], c, r. auto.
Qed.

Lemma lstrip_digit (c : ascii) (r : list ascii) :
  isdigit c = true -> lstrip isspace_num (c :: r) = c :: r.
Proof.
  intros H. simpl. destruct (digit_char c H) as [-> _]. reflexivity.
Qed.

Lemma strip_digits (l : list ascii) :
  Forall (fun c => isdigit c = true) l -> strip isspace_num l = l.
Proof.
  intros H. unfold strip.
  assert (L : forall l', Forall (fun c => isdigit c = true) l' ->
                         lstrip isspace_num l' = l').
  { intros [|c r] H'; [reflexivity |].
    apply lstrip_digit. exact (Forall_inv H'). }
  rewrite (L l H), (L (rev l)), rev_involutive; [reflexivity |].
  apply Forall_rev, H.
Qed.

(** [float] of a non-empty run of decimal digits is the float nearest to
    the integer they write. *)
Lemma float_of_str_digits (s : string) :
  Forall (fun c => isdecimal c = true) (list_ascii_of_string s) ->
  s <> "" ->
  float_of_str s = Ok (Z_to_float (Z_of_digits (list_ascii_of_string s))).
Proof.
  intros H Hne. unfold float_of_str.
  rewrite (strip_digits _ (decimals_digits _ H)).
  destruct s as [|c r]; [congruence |]. simpl list_ascii_of_string in *.
  pose proof (Forall_inv H) as Hc. pose proof (Forall_inv_tail H) as Hr.
  destruct (digit_char c (isdecimal_isdigit c Hc))
    as (_ & Hm & Hp & Hi & Hn & _).
  unfold sign. rewrite Hm, Hp.
  cbn [map string_of_list_ascii String.eqb]. rewrite Hi, Hn.
  cbn [orb]. unfold number, digitpart.
  rewrite Hc, (digits_tail_digits _ Hr).
  cbn [exponent List.length]. rewrite app_nil_r.
  unfold decimal_to_float, Z_to_float.
  destruct (Z_of_digits (c :: list_ascii_of_string r) =? 0) eqn:E.
  - apply Z.eqb_eq in E. rewrite E. reflexivity.
  - cbn. rewrite Z.mul_1_r. reflexivity.
Qed.

(** [float] rejects a run of digit characters one of which is not
    decimal. *)
Lemma float_of_str_superscript (s : string) :
  Forall (fun c => isdigit c = true) (list_ascii_of_string s) ->
  forallb isdecimal (list_ascii_of_string s) = false ->
  float_of_str s = Raise (could_not_convert s).
Proof.
  intros H Hnd. unfold float_of_str.
  rewrite (strip_digits _ H).
  destruct s as [|c r]; [discriminate |]. simpl list_ascii_of_string in *.
  pose proof (Forall_inv H) as Hc. pose proof (Forall_inv_tail H) as Hr.
  destruct (digit_char c Hc) as (_ & Hm & Hp & Hi & Hn & _ & Hdot & _).
  unfold sign. rewrite Hm, Hp.
  cbn [map string_of_list_ascii String.eqb]. rewrite Hi, Hn.
  cbn [orb]. unfold number, digitpart.
  cbn [forallb] in Hnd.
  destruct (isdecimal c) eqn:D.
  - cbn [andb] in Hnd.
    destruct (digits_tail_stops _ Hr Hnd) as (ds & c' & r' & -> & H1 & _).
    destruct (digit_char c' H1) as (_ & _ & _ & _ & _ & _ & -> & He).
    cbn [exponent]. rewrite He. reflexivity.
  - rewrite Hdot. reflexivity.
Qed.

Lemma float_of_str_empty :
  float_of_str "" = Raise (could_not_convert "").
Proof. reflexivity. Qed.

Lemma string_of_digits_of (s : string) :
  string_of_list_ascii (digits_of s) = filter_chars isdigit s.
Proof. apply string_of_list_ascii_of_string. Qed.

(** What [_get_numeric_price] makes of a string: the integer its digit
    characters write one after the other, as a float, when there is one
    and all of them are decimal, and [0.0] otherwise. *)
Lemma get_numeric_price_str (s : string) :
  CourseAggregator._get_numeric_price (VStr s) = Ok (float_of_kept (digits_of s)).
Proof.
  unfold CourseAggregator._get_numeric_price, py_float, float_of_kept.
  pose proof (digits_of_digits s) as H. unfold digits_of in *.
  destruct (filter_chars isdigit s) as [|c r] eqn:E.
  - reflexivity.
  - destruct (forallb isdecimal (list_ascii_of_string (String c r))) eqn:D.
    + rewrite float_of_str_digits; [reflexivity | | discriminate].
      apply Forall_forall. exact (proj1 (forallb_forall _ _) D).
    + rewrite (float_of_str_superscript _ H D). reflexivity.
Qed.

(* ===================================================================== *)
(** * Lemmas: the filter *)
(* ===================================================================== *)

Lemma filterM_Ok_inv {A : Type} (p : A -> result bool) (l out : list A) :
  filterM p l = Ok out ->
  Forall (fun x => exists b, p x = Ok b) l
  /\ out = filter (fun x => match p x with Ok b => b | Raise _ => false end) l.
Proof.
  revert out. induction l as [|x r IH]; simpl; intros out H.
  - injection H as <-. split; [constructor | reflexivity].
  - destruct (p x) as [b|e] eqn:Px; simpl in H; [| discriminate].
    destruct (filterM p r) as [ys|e] eqn:Fr; simpl in H; [| discriminate].
    injection H as <-. destruct (IH ys eq_refl) as [Hall ->].
    split; [constructor; [exists b; exact Px | exact Hall] |].
    destruct b; reflexivity.
Qed.

Lemma filterM_total {A : Type} (p : A -> result bool) (l : list A) :
  Forall (fun x => exists b, p x = Ok b) l ->
  filterM p l
  = Ok (filter (fun x => match p x with Ok b => b | Raise _ => false end) l).
Proof.
  induction 1 as [|x r [b Hb] _ IH]; simpl; [reflexivity |].
  rewrite Hb, IH. simpl. destruct b; reflexivity.
Qed.

Lemma fold_keep_equal (items : dict) (courses : list dict) :
  fold_left CourseAggregator.keep_equal items courses
  = filter (satisfies items) courses.
Proof.
  revert courses. induction items as [|item r IH]; intros courses; simpl.
  - induction courses as [|c cs IHc]; simpl; congruence.
  - rewrite IH. unfold CourseAggregator.keep_equal.
    induction courses as [|c cs IHc]; simpl; [reflexivity |].
    destruct (py_eq (dict_get c (fst item)) (snd item)); simpl;
      rewrite IHc; reflexivity.
Qed.

(** Without a price range the filter is total: it keeps the courses that
    pass every equality filter. *)
Lemma apply_filters_no_range (courses : list dict) (items : dict) :
  CourseAggregator._apply_filters courses (Some items) None
  = Ok (filter (satisfies items) courses).
Proof.
  unfold CourseAggregator._apply_filters.
  destruct items as [|item r].
  - simpl. induction courses as [|c cs IH]; simpl; [reflexivity |].
    injection IH as IH. rewrite <- IH. reflexivity.
  - cbn [CourseAggregator.nonempty negb andb]. rewrite fold_keep_equal.
    reflexivity.
Qed.

(** With a price range the equality filters run first and the range check
    runs on what they keep. *)
Lemma apply_filters_range (courses : list dict) (filters : option dict)
    (low high : pynum) :
  CourseAggregator._apply_filters courses filters (Some (low, high))
  = filterM (CourseAggregator.in_price_range low high)
      (filter (satisfies match filters with Some items => items | None => [] end)
         courses).
Proof.
  assert (Hall : filter (satisfies []) courses = courses).
  { induction courses as [|c cs IH]; simpl; congruence. }
  unfold CourseAggregator._apply_filters.
  destruct filters as [[|item r]|]; cbn [CourseAggregator.nonempty negb andb];
    rewrite ?fold_keep_equal, ?Hall; reflexivity.
Qed.

Lemma in_price_range_true (low high : pynum) (course : dict) :
  CourseAggregator.in_price_range low high course = Ok true
  <-> price_within low high course.
Proof.
  unfold CourseAggregator.in_price_range, price_within.
  destruct (CourseAggregator._get_numeric_price _) as [p|e]; simpl.
  - destruct (num_ge (NFloat p) low) eqn:G; simpl.
    + split.
      * intros H. injection H as H. exists p. auto.
      * intros [q [Hq [_ Hle]]]. injection Hq as <-. rewrite Hle. reflexivity.
    + split; [discriminate |].
      intros [q [Hq [Hge _]]]. injection Hq as <-. congruence.
  - split; [discriminate | intros [q [Hq _]]; discriminate].
Qed.

Lemma filter_filter_and {A : Type} (p q : A -> bool) (l : list A) :
  filter q (filter p l) = filter (fun x => p x && q x) l.
Proof.
  induction l as [|x r IH]; simpl; [reflexivity |].
  destruct (p x); simpl; [destruct (q x) |]; rewrite IH; reflexivity.
Qed.

Lemma satisfies_app (items items' : dict) (course : dict) :
  satisfies (items ++ items')%list course
  = satisfies items course && satisfies items' course.
Proof. apply forallb_app. Qed.

Lemma satisfies_perm (items items' : dict) (course : dict) :
  Permutation items items' -> satisfies items course = satisfies items' course.
Proof.
  induction 1 as [| x l l' _ IH | x y l | l l' l'' _ IH1 _ IH2]; simpl.
  - reflexivity.
  - rewrite IH. reflexivity.
  - rewrite !andb_assoc, (andb_comm (py_eq _ (snd y))). reflexivity.
  - congruence.
Qed.

Lemma satisfies_In (items : dict) (course : dict) :
  satisfies items course = true
  <-> forall k v, In (k, v) items -> py_eq (dict_get course k) v = true.
Proof.
  unfold satisfies. rewrite forallb_forall. split.
  - intros H k v Hin. exact (H (k, v) Hin).
  - intros H [k v] Hin. exact (H k v Hin).
Qed.

(* ===================================================================== *)
(** * Lemmas: rounding never makes a NaN *)
(* ===================================================================== *)

Lemma shr_1_nonneg (mrs : shr_record) : 0 <= shr_m mrs -> 0 <= shr_m (shr_1 mrs).
Proof.
  destruct mrs as [m r s]. destruct m as [|[p|p|]|[p|p|]]; simpl; lia.
Qed.

Lemma iter_pos_invariant {A : Type} (P : A -> Prop) (f : A -> A) :
  (forall x, P x -> P (f x)) -> forall p x, P x -> P (iter_pos f p x).
Proof.
  intros Hf. induction p as [p IH|p IH|]; simpl; intros x Hx; auto.
Qed.

Lemma shr_nonneg (mrs : shr_record) (e n : Z) :
  0 <= shr_m mrs -> 0 <= shr_m (fst (shr mrs e n)).
Proof.
  intros H. destruct n as [|p|p]; simpl; try exact H.
  apply (iter_pos_invariant (fun x => 0 <= shr_m x));
    [apply shr_1_nonneg | exact H].
Qed.

Lemma shr_fexp_nonneg (prec emax m e : Z) (l : location) :
  0 <= m -> 0 <= shr_m (fst (shr_fexp prec emax m e l)).
Proof.
  intros H. unfold shr_fexp. apply shr_nonneg.
  destruct l as [|[]]; exact H.
Qed.

Lemma round_nearest_even_nonneg (m : Z) (l : location) :
  0 <= m -> 0 <= round_nearest_even m l.
Proof.
  intros H. destruct l as [|[]]; simpl; try lia.
  destruct (Z.even m); lia.
Qed.

Lemma binary_round_aux_not_nan (prec emax : Z) (sx : bool) (mx ex : Z)
    (lx : location) :
  0 <= mx -> binary_round_aux prec emax sx mx ex lx <> S754_nan.
Proof.
  intros H. unfold binary_round_aux.
  pose proof (shr_fexp_nonneg prec emax mx ex lx H) as H1.
  destruct (shr_fexp prec emax mx ex lx) as [mrs' e']. simpl in H1.
  pose proof (shr_fexp_nonneg prec emax _ e' loc_Exact
                (round_nearest_even_nonneg _ (loc_of_shr_record mrs') H1)) as H2.
  destruct (shr_fexp prec emax _ e' loc_Exact) as [mrs'' e'']. simpl in H2.
  destruct (shr_m mrs'') as [|m|m]; try discriminate; [| lia].
  destruct (e'' <=? emax - prec); discriminate.
Qed.

Lemma binary_normalize_not_nan (prec emax m e : Z) (szero : bool) :
  binary_normalize prec emax m e szero <> S754_nan.
Proof.
  destruct m as [|p|p]; simpl; try discriminate; unfold binary_round;
    destruct (shl_align _ _ _) as [mz ez]; apply binary_round_aux_not_nan; lia.
Qed.

Lemma ordered_float (f : spec_float) : f <> S754_nan -> ordered (NFloat f).
Proof.
  unfold ordered. destruct f as [s|s| |s m e]; simpl; congruence.
Qed.

Lemma ordered_Z_to_float (z : Z) : ordered (NFloat (Z_to_float z)).
Proof. apply ordered_float, binary_normalize_not_nan. Qed.

Lemma ordered_float_of_kept (ds : list ascii) :
  ordered (NFloat (float_of_kept ds)).
Proof.
  unfold float_of_kept. destruct ds; [apply ordered_float; discriminate |].
  destruct (forallb isdecimal _);
    [apply ordered_Z_to_float | apply ordered_float; discriminate].
Qed.

(** The derived price is an ordered number, unless the price is itself a
    NaN. *)
Lemma get_numeric_price_ordered (price : value) (p : spec_float) :
  CourseAggregator._get_numeric_price price = Ok p ->
  price <> VFloat S754_nan -> ordered (NFloat p).
Proof.
  intros H Hnan. destruct price as [|b|z|f|s|l|d].
  - injection H as <-. apply ordered_float. discriminate.
  - injection H as <-. apply ordered_Z_to_float.
  - simpl in H. unfold float_of_int in H.
    destruct (is_infinite (Z_to_float z)); [discriminate |].
    injection H as <-. apply ordered_Z_to_float.
  - injection H as <-. apply ordered_float. congruence.
  - rewrite get_numeric_price_str in H. injection H as <-.
    apply ordered_float_of_kept.
  - injection H as <-. apply ordered_float. discriminate.
  - injection H as <-. apply ordered_float. discriminate.
Qed.

(* ===================================================================== *)
(** * Properties of the price derivation *)
(* ===================================================================== *)

Example float_of_str_49_99 : float_of_str "49.99" = Ok float_49_99.
Proof. vm_compute. reflexivity. Qed.

(** C2, as stated, fails: the price string ["$49.99"] is not derived to
    [49.99] but to [4999.0], because every digit character is kept and the
    decimal point is dropped; the longest run of digits, ["49"], is not what
    is parsed either; and an int that no float represents comes back
    changed. *)
Lemma get_numeric_price_dollar_string_counterexample :
  ~ (exists r,
        CourseAggregator._get_numeric_price (VStr "$49.99") = Ok r
        /\ num_eq (NFloat r) (NFloat float_49_99) = true)
  /\ CourseAggregator._get_numeric_price (VStr "$49.99")
     <> spec_derive_price (VStr "$49.99")
  /\ ~ (exists r,
          CourseAggregator._get_numeric_price (VInt (2 ^ 53 + 1)) = Ok r
          /\ num_eq (NFloat r) (NInt (2 ^ 53 + 1)) = true).
Proof.
  split; [| split].
  - intros [r [H E]]. vm_compute in H. injection H as <-.
    vm_compute in E. discriminate.
  - vm_compute. discriminate.
  - intros [r [H E]]. vm_compute in H. injection H as <-.
    vm_compute in E. discriminate.
Qed.

(** C2, amended: [_get_numeric_price] returns a float unchanged
    ([derivePrice(49.99) == 49.99]) and converts an int or bool with
    [float], that is, to the nearest float.  Of a string it keeps every
    character that [str.isdigit] accepts, in order, every other character
    being skipped, and gives them to [float]: when there is one and all are
    decimal digits, the outcome is the float nearest to the integer they
    write together ([derivePrice("$49.99") == 4999.0]); when there is none
    ([derivePrice("Free to audit") == 0.0]), or one of them is a digit that
    [float] rejects, such as the superscript two, the outcome is [0.0].  A
    value of any other type gives [0.0]. *)
Theorem get_numeric_price_coercion :
  (forall f, CourseAggregator._get_numeric_price (VFloat f) = Ok f)
  /\ (forall z, CourseAggregator._get_numeric_price (VInt z) = float_of_int z)
  /\ (forall b,
        CourseAggregator._get_numeric_price (VBool b)
        = Ok (Z_to_float (if b then 1 else 0)))
  /\ (forall s,
        digits_of s = [] ->
        CourseAggregator._get_numeric_price (VStr s) = Ok float_zero)
  /\ (forall s,
        digits_of s <> [] ->
        Forall (fun c => isdecimal c = true) (digits_of s) ->
        CourseAggregator._get_numeric_price (VStr s)
        = Ok (Z_to_float (Z_of_digits (digits_of s))))
  /\ (forall s c,
        In c (digits_of s) -> isdecimal c = false ->
        CourseAggregator._get_numeric_price (VStr s) = Ok float_zero)
  /\ CourseAggregator._get_numeric_price VNone = Ok float_zero
  /\ (forall l, CourseAggregator._get_numeric_price (VList l) = Ok float_zero)
  /\ (forall d, CourseAggregator._get_numeric_price (VDict d) = Ok float_zero)
  /\ CourseAggregator._get_numeric_price (VFloat float_49_99) = Ok float_49_99
  /\ CourseAggregator._get_numeric_price (VStr "$49.99") = Ok (Z_to_float 4999)
  /\ CourseAggregator._get_numeric_price (VStr "Free to audit") = Ok float_zero
  /\ CourseAggregator._get_numeric_price (VStr ("10" ++ superscript_two))
     = Ok float_zero.
Proof.
  repeat split; try reflexivity.
  - intros s H. rewrite get_numeric_price_str, H. reflexivity.
  - intros s Hne Hall. rewrite get_numeric_price_str. unfold float_of_kept.
    destruct (digits_of s) as [|c r]; [congruence |].
    rewrite (proj2 (forallb_forall _ _) (proj1 (Forall_forall _ _) Hall)).
    reflexivity.
  - intros s c Hin Hc. rewrite get_numeric_price_str. unfold float_of_kept.
    destruct (digits_of s) as [|a r]; [reflexivity |].
    destruct (forallb isdecimal (a :: r)) eqn:D; [| reflexivity].
    rewrite (proj1 (forallb_forall _ _) D c Hin) in Hc. discriminate.
Qed.

(** C2 on the strings ["3 for $25"] and ["10"] followed by the superscript
    two. *)
Lemma get_numeric_price_coercion_witness :
  CourseAggregator._get_numeric_price (VStr "3 for $25") = Ok (Z_to_float 325)
  /\ CourseAggregator._get_numeric_price (VStr ("10" ++ superscript_two))
     = Ok float_zero.
Proof.
  destruct get_numeric_price_coercion
    as (_ & _ & _ & _ & Hdec & Hsup & _).
  split.
  - apply (Hdec "3 for $25"); [discriminate |].
    repeat constructor.
  - apply (Hsup ("10" ++ superscript_two) (ascii_of_nat 178)).
    + right. right. left. reflexivity.
    + reflexivity.
Defined.

(* ===================================================================== *)
(** * Properties of the filter *)
(* ===================================================================== *)

(** C6.  Filtering is conjunctive and does not depend on the order of the
    filters: with filters [{A, B}], [_apply_filters] returns what filtering
    by [A] alone and then by [B] alone returns, and the same as with
    [{B, A}]; whenever it returns, a course is in the outcome exactly when
    it is in the input, passes every equality filter and has its derived
    price in the range; with neither filters nor range the list comes back
    as it is. *)
Theorem apply_filters_conjunctive (courses : list dict) :
  (forall (A B : string * value) (price_range : option (pynum * pynum)),
      CourseAggregator._apply_filters courses (Some [A; B]) price_range
      = (kept <- CourseAggregator._apply_filters courses (Some [A]) None ;;
         CourseAggregator._apply_filters kept (Some [B]) price_range)
      /\ CourseAggregator._apply_filters courses (Some [A; B]) price_range
         = CourseAggregator._apply_filters courses (Some [B; A]) price_range)
  /\ (forall filters price_range out course,
        CourseAggregator._apply_filters courses filters price_range = Ok out ->
        (In course out
         <-> In course courses
             /\ satisfies (items_of filters) course = true
             /\ match price_range with
                | Some (low, high) => price_within low high course
                | None => True
                end))
  /\ CourseAggregator._apply_filters courses None None = Ok courses
  /\ CourseAggregator._apply_filters courses (Some []) None = Ok courses.
Proof.
  assert (Hall : forall l : list dict, filter (satisfies []) l = l).
  { induction l as [|c cs IH]; simpl; congruence. }
  split; [| split; [| split]].
  - intros A B [[low high]|].
    + rewrite !apply_filters_range, apply_filters_no_range.
      cbn [bind]. rewrite apply_filters_range, filter_filter_and. split.
      * f_equal. apply filter_ext. intros c. simpl.
        rewrite !andb_true_r. reflexivity.
      * f_equal. apply filter_ext. intros c.
        apply satisfies_perm, perm_swap.
    + rewrite !apply_filters_no_range. cbn [bind].
      rewrite apply_filters_no_range, filter_filter_and. split.
      * f_equal. apply filter_ext. intros c. simpl.
        rewrite !andb_true_r. reflexivity.
      * f_equal. apply filter_ext. intros c.
        apply satisfies_perm, perm_swap.
  - intros filters [[low high]|] out course H.
    + rewrite apply_filters_range in H.
      apply filterM_Ok_inv in H as [_ ->].
      fold (items_of filters).
      rewrite filter_In, filter_In, <- in_price_range_true.
      destruct (CourseAggregator.in_price_range low high course) as [[]|];
        intuition congruence.
    + destruct filters as [items|].
      * rewrite apply_filters_no_range in H. injection H as <-.
        rewrite filter_In. simpl. tauto.
      * injection H as <-. simpl. tauto.
  - reflexivity.
  - rewrite apply_filters_no_range. f_equal. apply Hall.
Qed.

(** C6 on the sample: English courses priced within [[0, 100]]. *)
Lemma apply_filters_conjunctive_witness :
  In (sample_course "Data Science" "English" (VInt 50) 5)
    [ sample_course "Intro to Python" "English" (VStr "$30") 3;
      sample_course "Data Science" "English" (VInt 50) 5 ]
  <-> In (sample_course "Data Science" "English" (VInt 50) 5) sample_courses
      /\ satisfies [("language", VStr "English")]
           (sample_course "Data Science" "English" (VInt 50) 5) = true
      /\ price_within (NInt 0) (NInt 100)
           (sample_course "Data Science" "English" (VInt 50) 5).
Proof.
  apply (proj1 (proj2 (apply_filters_conjunctive sample_courses))
           (Some [("language", VStr "English")]) (Some (NInt 0, NInt 100))).
  vm_compute. reflexivity.
Defined.

(* ===================================================================== *)
(** * Properties of the ranking *)
(* ===================================================================== *)

(** A sort field that is absent counts as [0]. *)
Lemma get_sort_key_absent (course : dict) :
  (lookup "price" course = None ->
   CourseAggregator.get_sort_key "price" course = Ok (NFloat float_zero))
  /\ (lookup "rating" course = None ->
      CourseAggregator.get_sort_key "rating" course = Ok (NFloat float_zero))
  /\ (lookup "reviews" course = None ->
      CourseAggregator.get_sort_key "reviews" course = Ok (NInt 0)).
Proof.
  unfold CourseAggregator.get_sort_key, dict_get_default.
  repeat split; intros ->; reflexivity.
Qed.

(** A numeric sort field is its own key. *)
Lemma get_sort_key_numeric (course : dict) :
  (forall f, lookup "rating" course = Some (VFloat f) ->
             CourseAggregator.get_sort_key "rating" course = Ok (NFloat f))
  /\ (forall f, lookup "price" course = Some (VFloat f) ->
                CourseAggregator.get_sort_key "price" course = Ok (NFloat f))
  /\ (forall n, lookup "reviews" course = Some (VInt n) ->
                CourseAggregator.get_sort_key "reviews" course = Ok (NInt n)).
Proof.
  unfold CourseAggregator.get_sort_key, dict_get_default.
  repeat split; intros x ->; reflexivity.
Qed.

(** Courses whose sort field is absent or holds a number have a key: for
    [price], any price but a NaN and an int beyond the floats; for
    [rating], no rating, a float but NaN, or an int within the floats; for
    [reviews], no count or an int. *)
Lemma numeric_fields_are_keyed (course : dict) :
  (dict_get_default course "price" (VInt 0) <> VFloat S754_nan ->
   (forall z, lookup "price" course = Some (VInt z) ->
              is_infinite (Z_to_float z) = false) ->
   keyed (CourseAggregator.get_sort_key "price") course)
  /\ (lookup "rating" course = None
      \/ (exists f, lookup "rating" course = Some (VFloat f) /\ f <> S754_nan)
      \/ (exists z, lookup "rating" course = Some (VInt z)
                    /\ is_infinite (Z_to_float z) = false) ->
      keyed (CourseAggregator.get_sort_key "rating") course)
  /\ (lookup "reviews" course = None
      \/ (exists z, lookup "reviews" course = Some (VInt z)) ->
      keyed (CourseAggregator.get_sort_key "reviews") course).
Proof.
  unfold keyed, CourseAggregator.get_sort_key. repeat split.
  - intros Hnan Hint. cbn [String.eqb Ascii.eqb Bool.eqb].
    destruct (CourseAggregator._get_numeric_price
                (dict_get_default course "price" (VInt 0))) as [p|e] eqn:E.
    + exists (NFloat p). split; [reflexivity |].
      eapply get_numeric_price_ordered; eassumption.
    + exfalso. unfold dict_get_default in *.
      destruct (lookup "price" course) as [[|b|z|f|s|l|d]|] eqn:L;
        try discriminate E.
      * simpl in E. unfold float_of_int in E.
        rewrite (Hint z eq_refl) in E. discriminate E.
      * rewrite get_numeric_price_str in E. discriminate E.
  - unfold dict_get_default.
    intros [-> | [[f [-> Hf]] | [z [-> Hz]]]]; simpl.
    + exists (NFloat (Z_to_float 0)). split; [reflexivity |].
      apply ordered_Z_to_float.
    + exists (NFloat f). split; [reflexivity | apply ordered_float, Hf].
    + unfold float_of_int. rewrite Hz.
      exists (NFloat (Z_to_float z)). split; [reflexivity |].
      apply ordered_Z_to_float.
  - unfold dict_get_default. intros [-> | [z ->]]; simpl.
    + exists (NInt 0). split; [reflexivity | apply ordered_int].
    + exists (NInt z). split; [reflexivity | apply ordered_int].
Qed.

(** The key of the design document is the key [_sort_courses] computes. *)
Lemma selected_key_sort_key (sort_by : string) (course : dict) (k : pynum) :
  selected_key sort_by course = Some k ->
  CourseAggregator.get_sort_key sort_by course = Ok k.
Proof.
  unfold selected_key, CourseAggregator.get_sort_key, dict_get_default.
  destruct (String.eqb sort_by "price").
  - destruct (CourseAggregator._get_numeric_price _) as [p|e];
      [| discriminate].
    intros H. injection H as <-. reflexivity.
  - destruct (String.eqb sort_by "rating").
    + destruct (lookup "rating" course) as [[| | z | f | | |]|];
        try discriminate.
      * cbn [py_float bind]. unfold float_of_int.
        destruct (is_infinite (Z_to_float z)); [discriminate |].
        intros H. injection H as <-. reflexivity.
      * intros H. injection H as <-. reflexivity.
      * intros H. injection H as <-. reflexivity.
    + destruct (String.eqb sort_by "reviews"); [| discriminate].
      destruct (lookup "reviews" course) as [[| | z | | | |]|];
        try discriminate; intros H; injection H as <-; reflexivity.
Qed.

Lemma StronglySorted_impl_In {A : Type} (R R' : A -> A -> Prop)
    (l : list A) :
  (forall x y, In x l -> In y l -> R x y -> R' x y) ->
  StronglySorted R l -> StronglySorted R' l.
Proof.
  intros H S. induction S as [|x r S IH F]; constructor.
  - apply IH. intros a b Ha Hb. apply H; right; assumption.
  - apply Forall_forall. intros y Hy.
    apply (H x y); [left; reflexivity | right; exact Hy |].
    exact (proj1 (Forall_forall _ _) F y Hy).
Qed.

(** C5, as stated, fails: on a list in which a rating is a NaN, which a
    JSON body can hold, [_sort_courses] returns, but what it returns is not
    in descending order of the rating: the course rated 2 stays before the
    course rated 3.  No arrangement of these courses is in descending
    order, since a NaN is neither above nor below any number. *)
Lemma sort_courses_nan_rating_counterexample :
  CourseAggregator._sort_courses nan_rated_courses (Some "rating")
  = Ok nan_rated_courses
  /\ ~ StronglySorted (key_ge (CourseAggregator.get_sort_key "rating"))
        nan_rated_courses
  /\ forall out,
       Permutation out nan_rated_courses ->
       ~ StronglySorted (key_ge (CourseAggregator.get_sort_key "rating")) out.
Proof.
  assert (Hnan : forall c,
            ~ key_ge (CourseAggregator.get_sort_key "rating")
                (rated_course "Python avance" S754_nan) c
            /\ ~ key_ge (CourseAggregator.get_sort_key "rating") c
                  (rated_course "Python avance" S754_nan)).
  { intros c. split; intros (a & b & Ha & Hb & Hge).
    - vm_compute in Ha. injection Ha as <-. unfold num_ge, num_le in Hge.
      unfold num_compare in Hge. destruct (num_value b); discriminate.
    - vm_compute in Hb. injection Hb as <-. unfold num_ge, num_le in Hge.
      unfold num_compare in Hge. simpl in Hge. discriminate. }
  assert (Hall : forall out,
            Permutation out nan_rated_courses ->
            ~ StronglySorted (key_ge (CourseAggregator.get_sort_key "rating"))
                out).
  { intros out Hp S.
    assert (Hin : In (rated_course "Python avance" S754_nan) out).
    { apply (Permutation_in _ (Permutation_sym Hp)). right. left. reflexivity. }
    assert (Hother : In (rated_course "Data Science" (Z_to_float 3)) out).
    { apply (Permutation_in _ (Permutation_sym Hp)).
      right. right. left. reflexivity. }
    clear Hp. induction S as [|x r S IH F]; [destruct Hin |].
    destruct Hin as [-> | Hin].
    - destruct Hother as [Ho | Ho]; [discriminate Ho |].
      exact (proj1 (Hnan _) (proj1 (Forall_forall _ _) F _ Ho)).
    - destruct Hother as [-> | Ho].
      + exact (proj2 (Hnan _) (proj1 (Forall_forall _ _) F _ Hin)).
      + exact (IH Hin Ho). }
  split; [vm_compute; reflexivity |].
  split; [apply Hall, Permutation_refl | exact Hall].
Qed.

(** C5, amended.  For [sort_by] among [price], [rating] and [reviews] and
    courses whose selected field is absent or holds a number other than a
    NaN, [_sort_courses] returns the same courses in descending order of
    the selected key, which is the derived numeric price, the rating or the
    count of reviews, [0] standing for an absent rating or count: no course
    comes before one with a larger key, and the courses of equal key keep
    the order they had in the input.  The ratings [3, 5, 5, 1] of the
    sample come out as [5, 5, 3, 1] with the two courses rated 5 in their
    input order; its prices come out as [120, 50, 30, 20]; the counts of
    reviews [10, none, 250, 10] come out as [250, 10, 10, none].  Without
    [sort_by] the list is returned as it is. *)
Theorem sort_courses_descending_stable (courses : list dict) :
  (forall sort_by,
      In sort_by ["price"; "rating"; "reviews"] ->
      Forall (has_ordered_key sort_by) courses ->
      exists out,
        CourseAggregator._sort_courses courses (Some sort_by) = Ok out
        /\ Permutation out courses
        /\ StronglySorted (not_below sort_by) out
        /\ forall k,
             ordered k ->
             filter (has_key sort_by k) out
             = filter (has_key sort_by k) courses)
  /\ CourseAggregator._sort_courses courses None = Ok courses
  /\ CourseAggregator._sort_courses sample_courses (Some "rating")
     = Ok [ sample_course "Python avance" "French" (VStr "$20") 5;
            sample_course "Data Science" "English" (VInt 50) 5;
            sample_course "Intro to Python" "English" (VStr "$30") 3;
            sample_course "Deep Learning" "English" (VStr "$120") 1 ]
  /\ CourseAggregator._sort_courses sample_courses (Some "price")
     = Ok [ sample_course "Deep Learning" "English" (VStr "$120") 1;
            sample_course "Data Science" "English" (VInt 50) 5;
            sample_course "Intro to Python" "English" (VStr "$30") 3;
            sample_course "Python avance" "French" (VStr "$20") 5 ]
  /\ CourseAggregator._sort_courses reviewed_courses (Some "reviews")
     = Ok [ reviewed_course "Data Science" (Some 250);
            reviewed_course "Intro to Python" (Some 10);
            reviewed_course "Deep Learning" (Some 10);
            reviewed_course "Python avance" None ].
Proof.
  split; [| split; [reflexivity | repeat split; vm_compute; reflexivity]].
  intros sort_by Hin Hkeys.
  assert (E : String.eqb sort_by "" = false).
  { simpl in Hin. destruct Hin as [<- | [<- | [<- | []]]]; reflexivity. }
  assert (Hk : Forall (keyed (CourseAggregator.get_sort_key sort_by)) courses).
  { eapply Forall_impl; [| exact Hkeys]. intros c [k [Hc Ho]].
    exists k. split; [exact (selected_key_sort_key _ _ _ Hc) | exact Ho]. }
  unfold CourseAggregator._sort_courses. rewrite E.
  destruct (sorted_reverse_spec _ _ Hk) as (out & Hs & Hp & Hd & Ht).
  assert (Hagree : forall c,
            In c out \/ In c courses ->
            exists k,
              selected_key sort_by c = Some k
              /\ CourseAggregator.get_sort_key sort_by c = Ok k).
  { intros c Hc.
    assert (Hc' : In c courses).
    { destruct Hc as [Hc | Hc]; [exact (Permutation_in _ Hp Hc) | exact Hc]. }
    destruct (proj1 (Forall_forall _ _) Hkeys c Hc') as [k [Hsel _]].
    exists k. split; [exact Hsel | exact (selected_key_sort_key _ _ _ Hsel)]. }
  assert (Hsame : forall k c,
            In c out \/ In c courses ->
            key_is (CourseAggregator.get_sort_key sort_by) k c
            = has_key sort_by k c).
  { intros k c Hc. destruct (Hagree c Hc) as [a [Hsel Hget]].
    unfold key_is, has_key. rewrite Hsel, Hget. reflexivity. }
  exists out. split; [exact Hs | split; [exact Hp | split]].
  - eapply StronglySorted_impl_In; [| exact Hd].
    intros x y Hx Hy (a & b & Ha & Hb & Hge).
    destruct (Hagree x (or_introl Hx)) as [a' [Hsa Hga]].
    destruct (Hagree y (or_introl Hy)) as [b' [Hsb Hgb]].
    exists a, b. repeat split; congruence.
  - intros k Hord.
    rewrite <- (filter_ext_in _ _ _ (fun c Hc => Hsame k c (or_introl Hc))).
    rewrite <- (filter_ext_in _ _ _ (fun c Hc => Hsame k c (or_intror Hc))).
    exact (Ht k Hord).
Qed.

(** C5 on the sample, sorted by price and by the count of reviews. *)
Lemma sort_courses_descending_stable_witness :
  (exists out,
      CourseAggregator._sort_courses sample_courses (Some "price") = Ok out
      /\ Permutation out sample_courses
      /\ StronglySorted (not_below "price") out
      /\ forall k,
           ordered k ->
           filter (has_key "price" k) out
           = filter (has_key "price" k) sample_courses)
  /\ (exists out,
        CourseAggregator._sort_courses reviewed_courses (Some "reviews")
        = Ok out
        /\ Permutation out reviewed_courses
        /\ StronglySorted (not_below "reviews") out
        /\ forall k,
             ordered k ->
             filter (has_key "reviews" k) out
             = filter (has_key "reviews" k) reviewed_courses).
Proof.
  split.
  - apply (proj1 (sort_courses_descending_stable sample_courses) "price").
    + simpl. auto.
    + repeat constructor;
        (eexists; split; [vm_compute; reflexivity | vm_compute; discriminate]).
  - apply (proj1 (sort_courses_descending_stable reviewed_courses) "reviews").
    + simpl. auto.
    + repeat constructor;
        (eexists; split; [vm_compute; reflexivity | vm_compute; discriminate]).
Defined.

(** C4 fails on the code: a sort field that is present but is not a number
    makes [_sort_courses] raise instead of ranking the course last.  The
    [rating] and [reviews] keys go through [float] and [int] unguarded,
    whereas the [price] key, through [_get_numeric_price], yields [0.0] for
    the same values. *)
Theorem sort_courses_raises_on_non_numeric_field :
  CourseAggregator._sort_courses
    [ [("title", VStr "Intro to Python"); ("rating", VStr "N/A")] ]
    (Some "rating")
  = Raise (Exn ValueError "could not convert string to float: 'N/A'")
  /\ CourseAggregator._sort_courses
       [ [("title", VStr "Intro to Python"); ("rating", VNone)] ]
       (Some "rating")
     = Raise (Exn TypeError
                "float() argument must be a string or a real number, not 'NoneType'")
  /\ CourseAggregator._sort_courses
       [ [("title", VStr "Intro to Python"); ("reviews", VStr "1.2k")] ]
       (Some "reviews")
     = Raise (Exn ValueError "invalid literal for int() with base 10: '1.2k'")
  /\ CourseAggregator._sort_courses
       [ [("title", VStr "Intro to Python"); ("price", VStr "N/A")] ]
       (Some "price")
     = Ok [ [("title", VStr "Intro to Python"); ("price", VStr "N/A")] ]
  /\ CourseAggregator.get_sort_key "price"
       [("title", VStr "Intro to Python"); ("price", VNone)]
     = Ok (NFloat float_zero).
Proof. repeat split; vm_compute; reflexivity. Qed.

(** An equality filter on a field the course does not have drops the
    course, unless the value asked for is [None] itself. *)
Lemma absent_field_does_not_match (course : dict) (k : string) (v : value) :
  lookup k course = None ->
  py_eq (dict_get course k) v = match v with VNone => true | _ => false end.
Proof.
  unfold dict_get, dict_get_default. intros ->. destruct v; reflexivity.
Qed.

(* ===================================================================== *)
(** * Properties of the adapters *)
(* ===================================================================== *)

Ltac bind_inv H :=
  repeat
    match type of H with
    | bind ?c _ = Ok _ =>
        let E := fresh "E" in
        destruct c eqn:E; cbn [bind] in H; [| discriminate H]
    end.

Lemma Forall2_In_r {A B : Type} (R : A -> B -> Prop) (l : list A) (l' : list B)
    (y : B) :
  Forall2 R l l' -> In y l' -> exists x, In x l /\ R x y.
Proof.
  induction 1 as [|a b r r' Hab _ IH]; simpl; [tauto |].
  intros [<- | Hy].
  - exists a; auto.
  - destruct (IH Hy) as [x [Hx Rx]]. exists x; auto.
Qed.

Lemma mapM_raises {A B : Type} (f : A -> result B) (l : list A) (x : A) :
  In x l -> (exists e, f x = Raise e) -> exists e, mapM f l = Raise e.
Proof.
  induction l as [|a r IH]; simpl; [tauto |].
  intros [-> | Hx] Hr.
  - destruct Hr as [e ->]. exists e; reflexivity.
  - destruct (f a) as [b|e]; [| exists e; reflexivity].
    destruct (IH Hx Hr) as [e ->]. exists e; reflexivity.
Qed.

Lemma process_coursera_course_inv (repr_other : value -> string)
    (course : value) (c : dict) :
  CourseraAPI._process_coursera_course repr_other course = Ok c ->
  exists name description slug,
    getitem course "name" = Ok name
    /\ lookup "title" c = Some name
    /\ lookup "description" c = Some description
    /\ lookup "url" c
       = Some (VStr ("https://www.coursera.org/learn/"
                       ++ py_str repr_other slug))
    /\ lookup "price" c = Some (VStr coursera_price).
Proof.
  unfold CourseraAPI._process_coursera_course. intros H. bind_inv H.
  injection H as <-. do 3 eexists. repeat split.
Qed.

Lemma process_udemy_course_inv (repr_other : value -> string)
    (course : value) (c : dict) :
  UdemyAPI._process_udemy_course repr_other course = Ok c ->
  exists title url price,
    getitem course "title" = Ok title
    /\ getitem course "url" = Ok url
    /\ lookup "title" c = Some title
    /\ lookup "url" c = Some url
    /\ lookup "price" c = Some (VStr ("$" ++ py_str repr_other price)).
Proof.
  unfold UdemyAPI._process_udemy_course. intros H. bind_inv H.
  injection H as <-. do 3 eexists. repeat split.
Qed.

Lemma process_edx_course_inv (course : value) (c : dict) :
  EdXAPI._process_edx_course course = Ok c ->
  exists title url,
    getitem course "title" = Ok title
    /\ getitem course "marketing_url" = Ok url
    /\ lookup "title" c = Some title
    /\ lookup "url" c = Some url.
Proof.
  unfold EdXAPI._process_edx_course. intros H. bind_inv H.
  injection H as <-. do 2 eexists. repeat split.
Qed.

(** A record without one of the fields an adapter subscripts makes the
    mapping of that record raise. *)
Lemma process_coursera_course_missing (repr_other : value -> string)
    (d : dict) (field : string) :
  In field coursera_required -> lookup field d = None ->
  exists e, CourseraAPI._process_coursera_course repr_other (VDict d) = Raise e.
Proof.
  unfold coursera_required, CourseraAPI._process_coursera_course, getitem,
    get_method.
  intros Hin Hnone. simpl in Hin.
  repeat (destruct Hin as [<- | Hin]; [rewrite Hnone |]); try contradiction;
    repeat
      match goal with
      | |- exists e, Raise ?x = Raise e => exists x; reflexivity
      | |- context [match lookup ?k d with _ => _ end] =>
          destruct (lookup k d); cbn [bind]
      | |- context [bind (getitem0 ?v) _] => destruct (getitem0 v); cbn [bind]
      | |- _ => progress cbn [bind]
      end.
Qed.

Lemma process_udemy_course_missing (repr_other : value -> string)
    (d : dict) (field : string) :
  In field udemy_required -> lookup field d = None ->
  exists e, UdemyAPI._process_udemy_course repr_other (VDict d) = Raise e.
Proof.
  unfold udemy_required, UdemyAPI._process_udemy_course, getitem.
  intros Hin Hnone. simpl in Hin.
  repeat (destruct Hin as [<- | Hin]; [rewrite Hnone |]); try contradiction;
    repeat
      match goal with
      | |- exists e, Raise ?x = Raise e => exists x; reflexivity
      | |- context [match lookup ?k d with _ => _ end] =>
          destruct (lookup k d); cbn [bind]
      | |- _ => progress cbn [bind]
      end.
Qed.

Lemma process_edx_course_missing (d : dict) (field : string) :
  In field edx_required -> lookup field d = None ->
  exists e, EdXAPI._process_edx_course (VDict d) = Raise e.
Proof.
  unfold edx_required, EdXAPI._process_edx_course, getitem, get_method.
  intros Hin Hnone. simpl in Hin.
  repeat (destruct Hin as [<- | Hin]; [rewrite Hnone |]); try contradiction;
    repeat
      match goal with
      | |- exists e, Raise ?x = Raise e => exists x; reflexivity
      | |- context [match lookup ?k d with _ => _ end] =>
          destruct (lookup k d); cbn [bind]
      | |- _ => progress cbn [bind]
      end.
Qed.

(** C7, as stated, fails: a record that lacks the upstream field of the
    title is not given an empty title; the subscript raises [KeyError] and
    the whole batch is lost, well-formed records included. *)
Lemma process_results_missing_title_counterexample :
  CourseraAPI._process_coursera_results no_repr
    (VList [ VDict [ ("id", VStr "c-1"); ("name", VStr "Machine Learning");
                     ("description", VStr "An introduction");
                     ("slug", VStr "machine-learning") ];
             VDict [ ("id", VStr "c-2"); ("description", VStr "Untitled");
                     ("slug", VStr "untitled") ] ])
  = Raise (Exn KeyError "'name'")
  /\ UdemyAPI._process_udemy_results no_repr
       (VList [ VDict [ ("id", VInt 7); ("title", VStr "Python Bootcamp");
                        ("headline", VStr "From zero to hero") ] ])
     = Raise (Exn KeyError "'url'")
  /\ EdXAPI._process_edx_results
       (VList [ VDict [ ("id", VStr "e-1");
                        ("short_description", VStr "Untitled") ] ])
     = Raise (Exn KeyError "'title'").
Proof. repeat split; vm_compute; reflexivity. Qed.

(** The first failure of a loop is the failure of the loop. *)
Lemma mapM_app_raise {A B : Type} (f : A -> result B) (good rest : list A)
    (outs : list B) (x : A) (e : exn) :
  mapM f good = Ok outs -> f x = Raise e ->
  mapM f (good ++ x :: rest) = Raise e.
Proof.
  revert outs. induction good as [|a r IH]; simpl; intros outs Hg Hx.
  - rewrite Hx. reflexivity.
  - destruct (f a) as [b|e']; cbn [bind] in *; [| discriminate].
    destruct (mapM f r) as [bs|e']; cbn [bind] in *; [| discriminate].
    rewrite (IH bs eq_refl Hx). reflexivity.
Qed.

Ltac first_missing_now H :=
  cbn [first_missing] in H;
  repeat
    match type of H with
    | context [lookup ?k ?d] =>
        let E := fresh "E" in
        destruct (lookup k d) eqn:E; cbn [bind];
        [| injection H as <-; reflexivity]
    end;
  try discriminate H.

(** The records an adapter maps one by one: the first subscripted field
    that is missing decides the exception, after the language step at
    Coursera when that field is [id]. *)
Lemma process_coursera_course_first_missing (repr_other : value -> string)
    (d : dict) (field : string) :
  first_missing coursera_required d = Some field ->
  (field <> "id" ->
   CourseraAPI._process_coursera_course repr_other (VDict d)
   = Raise (Exn KeyError (repr_str field)))
  /\ (forall language,
        field = "id" -> coursera_language d = Ok language ->
        CourseraAPI._process_coursera_course repr_other (VDict d)
        = Raise (Exn KeyError "'id'"))
  /\ (forall e,
        field = "id" -> coursera_language d = Raise e ->
        CourseraAPI._process_coursera_course repr_other (VDict d) = Raise e).
Proof.
  unfold coursera_required, CourseraAPI._process_coursera_course,
    coursera_language, getitem, get_method.
  intros H. cbn [first_missing] in H.
  destruct (lookup "name" d) eqn:E1; cbn [bind];
    [| injection H as <-; repeat split; try discriminate; reflexivity].
  destruct (lookup "description" d) eqn:E2; cbn [bind];
    [| injection H as <-; repeat split; try discriminate; reflexivity].
  destruct (lookup "slug" d) eqn:E3; cbn [bind];
    [| injection H as <-; repeat split; try discriminate; reflexivity].
  destruct (lookup "id" d) eqn:E4; [discriminate |].
  injection H as <-. repeat split.
  - congruence.
  - intros language _ ->. reflexivity.
  - intros e _ ->. reflexivity.
Qed.

Lemma process_udemy_course_first_missing (repr_other : value -> string)
    (d : dict) (field : string) :
  first_missing udemy_required d = Some field ->
  UdemyAPI._process_udemy_course repr_other (VDict d)
  = Raise (Exn KeyError (repr_str field)).
Proof.
  unfold udemy_required, UdemyAPI._process_udemy_course, getitem.
  intros H. first_missing_now H.
Qed.

Lemma process_edx_course_first_missing (d : dict) (field : string) :
  first_missing edx_required d = Some field ->
  EdXAPI._process_edx_course (VDict d) = Raise (Exn KeyError (repr_str field)).
Proof.
  unfold edx_required, EdXAPI._process_edx_course, getitem, get_method.
  intros H. cbn [first_missing] in H.
  destruct (lookup "title" d) eqn:E1; cbn [bind];
    [| injection H as <-; reflexivity].
  destruct (lookup "short_description" d) eqn:E2; cbn [bind];
    [| injection H as <-; reflexivity].
  destruct (lookup "marketing_url" d) eqn:E3; cbn [bind];
    [| injection H as <-; reflexivity].
  destruct (lookup "image_url" d) eqn:E4; cbn [bind];
    [| injection H as <-; reflexivity].
  destruct (lookup "id" d) eqn:E5; [discriminate |].
  injection H as <-. reflexivity.
Qed.

(** C7, amended.  Whenever an adapter's result mapping returns, it returns
    one record for each upstream record, and every record has a title and a
    url taken from its upstream record: the title is the upstream [name]
    at Coursera and [title] at Udemy and edX; the url is
    ["https://www.coursera.org/learn/"] followed by the upstream [slug] at
    Coursera, the upstream [url] at Udemy and [marketing_url] at edX.  No
    missing field is replaced by the empty string: a record that lacks one
    of the fields the adapter subscripts makes the mapping raise for the
    whole payload.  When the records before it map, the exception is the
    [KeyError] of the first subscripted field the record lacks, in the
    order the adapter reads them, with one exception: at Coursera the
    language step [primaryLanguages[0]] is read before [id], so that when
    [id] is the first field missing and that step fails, its exception
    comes out instead. *)
Theorem process_results_title_and_url (repr_other : value -> string) :
  (forall payload out,
      CourseraAPI._process_coursera_results repr_other payload = Ok out ->
      Forall has_title_and_url out
      /\ exists items,
           iterate payload = Ok items
           /\ Forall2
                (title_and_url_from "name" "slug" (coursera_url repr_other))
                items out)
  /\ (forall payload out,
        UdemyAPI._process_udemy_results repr_other payload = Ok out ->
        Forall has_title_and_url out
        /\ exists items,
             iterate payload = Ok items
             /\ Forall2 (title_and_url_from "title" "url" (fun url => url))
                  items out)
  /\ (forall payload out,
        EdXAPI._process_edx_results payload = Ok out ->
        Forall has_title_and_url out
        /\ exists items,
             iterate payload = Ok items
             /\ Forall2
                  (title_and_url_from "title" "marketing_url" (fun url => url))
                  items out)
  /\ (forall items d field,
        In (VDict d) items -> In field coursera_required ->
        lookup field d = None ->
        exists e,
          CourseraAPI._process_coursera_results repr_other (VList items)
          = Raise e)
  /\ (forall items d field,
        In (VDict d) items -> In field udemy_required ->
        lookup field d = None ->
        exists e,
          UdemyAPI._process_udemy_results repr_other (VList items) = Raise e)
  /\ (forall items d field,
        In (VDict d) items -> In field edx_required ->
        lookup field d = None ->
        exists e, EdXAPI._process_edx_results (VList items) = Raise e)
  /\ (forall good out d rest field,
        CourseraAPI._process_coursera_results repr_other (VList good)
        = Ok out ->
        first_missing coursera_required d = Some field ->
        (field <> "id" \/ exists language, coursera_language d = Ok language) ->
        CourseraAPI._process_coursera_results repr_other
          (VList (good ++ VDict d :: rest))
        = Raise (Exn KeyError (repr_str field)))
  /\ (forall good out d rest e,
        CourseraAPI._process_coursera_results repr_other (VList good)
        = Ok out ->
        first_missing coursera_required d = Some "id" ->
        coursera_language d = Raise e ->
        CourseraAPI._process_coursera_results repr_other
          (VList (good ++ VDict d :: rest))
        = Raise e)
  /\ (forall good out d rest field,
        UdemyAPI._process_udemy_results repr_other (VList good) = Ok out ->
        first_missing udemy_required d = Some field ->
        UdemyAPI._process_udemy_results repr_other
          (VList (good ++ VDict d :: rest))
        = Raise (Exn KeyError (repr_str field)))
  /\ (forall good out d rest field,
        EdXAPI._process_edx_results (VList good) = Ok out ->
        first_missing edx_required d = Some field ->
        EdXAPI._process_edx_results (VList (good ++ VDict d :: rest))
        = Raise (Exn KeyError (repr_str field))).
Proof.
  split; [| split; [| split; [| split; [| split; [| split;
    [| split; [| split; [| split]]]]]]]].
  - intros payload out H. unfold CourseraAPI._process_coursera_results in H.
    bind_inv H. apply mapM_Ok_inv in H. split.
    + apply Forall_forall. intros c Hc.
      destruct (Forall2_In_r _ _ _ _ H Hc) as [x [_ Hx]].
      apply process_coursera_course_inv in Hx
        as (name & description & slug & _ & Ht & _ & Hu & _).
      split; eexists; eassumption.
    + eexists. split; [reflexivity |].
      eapply Forall2_impl; [| exact H]. intros item c Hx.
      unfold CourseraAPI._process_coursera_course in Hx. bind_inv Hx.
      injection Hx as <-. split; eexists; split; try eassumption; reflexivity.
  - intros payload out H. unfold UdemyAPI._process_udemy_results in H.
    bind_inv H. apply mapM_Ok_inv in H. split.
    + apply Forall_forall. intros c Hc.
      destruct (Forall2_In_r _ _ _ _ H Hc) as [x [_ Hx]].
      apply process_udemy_course_inv in Hx
        as (title & url & price & _ & _ & Ht & Hu & _).
      split; eexists; eassumption.
    + eexists. split; [reflexivity |].
      eapply Forall2_impl; [| exact H]. intros item c Hx.
      unfold UdemyAPI._process_udemy_course in Hx. bind_inv Hx.
      injection Hx as <-. split; eexists; split; try eassumption; reflexivity.
  - intros payload out H. unfold EdXAPI._process_edx_results in H.
    bind_inv H. apply mapM_Ok_inv in H. split.
    + apply Forall_forall. intros c Hc.
      destruct (Forall2_In_r _ _ _ _ H Hc) as [x [_ Hx]].
      apply process_edx_course_inv in Hx as (title & url & _ & _ & Ht & Hu).
      split; eexists; eassumption.
    + eexists. split; [reflexivity |].
      eapply Forall2_impl; [| exact H]. intros item c Hx.
      unfold EdXAPI._process_edx_course in Hx. bind_inv Hx.
      injection Hx as <-. split; eexists; split; try eassumption; reflexivity.
  - intros items d field Hin Hf Hnone.
    unfold CourseraAPI._process_coursera_results. cbn [iterate bind].
    eapply mapM_raises; [exact Hin |].
    eapply process_coursera_course_missing; eassumption.
  - intros items d field Hin Hf Hnone.
    unfold UdemyAPI._process_udemy_results. cbn [iterate bind].
    eapply mapM_raises; [exact Hin |].
    eapply process_udemy_course_missing; eassumption.
  - intros items d field Hin Hf Hnone.
    unfold EdXAPI._process_edx_results. cbn [iterate bind].
    eapply mapM_raises; [exact Hin |].
    eapply process_edx_course_missing; eassumption.
  - intros good out d rest field Hg Hm Hcase.
    unfold CourseraAPI._process_coursera_results in *. cbn [iterate bind] in *.
    apply (mapM_app_raise _ _ _ _ _ _ Hg).
    destruct (process_coursera_course_first_missing repr_other d field Hm)
      as (Hother & Hid & _).
    destruct (String.eqb_spec field "id") as [-> | Hne].
    + destruct Hcase as [Hne | [language Hl]]; [congruence |].
      exact (Hid language eq_refl Hl).
    + exact (Hother Hne).
  - intros good out d rest e Hg Hm Hl.
    unfold CourseraAPI._process_coursera_results in *. cbn [iterate bind] in *.
    apply (mapM_app_raise _ _ _ _ _ _ Hg).
    exact (proj2 (proj2
             (process_coursera_course_first_missing repr_other d "id" Hm))
             e eq_refl Hl).
  - intros good out d rest field Hg Hm.
    unfold UdemyAPI._process_udemy_results in *. cbn [iterate bind] in *.
    apply (mapM_app_raise _ _ _ _ _ _ Hg).
    exact (process_udemy_course_first_missing repr_other d field Hm).
  - intros good out d rest field Hg Hm.
    unfold EdXAPI._process_edx_results in *. cbn [iterate bind] in *.
    apply (mapM_app_raise _ _ _ _ _ _ Hg).
    exact (process_edx_course_first_missing d field Hm).
Qed.

(** C7 on one well-formed Coursera record, on a payload whose second
    record has no [id] and an empty list of languages, and on a payload of
    Udemy whose second record has no [url]. *)
Lemma process_results_title_and_url_witness :
  Forall has_title_and_url
    [ [ ("provider", VStr "Coursera");
        ("title", VStr "Machine Learning");
        ("description", VStr "An introduction");
        ("url", VStr "https://www.coursera.org/learn/machine-learning");
        ("image_url", VNone);
        ("duration", VStr "Flexible");
        ("language", VStr "English");
        ("certificate", VBool false);
        ("start_date", VStr "Self-paced");
        ("price", VStr "Free to audit, Certificate available");
        ("provider_id", VStr "c-1") ] ]
  /\ CourseraAPI._process_coursera_results no_repr
       (VList
          ([ coursera_record "c-1" "Machine Learning" "machine-learning" ]
             ++ VDict [ ("name", VStr "Statistics");
                        ("description", VStr "An introduction");
                        ("slug", VStr "statistics");
                        ("primaryLanguages", VList []) ]
             :: []))
     = Raise (Exn IndexError "list index out of range")
  /\ UdemyAPI._process_udemy_results no_repr
       (VList
          ([ udemy_record 7 "Python Bootcamp" (VInt 20) (VInt 4) ]
             ++ VDict [ ("id", VInt 8); ("title", VStr "Statistics");
                        ("headline", VStr "An introduction") ]
             :: []))
     = Raise (Exn KeyError "'url'").
Proof.
  destruct (process_results_title_and_url no_repr)
    as (Hc & _ & _ & _ & _ & _ & _ & Hlang & Hudemy & _).
  split; [| split].
  - apply (Hc (VList [ VDict [ ("id", VStr "c-1");
                               ("name", VStr "Machine Learning");
                               ("description", VStr "An introduction");
                               ("slug", VStr "machine-learning") ] ])).
    vm_compute. reflexivity.
  - eapply Hlang; vm_compute; reflexivity.
  - eapply (Hudemy [ udemy_record 7 "Python Bootcamp" (VInt 20) (VInt 4) ]
              _ _ [] "url").
    + vm_compute. reflexivity.
    + reflexivity.
Defined.

Lemma num_compare_antisym (a b : pynum) :
  num_compare b a = option_map CompOpp (num_compare a b).
Proof.
  unfold num_compare.
  destruct (num_value a) as [x|], (num_value b) as [y|]; try reflexivity.
  simpl. rewrite (xcompare_antisym x y). reflexivity.
Qed.

Lemma filterM_const {A : Type} (p : A -> result bool) (b : bool) (l : list A) :
  Forall (fun x => p x = Ok b) l -> filterM p l = Ok (if b then l else []).
Proof.
  induction 1 as [|x r Hx _ IH]; simpl.
  - destruct b; reflexivity.
  - rewrite Hx, IH. destruct b; reflexivity.
Qed.

(** The range check on a course whose derived price is [0.0]. *)
Lemma in_price_range_free (low high : pynum) (course : dict) :
  CourseAggregator._get_numeric_price
    (dict_get_default course "price" (VInt 0)) = Ok float_zero ->
  (num_lt (NInt 0) low = true ->
   CourseAggregator.in_price_range low high course = Ok false)
  /\ (num_le low (NInt 0) = true -> num_le (NInt 0) high = true ->
      CourseAggregator.in_price_range low high course = Ok true).
Proof.
  intros H. unfold CourseAggregator.in_price_range. rewrite H. cbn [bind].
  change (num_ge (NFloat float_zero) low) with (num_le low (NInt 0)).
  change (num_le (NFloat float_zero) high) with (num_le (NInt 0) high).
  split.
  - intros Hlt. unfold num_lt in Hlt. unfold num_le.
    rewrite (num_compare_antisym (NInt 0) low).
    destruct (num_compare (NInt 0) low) as [[]|]; try discriminate.
    reflexivity.
  - intros -> ->. reflexivity.
Qed.

(** C9.  Every course the Coursera mapping returns carries the price
    ["Free to audit, Certificate available"], whose derived numeric price
    is [0.0].  A price range whose minimum is above [0] therefore drops
    every Coursera course, whatever the other filters, and a range with
    [min <= 0 <= max] passes every Coursera course through the range
    check. *)
Theorem coursera_price_is_zero (repr_other : value -> string)
    (payload : value) (out : list dict) :
  CourseraAPI._process_coursera_results repr_other payload = Ok out ->
  Forall
    (fun course =>
       lookup "price" course
       = Some (VStr "Free to audit, Certificate available")
       /\ CourseAggregator._get_numeric_price
            (dict_get_default course "price" (VInt 0)) = Ok float_zero)
    out
  /\ (forall low high filters,
        num_lt (NInt 0) low = true ->
        Forall
          (fun course =>
             CourseAggregator.in_price_range low high course = Ok false) out
        /\ CourseAggregator._apply_filters out filters (Some (low, high))
           = Ok [])
  /\ (forall low high,
        num_le low (NInt 0) = true -> num_le (NInt 0) high = true ->
        Forall
          (fun course =>
             CourseAggregator.in_price_range low high course = Ok true) out
        /\ CourseAggregator._apply_filters out None (Some (low, high))
           = Ok out).
Proof.
  intros H.
  assert (Hfree :
    Forall
      (fun course =>
         lookup "price" course
         = Some (VStr "Free to audit, Certificate available")
         /\ CourseAggregator._get_numeric_price
              (dict_get_default course "price" (VInt 0)) = Ok float_zero)
      out).
  { unfold CourseraAPI._process_coursera_results in H.
    bind_inv H. apply mapM_Ok_inv in H. apply Forall_forall. intros c Hc.
    destruct (Forall2_In_r _ _ _ _ H Hc) as [x [_ Hx]].
    apply process_coursera_course_inv in Hx as (? & ? & ? & _ & _ & _ & _ & Hp).
    split; [exact Hp |]. unfold dict_get_default. rewrite Hp. reflexivity. }
  split; [exact Hfree | split].
  - intros low high filters Hlow.
    assert (Hall : Forall
      (fun course =>
         CourseAggregator.in_price_range low high course = Ok false) out).
    { eapply Forall_impl; [| exact Hfree]. intros c [_ Hz].
      apply (in_price_range_free low high c Hz), Hlow. }
    split; [exact Hall |].
    rewrite apply_filters_range.
    rewrite (filterM_const _ false); [reflexivity |].
    apply Forall_forall. intros c Hc. apply filter_In in Hc as [Hc _].
    exact (proj1 (Forall_forall _ _) Hall c Hc).
  - intros low high Hlow Hhigh.
    assert (Hall : Forall
      (fun course =>
         CourseAggregator.in_price_range low high course = Ok true) out).
    { eapply Forall_impl; [| exact Hfree]. intros c [_ Hz].
      apply (in_price_range_free low high c Hz); assumption. }
    split; [exact Hall |].
    rewrite apply_filters_range.
    assert (E : filter (satisfies []) out = out).
    { clear. induction out as [|c cs IH]; simpl; congruence. }
    simpl. rewrite E. apply (filterM_const _ true), Hall.
Qed.

(** C9 on one Coursera record: the ranges [[10, 100]] and [[0, 100]]. *)
Lemma coursera_price_is_zero_witness :
  CourseAggregator._get_numeric_price
    (VStr "Free to audit, Certificate available") = Ok float_zero
  /\ CourseAggregator._apply_filters
       [ [ ("provider", VStr "Coursera");
           ("title", VStr "Machine Learning");
           ("description", VStr "An introduction");
           ("url", VStr "https://www.coursera.org/learn/machine-learning");
           ("image_url", VNone);
           ("duration", VStr "Flexible");
           ("language", VStr "English");
           ("certificate", VBool false);
           ("start_date", VStr "Self-paced");
           ("price", VStr "Free to audit, Certificate available");
           ("provider_id", VStr "c-1") ] ]
       None (Some (NInt 10, NInt 100))
     = Ok [].
Proof.
  pose proof
    (coursera_price_is_zero no_repr
       (VList [coursera_record "c-1" "Machine Learning" "machine-learning"])
       _ eq_refl) as [Hfree [Habove _]].
  split.
  - exact (proj2 (Forall_inv Hfree)).
  - exact (proj2 (Habove (NInt 10) (NInt 100) None eq_refl)).
Defined.

(* ===================================================================== *)
(** * Properties of the request helper *)
(* ===================================================================== *)




(* ===================================================================== *)
(** * Properties of the aggregation *)
(* ===================================================================== *)

Lemma search_all_providers_unfold (self : CourseAggregator.t)
    (skills : list string) (limit : Z) (sort_by : option string)
    (filters : option dict) (price_range : option (pynum * pynum)) :
  CourseAggregator.search_all_providers self skills limit sort_by filters
    price_range
  = mapM (CourseAggregator.refine sort_by filters price_range)
      (map
         (fun entry =>
            (fst entry,
             CourseAggregator.bucket_of
               (CourseAggregator._safe_provider_search (snd entry) skills
                  limit)))
         (providers self)).
Proof. reflexivity. Qed.

Lemma refine_bucket_of (sort_by : option string) (filters : option dict)
    (price_range : option (pynum * pynum)) (name : string)
    (outcome : result (list dict)) :
  CourseAggregator.refine sort_by filters price_range
    (name, CourseAggregator.bucket_of outcome)
  = match outcome with
    | Raise e => Ok (name, CourseAggregator.bucket_of (Raise e))
    | Ok found =>
        ranked <- stage sort_by filters price_range found ;;
        Ok (name, {| error := None; courses := ranked |})
    end.
Proof.
  destruct outcome as [found|e]; [| reflexivity].
  unfold CourseAggregator.refine, stage. simpl.
  destruct (CourseAggregator._apply_filters found filters price_range);
    reflexivity.
Qed.

(** An exception leaves [search_all_providers] only from the filter and
    sort stage, on the courses of a provider whose search succeeded. *)
Lemma search_all_providers_Raise_inv (self : CourseAggregator.t)
    (skills : list string) (limit : Z) (sort_by : option string)
    (filters : option dict) (price_range : option (pynum * pynum)) (e : exn) :
  CourseAggregator.search_all_providers self skills limit sort_by filters
    price_range = Raise e ->
  exists name p found,
    In (name, p) (providers self)
    /\ CourseAggregator._safe_provider_search p skills limit = Ok found
    /\ stage sort_by filters price_range found = Raise e.
Proof.
  rewrite search_all_providers_unfold. intros H.
  apply mapM_Raise_inv in H as [entry [Hin Hr]].
  apply in_map_iff in Hin as [[name p] [<- Hin]]. simpl in Hr.
  rewrite refine_bucket_of in Hr.
  destruct (CourseAggregator._safe_provider_search p skills limit)
    as [found|e'] eqn:E; [| discriminate].
  exists name, p, found. repeat split; try assumption.
  destruct (stage sort_by filters price_range found); [discriminate |].
  cbn [bind] in Hr. injection Hr as ->. reflexivity.
Qed.

(** A response has one bucket per provider, in the order [coursera],
    [udemy], [edx], each settled by the outcome of its own search. *)
Lemma search_all_providers_Ok_inv (self : CourseAggregator.t)
    (skills : list string) (limit : Z) (sort_by : option string)
    (filters : option dict) (price_range : option (pynum * pynum))
    (found : list (string * bucket)) :
  CourseAggregator.search_all_providers self skills limit sort_by filters
    price_range = Ok found ->
  exists b1 b2 b3,
    found = [("coursera", b1); ("udemy", b2); ("edx", b3)]
    /\ settles sort_by filters price_range
         (CourseAggregator._safe_provider_search
            (CourseAggregator.coursera self) skills limit) b1
    /\ settles sort_by filters price_range
         (CourseAggregator._safe_provider_search
            (CourseAggregator.udemy self) skills limit) b2
    /\ settles sort_by filters price_range
         (CourseAggregator._safe_provider_search
            (CourseAggregator.edx self) skills limit) b3.
Proof.
  rewrite search_all_providers_unfold. unfold providers.
  cbn [map mapM fst snd]. rewrite !refine_bucket_of. unfold settles.
  destruct (CourseAggregator._safe_provider_search
              (CourseAggregator.coursera self) skills limit) as [f1|e1];
    [destruct (stage sort_by filters price_range f1) as [r1|] |];
    cbn [bind]; try discriminate;
    (destruct (CourseAggregator._safe_provider_search
                 (CourseAggregator.udemy self) skills limit) as [f2|e2];
     [destruct (stage sort_by filters price_range f2) as [r2|] |]);
    cbn [bind]; try discriminate;
    (destruct (CourseAggregator._safe_provider_search
                 (CourseAggregator.edx self) skills limit) as [f3|e3];
     [destruct (stage sort_by filters price_range f3) as [r3|] |]);
    cbn [bind]; try discriminate;
    intros H; injection H as <-; do 3 eexists;
    (split; [reflexivity |]); repeat split; eauto.
Qed.

(** When the stage returns on the courses of every provider whose search
    succeeded, [search_all_providers] returns. *)
Lemma search_all_providers_returns (self : CourseAggregator.t)
    (skills : list string) (limit : Z) (sort_by : option string)
    (filters : option dict) (price_range : option (pynum * pynum)) :
  (forall name p found,
      In (name, p) (providers self) ->
      CourseAggregator._safe_provider_search p skills limit = Ok found ->
      exists ranked, stage sort_by filters price_range found = Ok ranked) ->
  exists found,
    CourseAggregator.search_all_providers self skills limit sort_by filters
      price_range = Ok found.
Proof.
  intros H.
  destruct (CourseAggregator.search_all_providers self skills limit sort_by
              filters price_range) as [found|e] eqn:E.
  - exists found; reflexivity.
  - apply search_all_providers_Raise_inv in E
      as (name & p & found & Hin & Hs & Hr).
    destruct (H name p found Hin Hs) as [ranked Hk]. congruence.
Qed.

(** Without sorting, filters and range the stage is the identity. *)
Lemma stage_nothing (found : list dict) : stage None None None found = Ok found.
Proof. reflexivity. Qed.

(** C1 fails on the code: the exceptions of the providers are kept in
    their buckets, but an exception of the filter and sort stage leaves the
    call.  Here Coursera and Udemy answer, edX times out, and the Udemy
    course has no rating yet ([avg_rating] is [null]); sorting by rating
    raises [TypeError] out of [search_all_providers], while the same answers
    without sorting give the complete mapping.  The exception comes from the
    unguarded [float] of [get_sort_key], the defect C4 is about. *)
Theorem search_all_providers_raises_on_unrated_course :
  CourseAggregator.search_all_providers
    (CourseAggregator.make no_repr unrated_sessions sample_keys)
    ["python"] 5 (Some "rating") None None
  = Raise (Exn TypeError
             "float() argument must be a string or a real number, not 'NoneType'")
  /\ CourseAggregator.search_all_providers
       (CourseAggregator.make no_repr unrated_sessions sample_keys)
       ["python"] 5 None None None
     = Ok [ ("coursera",
             {| error := None;
                courses :=
                  [ [ ("provider", VStr "Coursera");
                      ("title", VStr "Machine Learning");
                      ("description", VStr "An introduction");
                      ("url",
                        VStr "https://www.coursera.org/learn/machine-learning");
                      ("image_url", VNone);
                      ("duration", VStr "Flexible");
                      ("language", VStr "English");
                      ("certificate", VBool false);
                      ("start_date", VStr "Self-paced");
                      ("price", VStr "Free to audit, Certificate available");
                      ("provider_id", VStr "c-1") ] ] |});
            ("udemy",
             {| error := None;
                courses :=
                  [ [ ("provider", VStr "Udemy");
                      ("title", VStr "Python Bootcamp");
                      ("description", VStr "From zero to hero");
                      ("url", VStr "/course/python-bootcamp/");
                      ("image_url", VStr "https://img.example/480x270.jpg");
                      ("price", VStr "$20");
                      ("rating", VNone);
                      ("reviews", VInt 120);
                      ("provider_id", VInt 7) ] ] |});
            ("edx", {| error := Some "Request timed out"; courses := [] |}) ].
Proof. split; vm_compute; reflexivity. Qed.

(** Short of such an exception of the stage, the mapping is complete: one
    bucket per provider in the order [coursera], [udemy], [edx], and the
    bucket of a provider whose search failed is its error message with no
    course. *)
Lemma search_all_providers_complete (self : CourseAggregator.t)
    (skills : list string) (limit : Z) (sort_by : option string)
    (filters : option dict) (price_range : option (pynum * pynum)) :
  (forall name p found,
      In (name, p) (providers self) ->
      CourseAggregator._safe_provider_search p skills limit = Ok found ->
      exists ranked, stage sort_by filters price_range found = Ok ranked) ->
  exists found,
    CourseAggregator.search_all_providers self skills limit sort_by filters
      price_range = Ok found
    /\ map fst found = ["coursera"; "udemy"; "edx"]
    /\ forall name p e,
         In (name, p) (providers self) ->
         CourseAggregator._safe_provider_search p skills limit = Raise e ->
         bucket_at name found
         = Some {| error := Some (exn_str e); courses := [] |}.
Proof.
  intros H.
  destruct (search_all_providers_returns _ _ _ _ _ _ H) as [found Hf].
  exists found. split; [exact Hf |].
  apply search_all_providers_Ok_inv in Hf
    as (b1 & b2 & b3 & -> & S1 & S2 & S3).
  split; [reflexivity |].
  intros name p e Hin Hr. unfold providers in Hin. simpl in Hin.
  destruct Hin as [Hin | [Hin | [Hin | []]]]; injection Hin as <- <-;
    [rewrite Hr in S1 | rewrite Hr in S2 | rewrite Hr in S3];
    simpl in *; subst; reflexivity.
Qed.

(** C3, as stated, fails: a call with no skill, or with the limit [0], is
    not rejected.  The providers are searched with the empty query,
    respectively with page size [0], and the call returns the mapping. *)
Lemma search_all_providers_validation_counterexample :
  ~ rejected_before_dispatch [] 10
  /\ ~ rejected_before_dispatch ["python"] 0
  /\ CourseAggregator.search_all_providers
       (CourseAggregator.make no_repr empty_query_sessions sample_keys)
       [] 10 None None None
     = Ok [ ("coursera",
             {| error := None;
                courses :=
                  [ [ ("provider", VStr "Coursera");
                      ("title", VStr "Machine Learning");
                      ("description", VStr "An introduction");
                      ("url",
                        VStr "https://www.coursera.org/learn/machine-learning");
                      ("image_url", VNone);
                      ("duration", VStr "Flexible");
                      ("language", VStr "English");
                      ("certificate", VBool false);
                      ("start_date", VStr "Self-paced");
                      ("price", VStr "Free to audit, Certificate available");
                      ("provider_id", VStr "c-1") ] ] |});
            ("udemy",
             {| error := Some "Cannot connect to host www.udemy.com";
                courses := [] |});
            ("edx", {| error := Some "Request timed out"; courses := [] |}) ].
Proof.
  split; [| split].
  - intros H. destruct (H empty_query_sessions None None None) as [e He].
    vm_compute in He. discriminate He.
  - intros H. destruct (H zero_limit_sessions None None None) as [e He].
    vm_compute in He. discriminate He.
  - vm_compute. reflexivity.
Qed.

(** C3, amended: [search_all_providers] does not validate the request.
    With an empty skills list or a limit that is not positive, each of the
    three providers is searched with exactly those arguments; without
    sorting, filters and range the call returns the mapping of their
    outcomes; and in general it returns a mapping settled by those outcomes
    or raises what the filter and sort stage raised on the courses of a
    provider whose search succeeded.  No validation error exists. *)
Theorem search_all_providers_no_validation (self : CourseAggregator.t)
    (skills : list string) (limit : Z) (sort_by : option string)
    (filters : option dict) (price_range : option (pynum * pynum)) :
  skills = [] \/ limit <= 0 ->
  CourseAggregator.search_all_providers self skills limit None None None
  = Ok (map
          (fun entry =>
             (fst entry,
              CourseAggregator.bucket_of
                (CourseAggregator._safe_provider_search (snd entry) skills
                   limit)))
          (providers self))
  /\ (forall e,
        CourseAggregator.search_all_providers self skills limit sort_by
          filters price_range = Raise e ->
        exists name p found,
          In (name, p) (providers self)
          /\ CourseAggregator._safe_provider_search p skills limit = Ok found
          /\ stage sort_by filters price_range found = Raise e)
  /\ (forall found,
        CourseAggregator.search_all_providers self skills limit sort_by
          filters price_range = Ok found ->
        exists b1 b2 b3,
          found = [("coursera", b1); ("udemy", b2); ("edx", b3)]
          /\ settles sort_by filters price_range
               (CourseAggregator._safe_provider_search
                  (CourseAggregator.coursera self) skills limit) b1
          /\ settles sort_by filters price_range
               (CourseAggregator._safe_provider_search
                  (CourseAggregator.udemy self) skills limit) b2
          /\ settles sort_by filters price_range
               (CourseAggregator._safe_provider_search
                  (CourseAggregator.edx self) skills limit) b3).
Proof.
  intros _. split; [| split].
  - rewrite search_all_providers_unfold. unfold providers.
    cbn [map mapM fst snd]. rewrite !refine_bucket_of.
    destruct (CourseAggregator._safe_provider_search
                (CourseAggregator.coursera self) skills limit),
      (CourseAggregator._safe_provider_search
         (CourseAggregator.udemy self) skills limit),
      (CourseAggregator._safe_provider_search
         (CourseAggregator.edx self) skills limit); reflexivity.
  - apply search_all_providers_Raise_inv.
  - apply search_all_providers_Ok_inv.
Qed.

(** C3 on the sample run without skills. *)
Lemma search_all_providers_no_validation_witness :
  CourseAggregator.search_all_providers
    (CourseAggregator.make no_repr empty_query_sessions sample_keys)
    [] 10 None None None
  = Ok (map
          (fun entry =>
             (fst entry,
              CourseAggregator.bucket_of
                (CourseAggregator._safe_provider_search (snd entry) [] 10)))
          (providers
             (CourseAggregator.make no_repr empty_query_sessions sample_keys))).
Proof.
  apply (proj1
           (search_all_providers_no_validation
              (CourseAggregator.make no_repr empty_query_sessions sample_keys)
              [] 10 None None None (or_introl eq_refl))).
Defined.

(** C10.  The filter and sort stage runs only on buckets whose error is
    [None]: the second loop leaves a bucket with an error as it is.  In a
    response, the bucket of a provider whose search failed is exactly its
    error message with no course, and every bucket that carries an error
    is such a bucket and has no course. *)
Theorem error_buckets_pass_untouched (self : CourseAggregator.t)
    (skills : list string) (limit : Z) (sort_by : option string)
    (filters : option dict) (price_range : option (pynum * pynum)) :
  (forall entry,
      error (snd entry) <> None ->
      CourseAggregator.refine sort_by filters price_range entry = Ok entry)
  /\ (forall found,
        CourseAggregator.search_all_providers self skills limit sort_by
          filters price_range = Ok found ->
        (forall name p e,
            In (name, p) (providers self) ->
            CourseAggregator._safe_provider_search p skills limit = Raise e ->
            bucket_at name found
            = Some {| error := Some (exn_str e); courses := [] |})
        /\ (forall name b,
              In (name, b) found -> error b <> None ->
              courses b = []
              /\ exists p e,
                   In (name, p) (providers self)
                   /\ CourseAggregator._safe_provider_search p skills limit
                      = Raise e
                   /\ error b = Some (exn_str e))).
Proof.
  split.
  - intros [name b] Hb. unfold CourseAggregator.refine. simpl in *.
    destruct (error b); [reflexivity | congruence].
  - intros found Hf.
    apply search_all_providers_Ok_inv in Hf
      as (b1 & b2 & b3 & -> & S1 & S2 & S3).
    split.
    + intros name p e Hin Hr. unfold providers in Hin. simpl in Hin.
      destruct Hin as [Hin | [Hin | [Hin | []]]]; injection Hin as <- <-;
        [rewrite Hr in S1 | rewrite Hr in S2 | rewrite Hr in S3];
        simpl in *; subst; reflexivity.
    + intros name b Hin Hb. unfold settles, providers in *. simpl in Hin.
      destruct Hin as [Hin | [Hin | [Hin | []]]]; injection Hin as <- <-.
      * destruct (CourseAggregator._safe_provider_search
                    (CourseAggregator.coursera self) skills limit)
          as [f|e] eqn:E.
        -- destruct S1 as [r [_ ->]]. simpl in Hb. congruence.
        -- subst b1. split; [reflexivity |].
           exists (CourseAggregator.coursera self), e. simpl. auto.
      * destruct (CourseAggregator._safe_provider_search
                    (CourseAggregator.udemy self) skills limit)
          as [f|e] eqn:E.
        -- destruct S2 as [r [_ ->]]. simpl in Hb. congruence.
        -- subst b2. split; [reflexivity |].
           exists (CourseAggregator.udemy self), e. simpl. auto.
      * destruct (CourseAggregator._safe_provider_search
                    (CourseAggregator.edx self) skills limit)
          as [f|e] eqn:E.
        -- destruct S3 as [r [_ ->]]. simpl in Hb. congruence.
        -- subst b3. split; [reflexivity |].
           exists (CourseAggregator.edx self), e. simpl. auto.
Qed.

(** C10 on the sample run in which edX times out. *)
Lemma error_buckets_pass_untouched_witness :
  bucket_at "edx"
    [ ("coursera",
       CourseAggregator.bucket_of
         (CourseAggregator._safe_provider_search
            (CourseAggregator.coursera
               (CourseAggregator.make no_repr unrated_sessions sample_keys))
            ["python"] 5));
      ("udemy",
       CourseAggregator.bucket_of
         (CourseAggregator._safe_provider_search
            (CourseAggregator.udemy
               (CourseAggregator.make no_repr unrated_sessions sample_keys))
            ["python"] 5));
      ("edx", {| error := Some "Request timed out"; courses := [] |}) ]
  = Some {| error := Some "Request timed out"; courses := [] |}.
Proof.
  apply (proj1 (proj2
                  (error_buckets_pass_untouched
                     (CourseAggregator.make no_repr unrated_sessions
                        sample_keys)
                     ["python"] 5 None None None) _ eq_refl)
           "edx"
           (CourseAggregator.edx
              (CourseAggregator.make no_repr unrated_sessions sample_keys))
           (Exn TimeoutError "Request timed out")).
  - simpl. auto.
  - reflexivity.
Defined.

(* ===================================================================== *)
(** * Further properties: the guarded search *)
(* ===================================================================== *)

(** X1.  [_safe_provider_search] hands a result on as it is and
    re-raises unchanged any exception that is not an instance of
    [TimeoutError].  A search that is still pending when the time is up,
    and a search that raised an instance of [TimeoutError] itself, be it
    aiohttp's [ServerTimeoutError], which is also a [ClientError], both
    end in [TimeoutError("Request timed out")]: an instance of
    [TimeoutError] that leaves the guarded search is always exactly that
    exception, whatever class and message the search raised. *)
Theorem safe_provider_search_outcomes (p : provider) (skills : list string)
    (limit : Z) :
  (search_courses p skills limit = Pending ->
   CourseAggregator._safe_provider_search p skills limit
   = Raise (Exn TimeoutError "Request timed out"))
  /\ (forall found,
        search_courses p skills limit = Finished (Ok found) ->
        CourseAggregator._safe_provider_search p skills limit = Ok found)
  /\ (forall e,
        search_courses p skills limit = Finished (Raise e) ->
        isinstance_exn e TimeoutError = false ->
        CourseAggregator._safe_provider_search p skills limit = Raise e)
  /\ (forall e,
        search_courses p skills limit = Finished (Raise e) ->
        isinstance_exn e TimeoutError = true ->
        CourseAggregator._safe_provider_search p skills limit
        = Raise (Exn TimeoutError "Request timed out"))
  /\ (forall e,
        CourseAggregator._safe_provider_search p skills limit = Raise e ->
        isinstance_exn e TimeoutError = true ->
        e = Exn TimeoutError "Request timed out").
Proof.
  unfold CourseAggregator._safe_provider_search. repeat split.
  - intros ->. reflexivity.
  - intros found ->. reflexivity.
  - intros e -> He. cbn [wait_for try_except]. rewrite He. reflexivity.
  - intros e -> He. cbn [wait_for try_except]. rewrite He. reflexivity.
  - intros e H He.
    destruct (search_courses p skills limit) as [[found|e']|];
      unfold try_except, wait_for in H.
    + discriminate.
    + destruct (isinstance_exn e' TimeoutError) eqn:I.
      * injection H as <-. reflexivity.
      * injection H as ->. congruence.
    + cbn in H. injection H as <-. reflexivity.
Qed.

(** X1 on a search that raised aiohttp's [ServerTimeoutError]. *)
Lemma safe_provider_search_outcomes_witness :
  CourseAggregator._safe_provider_search
    (Provider
       (fun _ _ =>
          Finished (Raise (Exn ServerTimeoutError "Connection timeout"))))
    ["python"] 5
  = Raise (Exn TimeoutError "Request timed out").
Proof.
  apply (proj1 (proj2 (proj2 (proj2
           (safe_provider_search_outcomes
              (Provider
                 (fun _ _ =>
                    Finished
                      (Raise (Exn ServerTimeoutError "Connection timeout"))))
              ["python"] 5))))
           (Exn ServerTimeoutError "Connection timeout")).
  - reflexivity.
  - reflexivity.
Defined.

(* ===================================================================== *)
(** * Further properties: the searches of the adapters *)
(* ===================================================================== *)

(** X2.  No adapter looks at the status of the response: whatever replaces
    the statuses the session answers with, each of the three searches gives
    the same outcome. *)
Theorem search_courses_ignores_status (repr_other : value -> string)
    (f : Z -> Z) (key : string) (secret : option string)
    (s : client_session) (skills : list string) (limit : Z) :
  CourseraAPI.search_courses repr_other (adapter key secret (with_status f s))
    skills limit
  = CourseraAPI.search_courses repr_other (adapter key secret s) skills limit
  /\ UdemyAPI.search_courses repr_other (adapter key secret (with_status f s))
       skills limit
     = UdemyAPI.search_courses repr_other (adapter key secret s) skills limit
  /\ EdXAPI.search_courses (adapter key secret (with_status f s)) skills limit
     = EdXAPI.search_courses (adapter key secret s) skills limit.
Proof.
  unfold CourseraAPI.search_courses, UdemyAPI.search_courses,
    EdXAPI.search_courses, with_status, adapter. cbn.
  repeat split;
    match goal with
    | |- context [s ?req] => destruct (s req) as [[r|e]|]; reflexivity
    end.
Qed.

(** X3.  How a search fails.  An exception of the session or of the
    decoding of the body leaves the search as it is, without any wrapping;
    a search whose session does not answer stays pending.  Each adapter
    reads the list of results under its own key, ["elements"] at Coursera
    and ["results"] at Udemy and edX: a body that is a dict without that
    key raises the [KeyError] of the key, a body that is a list raises
    [TypeError], and a body that holds an empty list under that key gives
    no course, whatever else it holds and whatever the status is. *)
Theorem search_courses_failures (repr_other : value -> string)
    (key : string) (secret : option string) (skills : list string)
    (limit : Z) :
  let searches (s : client_session) :=
    [ (CourseraAPI.search_courses repr_other (adapter key secret s) skills
         limit, "elements");
      (UdemyAPI.search_courses repr_other (adapter key secret s) skills limit,
       "results");
      (EdXAPI.search_courses (adapter key secret s) skills limit,
       "results") ] in
  Forall (fun search => fst search = Pending) (searches (fun _ => Pending))
  /\ (forall e,
        Forall (fun search => fst search = Finished (Raise e))
          (searches (answering (Raise e))))
  /\ (forall code e,
        Forall (fun search => fst search = Finished (Raise e))
          (searches (answering (Ok {| status := code; json := Raise e |}))))
  /\ (forall code d,
        Forall
          (fun search =>
             lookup (snd search) d = None ->
             fst search
             = Finished (Raise (Exn KeyError (repr_str (snd search)))))
          (searches
             (answering (Ok {| status := code; json := Ok (VDict d) |}))))
  /\ (forall code l,
        Forall
          (fun search =>
             fst search
             = Finished
                 (Raise (Exn TypeError
                           "list indices must be integers or slices, not str")))
          (searches
             (answering (Ok {| status := code; json := Ok (VList l) |}))))
  /\ (forall code d,
        Forall
          (fun search =>
             lookup (snd search) d = Some (VList []) ->
             fst search = Finished (Ok []))
          (searches
             (answering (Ok {| status := code; json := Ok (VDict d) |})))).
Proof.
  cbv zeta. repeat split; intros; repeat constructor; cbn;
    unfold getitem; try intros ->; reflexivity.
Qed.

(** X3 on a body that reports an error instead of results, and on a body
    of Udemy without any course. *)
Lemma search_courses_failures_witness :
  CourseraAPI.search_courses no_repr
    (adapter "key" None
       (answering
          (Ok {| status := 404;
                 json := Ok (VDict [("message", VStr "Not found")]) |})))
    ["python"] 5
  = Finished (Raise (Exn KeyError "'elements'"))
  /\ UdemyAPI.search_courses no_repr
       (adapter "key" None
          (answering
             (Ok {| status := 200;
                    json := Ok (VDict [ ("count", VInt 0);
                                        ("results", VList []) ]) |})))
       ["python"] 5
     = Finished (Ok []).
Proof.
  split.
  - apply (Forall_inv
             (proj1 (proj2 (proj2 (proj2
                (search_courses_failures no_repr "key" None ["python"] 5))))
                404 [("message", VStr "Not found")])).
    reflexivity.
  - apply (Forall_inv (Forall_inv_tail
             (proj2 (proj2 (proj2 (proj2 (proj2
                (search_courses_failures no_repr "key" None ["python"] 5)))))
                200 [("count", VInt 0); ("results", VList [])]))).
    reflexivity.
Defined.

(* ===================================================================== *)
(** * Further properties: the result mappings *)
(* ===================================================================== *)

Lemma process_coursera_course_record (repr_other : value -> string)
    (course : value) (c : dict) :
  CourseraAPI._process_coursera_course repr_other course = Ok c ->
  from_record "Coursera" "name" course c.
Proof.
  unfold CourseraAPI._process_coursera_course, from_record. intros H.
  bind_inv H. injection H as <-. repeat split; eexists; split; reflexivity.
Qed.

Lemma process_udemy_course_record (repr_other : value -> string)
    (course : value) (c : dict) :
  UdemyAPI._process_udemy_course repr_other course = Ok c ->
  from_record "Udemy" "title" course c.
Proof.
  unfold UdemyAPI._process_udemy_course, from_record. intros H.
  bind_inv H. injection H as <-. repeat split; eexists; split; reflexivity.
Qed.

Lemma process_edx_course_record (course : value) (c : dict) :
  EdXAPI._process_edx_course course = Ok c -> from_record "EdX" "title" course c.
Proof.
  unfold EdXAPI._process_edx_course, from_record. intros H.
  bind_inv H. injection H as <-. repeat split; eexists; split; reflexivity.
Qed.

(** X4.  A result mapping that returns gives one record per upstream
    record, in the order of the payload: the n-th record carries the
    provider's name and the title and identifier of the n-th upstream
    record.  Nothing is dropped, merged or cut to the requested limit. *)
Theorem process_results_one_per_record (repr_other : value -> string)
    (items : list value) (out : list dict) :
  (CourseraAPI._process_coursera_results repr_other (VList items) = Ok out ->
   Forall2 (from_record "Coursera" "name") items out)
  /\ (UdemyAPI._process_udemy_results repr_other (VList items) = Ok out ->
      Forall2 (from_record "Udemy" "title") items out)
  /\ (EdXAPI._process_edx_results (VList items) = Ok out ->
      Forall2 (from_record "EdX" "title") items out).
Proof.
  unfold CourseraAPI._process_coursera_results,
    UdemyAPI._process_udemy_results, EdXAPI._process_edx_results.
  cbn [iterate bind]. repeat split; intros H; apply mapM_Ok_inv in H;
    (eapply Forall2_impl; [| exact H]); intros item c Hc.
  - eapply process_coursera_course_record, Hc.
  - eapply process_udemy_course_record, Hc.
  - eapply process_edx_course_record, Hc.
Qed.

(** X4 on a payload of two Coursera records. *)
Lemma process_results_one_per_record_witness :
  Forall2 (from_record "Coursera" "name")
    [ coursera_record "c-1" "Machine Learning" "machine-learning";
      coursera_record "c-2" "Algorithms" "algorithms" ]
    [ [ ("provider", VStr "Coursera");
        ("title", VStr "Machine Learning");
        ("description", VStr "An introduction");
        ("url", VStr "https://www.coursera.org/learn/machine-learning");
        ("image_url", VNone);
        ("duration", VStr "Flexible");
        ("language", VStr "English");
        ("certificate", VBool false);
        ("start_date", VStr "Self-paced");
        ("price", VStr "Free to audit, Certificate available");
        ("provider_id", VStr "c-1") ];
      [ ("provider", VStr "Coursera");
        ("title", VStr "Algorithms");
        ("description", VStr "An introduction");
        ("url", VStr "https://www.coursera.org/learn/algorithms");
        ("image_url", VNone);
        ("duration", VStr "Flexible");
        ("language", VStr "English");
        ("certificate", VBool false);
        ("start_date", VStr "Self-paced");
        ("price", VStr "Free to audit, Certificate available");
        ("provider_id", VStr "c-2") ] ].
Proof.
  apply (proj1 (process_results_one_per_record no_repr _ _)).
  vm_compute. reflexivity.
Defined.

(* ===================================================================== *)
(** * Further properties: prices of normalized records *)
(* ===================================================================== *)

Ltac digit_value_now :=
  match goal with
  | |- context [digit_value ?c] =>
      let v := eval vm_compute in (digit_value c) in
      change (digit_value c) with v
  end.

Lemma uint_chars_digits (d : Decimal.uint) :
  Forall (fun c => isdecimal c = true)
    (list_ascii_of_string (NilEmpty.string_of_uint d)).
Proof.
  induction d; simpl; constructor; try assumption; reflexivity.
Qed.

Lemma uint_chars_acc (d : Decimal.uint) (acc : positive) :
  fold_left (fun a c => 10 * a + digit_value c)
    (list_ascii_of_string (NilEmpty.string_of_uint d)) (Zpos acc)
  = Zpos (Pos.of_uint_acc d acc).
Proof.
  revert acc. induction d; intros acc;
    cbn [NilEmpty.string_of_uint list_ascii_of_string fold_left
         Pos.of_uint_acc];
    try reflexivity; rewrite <- IHd; f_equal; digit_value_now; lia.
Qed.

Lemma uint_chars_value (d : Decimal.uint) :
  Z_of_digits (list_ascii_of_string (NilEmpty.string_of_uint d))
  = Z.of_N (Pos.of_uint d).
Proof.
  unfold Z_of_digits.
  induction d;
    cbn [NilEmpty.string_of_uint list_ascii_of_string fold_left Pos.of_uint];
    try reflexivity; digit_value_now; try exact IHd;
    apply uint_chars_acc.
Qed.

Lemma filter_chars_digits (s : string) :
  Forall (fun c => isdigit c = true) (list_ascii_of_string s) ->
  filter_chars isdigit s = s.
Proof.
  induction s as [|c r IH]; simpl; intros H; [reflexivity |].
  rewrite (Forall_inv H), (IH (Forall_inv_tail H)). reflexivity.
Qed.

(** The digit characters of the decimal text of an int are decimal and
    write its absolute value. *)
Lemma digits_of_decimal (n : Z) :
  Forall (fun c => isdecimal c = true)
    (digits_of (NilZero.string_of_int (Z.to_int n)))
  /\ Z_of_digits (digits_of (NilZero.string_of_int (Z.to_int n))) = Z.abs n.
Proof.
  assert (P : forall p,
    digits_of (NilZero.string_of_uint (Pos.to_uint p))
    = list_ascii_of_string (NilEmpty.string_of_uint (Pos.to_uint p))).
  { intros p. unfold digits_of, NilZero.string_of_uint.
    pose proof (Unsigned.to_uint_nonnil p) as Hn.
    destruct (Pos.to_uint p) eqn:E; try congruence;
      rewrite filter_chars_digits; try reflexivity;
      apply decimals_digits, uint_chars_digits. }
  destruct n as [|p|p].
  - split; [repeat constructor | reflexivity].
  - cbn [Z.to_int NilZero.string_of_int Z.abs]. rewrite P, uint_chars_value.
    rewrite Unsigned.of_to. split; [apply uint_chars_digits | reflexivity].
  - cbn [Z.to_int NilZero.string_of_int Z.abs].
    change (digits_of (String "-" ?s)) with (digits_of s).
    rewrite P, uint_chars_value, Unsigned.of_to.
    split; [apply uint_chars_digits | reflexivity].
Qed.

Lemma float_of_kept_decimal (n : Z) :
  float_of_kept (digits_of (NilZero.string_of_int (Z.to_int n)))
  = Z_to_float (Z.abs n).
Proof.
  destruct (digits_of_decimal n) as [Hall E]. unfold float_of_kept.
  destruct (digits_of (NilZero.string_of_int (Z.to_int n))) as [|c r].
  - rewrite <- E. reflexivity.
  - rewrite (proj2 (forallb_forall _ _) (proj1 (Forall_forall _ _) Hall)).
    rewrite E. reflexivity.
Qed.

Lemma process_udemy_course_price (repr_other : value -> string)
    (course : value) (c : dict) :
  UdemyAPI._process_udemy_course repr_other course = Ok c ->
  exists price,
    getitem course "price" = Ok price
    /\ lookup "price" c = Some (VStr ("$" ++ py_str repr_other price)).
Proof.
  unfold UdemyAPI._process_udemy_course. intros H. bind_inv H.
  injection H as <-. eexists. split; reflexivity.
Qed.

(** X6.  What the derived price of a Udemy record is.  The price of the
    record is ["$"] followed by [str] of the upstream price, so deriving its
    numeric price never raises, whatever the upstream price is.  For an
    upstream int [n] it is the float nearest to [|n|]: the minus sign of a
    negative price is lost, and beyond the largest float it is infinite,
    where [float(n)] itself would raise.  For an upstream string [s] it is
    the derived price of [s]: the added dollar sign never changes it.  For
    an upstream [null], [true] or [false] it is [0.0]. *)
Theorem udemy_price_round_trip (repr_other : value -> string)
    (course : value) (c : dict) :
  UdemyAPI._process_udemy_course repr_other course = Ok c ->
  (exists price p,
      getitem course "price" = Ok price
      /\ lookup "price" c = Some (VStr ("$" ++ py_str repr_other price))
      /\ CourseAggregator._get_numeric_price
           (dict_get_default c "price" (VInt 0)) = Ok p)
  /\ (forall n,
        getitem course "price" = Ok (VInt n) ->
        lookup "price" c
        = Some (VStr ("$" ++ NilZero.string_of_int (Z.to_int n)))
        /\ CourseAggregator._get_numeric_price
             (dict_get_default c "price" (VInt 0))
           = Ok (Z_to_float (Z.abs n)))
  /\ (forall s,
        getitem course "price" = Ok (VStr s) ->
        lookup "price" c = Some (VStr ("$" ++ s))
        /\ CourseAggregator._get_numeric_price
             (dict_get_default c "price" (VInt 0))
           = CourseAggregator._get_numeric_price (VStr s))
  /\ (forall price,
        getitem course "price" = Ok price ->
        price = VNone \/ (exists b, price = VBool b) ->
        CourseAggregator._get_numeric_price
          (dict_get_default c "price" (VInt 0)) = Ok float_zero).
Proof.
  intros H. apply process_udemy_course_price in H as [price [Hp Hc]].
  split; [| split; [| split]].
  - exists price. eexists. split; [exact Hp | split; [exact Hc |]].
    unfold dict_get_default. rewrite Hc. apply get_numeric_price_str.
  - intros n Hn. rewrite Hn in Hp. injection Hp as <-.
    split; [exact Hc |]. unfold dict_get_default. rewrite Hc.
    cbn [py_str]. rewrite get_numeric_price_str.
    change (digits_of ("$" ++ ?s)) with (digits_of s).
    rewrite float_of_kept_decimal. reflexivity.
  - intros s Hs. rewrite Hs in Hp. injection Hp as <-.
    split; [exact Hc |]. unfold dict_get_default. rewrite Hc.
    cbn [py_str]. rewrite !get_numeric_price_str. reflexivity.
  - intros v Hv Hcase. rewrite Hv in Hp. injection Hp as <-.
    unfold dict_get_default. rewrite Hc.
    destruct Hcase as [-> | [[] ->]]; reflexivity.
Qed.

(** X6 on a course priced [-20] upstream. *)
Lemma udemy_price_round_trip_witness :
  lookup "price"
    [ ("provider", VStr "Udemy");
      ("title", VStr "Python Bootcamp");
      ("description", VStr "From zero to hero");
      ("url", VStr "/course/python-bootcamp/");
      ("image_url", VStr "https://img.example/480x270.jpg");
      ("price", VStr "$-20");
      ("rating", VInt 4);
      ("reviews", VInt 120);
      ("provider_id", VInt 7) ]
  = Some (VStr ("$" ++ NilZero.string_of_int (Z.to_int (-20))))
  /\ CourseAggregator._get_numeric_price
       (dict_get_default
          [ ("provider", VStr "Udemy");
            ("title", VStr "Python Bootcamp");
            ("description", VStr "From zero to hero");
            ("url", VStr "/course/python-bootcamp/");
            ("image_url", VStr "https://img.example/480x270.jpg");
            ("price", VStr "$-20");
            ("rating", VInt 4);
            ("reviews", VInt 120);
            ("provider_id", VInt 7) ]
          "price" (VInt 0))
     = Ok (Z_to_float (Z.abs (-20))).
Proof.
  apply (proj1 (proj2
           (udemy_price_round_trip no_repr
              (udemy_record 7 "Python Bootcamp" (VInt (-20)) (VInt 4))
              _ eq_refl)) (-20)).
  reflexivity.
Defined.

(* ===================================================================== *)
(** * Further properties: optional upstream fields *)
(* ===================================================================== *)

(** X5.  Optional fields of a Coursera record that has the four required
    ones.  Without [primaryLanguages] the language is ["English"]; with a
    non-empty list it is the first item; an empty list raises [IndexError]
    and a [null] raises [TypeError], which loses the whole payload.  The
    other optional fields never fail: a missing [workload] or [startDate]
    gives ["Flexible"] or ["Self-paced"], a missing [partnerLogo] gives
    [None], and [certificate] is the truth value of [certificates]; a field
    that is present, be it [null], is copied instead of defaulted. *)
Theorem coursera_optional_fields (repr_other : value -> string) (d : dict) :
  Forall (fun field => lookup field d <> None) coursera_required ->
  (lookup "primaryLanguages" d = None ->
   exists c,
     CourseraAPI._process_coursera_course repr_other (VDict d) = Ok c
     /\ lookup "language" c = Some (VStr "English"))
  /\ (forall first rest,
        lookup "primaryLanguages" d = Some (VList (first :: rest)) ->
        exists c,
          CourseraAPI._process_coursera_course repr_other (VDict d) = Ok c
          /\ lookup "language" c = Some first)
  /\ (lookup "primaryLanguages" d = Some (VList []) ->
      CourseraAPI._process_coursera_course repr_other (VDict d)
      = Raise (Exn IndexError "list index out of range"))
  /\ (lookup "primaryLanguages" d = Some VNone ->
      CourseraAPI._process_coursera_course repr_other (VDict d)
      = Raise (Exn TypeError "'NoneType' object is not subscriptable"))
  /\ (forall c,
        CourseraAPI._process_coursera_course repr_other (VDict d) = Ok c ->
        lookup "duration" c
        = Some (dict_get_default d "workload" (VStr "Flexible"))
        /\ lookup "start_date" c
           = Some (dict_get_default d "startDate" (VStr "Self-paced"))
        /\ lookup "image_url" c = Some (dict_get d "partnerLogo")
        /\ lookup "certificate" c
           = Some (VBool (py_bool (dict_get d "certificates")))).
Proof.
  intros Hreq. unfold coursera_required in Hreq.
  repeat match type of Hreq with
         | Forall _ (_ :: _) =>
             let H := fresh "Hf" in
             apply Forall_cons_iff in Hreq as [H Hreq]
         end.
  destruct (lookup "name" d) as [name|] eqn:En; [| congruence].
  destruct (lookup "description" d) as [description|] eqn:Ed; [| congruence].
  destruct (lookup "slug" d) as [slug|] eqn:Es; [| congruence].
  destruct (lookup "id" d) as [id|] eqn:Ei; [| congruence].
  unfold CourseraAPI._process_coursera_course, getitem, get_method, dict_get,
    dict_get_default.
  rewrite En, Ed, Es, Ei. cbn [bind].
  repeat split.
  - intros ->. cbn. eexists. split; reflexivity.
  - intros first rest ->. cbn. eexists. split; reflexivity.
  - intros ->. reflexivity.
  - intros ->. reflexivity.
  - destruct (lookup "primaryLanguages" d) as [v|]; cbn [bind] in *.
    + destruct (getitem0 v); cbn [bind] in *; [| discriminate].
      injection H as <-. reflexivity.
    + cbn in H. injection H as <-. reflexivity.
  - destruct (lookup "primaryLanguages" d) as [v|]; cbn [bind] in *.
    + destruct (getitem0 v); cbn [bind] in *; [| discriminate].
      injection H as <-. reflexivity.
    + cbn in H. injection H as <-. reflexivity.
  - destruct (lookup "primaryLanguages" d) as [v|]; cbn [bind] in *.
    + destruct (getitem0 v); cbn [bind] in *; [| discriminate].
      injection H as <-. reflexivity.
    + cbn in H. injection H as <-. reflexivity.
  - destruct (lookup "primaryLanguages" d) as [v|]; cbn [bind] in *.
    + destruct (getitem0 v); cbn [bind] in *; [| discriminate].
      injection H as <-. reflexivity.
    + cbn in H. injection H as <-. reflexivity.
Qed.

(** X5 on a record whose list of languages is empty. *)
Lemma coursera_optional_fields_witness :
  CourseraAPI._process_coursera_course no_repr
    (VDict [ ("id", VStr "c-1"); ("name", VStr "Machine Learning");
             ("description", VStr "An introduction");
             ("slug", VStr "machine-learning");
             ("primaryLanguages", VList []) ])
  = Raise (Exn IndexError "list index out of range").
Proof.
  apply (proj1 (proj2 (proj2
           (coursera_optional_fields no_repr
              [ ("id", VStr "c-1"); ("name", VStr "Machine Learning");
                ("description", VStr "An introduction");
                ("slug", VStr "machine-learning");
                ("primaryLanguages", VList []) ]
              ltac:(repeat constructor; discriminate))))).
  reflexivity.
Defined.

(** X7.  An edX record that has the five required fields always maps.
    Its price is the upstream price when the record has one, [null]
    included, and ["Free to audit, Certificate available"] otherwise; in
    both of the latter cases the derived numeric price is [0.0], so that
    an edX course without a price is filtered and ranked as a free one.  A
    missing [start] or [pacing_type] gives ["Self-paced"]. *)
Theorem edx_optional_fields (d : dict) :
  Forall (fun field => lookup field d <> None) edx_required ->
  exists c,
    EdXAPI._process_edx_course (VDict d) = Ok c
    /\ lookup "price" c
       = Some (dict_get_default d "price"
                 (VStr "Free to audit, Certificate available"))
    /\ lookup "start_date" c
       = Some (dict_get_default d "start" (VStr "Self-paced"))
    /\ lookup "pacing" c
       = Some (dict_get_default d "pacing_type" (VStr "Self-paced"))
    /\ (lookup "price" d = None \/ lookup "price" d = Some VNone ->
        CourseAggregator._get_numeric_price
          (dict_get_default c "price" (VInt 0)) = Ok float_zero)
    /\ (forall f,
          lookup "price" d = Some (VFloat f) ->
          CourseAggregator._get_numeric_price
            (dict_get_default c "price" (VInt 0)) = Ok f).
Proof.
  intros Hreq. unfold edx_required in Hreq.
  repeat match type of Hreq with
         | Forall _ (_ :: _) =>
             let H := fresh "Hf" in
             apply Forall_cons_iff in Hreq as [H Hreq]
         end.
  destruct (lookup "title" d) as [title|] eqn:Et; [| congruence].
  destruct (lookup "short_description" d) as [sd|] eqn:Ed; [| congruence].
  destruct (lookup "marketing_url" d) as [mu|] eqn:Em; [| congruence].
  destruct (lookup "image_url" d) as [iu|] eqn:Eu; [| congruence].
  destruct (lookup "id" d) as [id|] eqn:Ei; [| congruence].
  unfold EdXAPI._process_edx_course, getitem, get_method.
  rewrite Et, Ed, Em, Eu, Ei. cbn [bind].
  eexists. split; [reflexivity |]. repeat split.
  - unfold dict_get_default at 1. cbn [lookup String.eqb Ascii.eqb Bool.eqb].
    unfold dict_get_default. intros [-> | ->]; reflexivity.
  - intros f. unfold dict_get_default at 1.
    cbn [lookup String.eqb Ascii.eqb Bool.eqb].
    unfold dict_get_default. intros ->. reflexivity.
Qed.

(** X7 on a record without a price. *)
Lemma edx_optional_fields_witness :
  exists c,
    EdXAPI._process_edx_course
      (VDict [ ("id", VStr "e-1"); ("title", VStr "Linear Algebra");
               ("short_description", VStr "Vectors and matrices");
               ("marketing_url", VStr "https://www.edx.org/course/la");
               ("image_url", VStr "https://img.example/la.jpg") ])
    = Ok c
    /\ lookup "price" c = Some (VStr "Free to audit, Certificate available").
Proof.
  destruct
    (edx_optional_fields
       [ ("id", VStr "e-1"); ("title", VStr "Linear Algebra");
         ("short_description", VStr "Vectors and matrices");
         ("marketing_url", VStr "https://www.edx.org/course/la");
         ("image_url", VStr "https://img.example/la.jpg") ]
       ltac:(repeat constructor; discriminate)) as [c [Hc [Hp _]]].
  exists c. split; [exact Hc | exact Hp].
Defined.

(* ===================================================================== *)
(** * Lemmas: sorting what is sorted, sorting and filtering *)
(* ===================================================================== *)

Lemma stable_sort_sorted {K A : Type} (lt : K -> K -> bool)
    (l : list (K * A)) :
  ascending lt l -> stable_sort lt l = l.
Proof.
  induction 1 as [|x r Hr IH Hx]; simpl; [reflexivity |].
  rewrite IH. destruct r as [|y r']; [reflexivity |].
  simpl. rewrite (Forall_inv Hx). reflexivity.
Qed.

Lemma sort_reverse_sorted {K A : Type} (lt : K -> K -> bool)
    (l : list (K * A)) :
  descending lt l -> sort_reverse lt l = l.
Proof.
  intros H. unfold sort_reverse.
  rewrite stable_sort_sorted; [apply rev_involutive |].
  apply (StronglySorted_rev (fun x y => lt (fst x) (fst y) = false)), H.
Qed.

Lemma num_ge_not_lt (a b : pynum) : num_ge a b = true -> num_lt a b = false.
Proof.
  unfold num_ge, num_le, num_lt. rewrite (num_compare_antisym a b).
  destruct (num_compare a b) as [[]|]; simpl; congruence.
Qed.

Lemma combine_descending {A : Type} (key : A -> result pynum)
    (l : list A) (ks : list pynum) :
  Forall2 (fun k x => key x = Ok k) ks l ->
  StronglySorted (key_ge key) l -> descending num_lt (combine ks l).
Proof.
  intros F. induction F as [|k x ks' l' Hk F IH]; intros S; simpl.
  - constructor.
  - inversion S as [|? ? Sr Hx]; subst. constructor; [apply IH, Sr |].
    apply Forall_forall. intros [k' y] Hin. simpl.
    pose proof (in_combine_r _ _ _ _ Hin) as Hy.
    destruct (proj1 (Forall_forall _ _) Hx y Hy) as (a & b & Ha & Hb & Hge).
    assert (Hk' : key y = Ok k').
    { exact (proj1 (Forall_forall _ _) (Forall2_combine _ _ _ F) _ Hin). }
    rewrite Hk in Ha. rewrite Hk' in Hb. injection Ha as <-. injection Hb as <-.
    apply num_ge_not_lt, Hge.
Qed.

(** [sorted] returns a list that is already in descending order of its
    keys as it is. *)
Lemma sorted_reverse_sorted {A : Type} (key : A -> result pynum) (l : list A) :
  Forall (fun x => exists k, key x = Ok k) l ->
  StronglySorted (key_ge key) l -> sorted_reverse key l = Ok l.
Proof.
  intros Hk S. destruct (mapM_total key l Hk) as [ks Hks].
  pose proof (Forall2_flip _ _ _ (mapM_Ok_inv _ _ _ Hks)) as F.
  unfold sorted_reverse. rewrite Hks. cbn [bind].
  rewrite sort_reverse_sorted by exact (combine_descending key l ks F S).
  rewrite (map_snd_combine _ _ _ F). reflexivity.
Qed.

(** Whatever the keys, [sorted] returns the items it was given. *)
Lemma sorted_reverse_perm {A : Type} (key : A -> result pynum)
    (l out : list A) :
  sorted_reverse key l = Ok out -> Permutation out l.
Proof.
  unfold sorted_reverse. intros H.
  destruct (mapM key l) as [ks|e] eqn:E; cbn [bind] in H; [| discriminate].
  injection H as <-.
  pose proof (Forall2_flip _ _ _ (mapM_Ok_inv _ _ _ E)) as F.
  eapply perm_trans; [apply Permutation_map, sort_reverse_perm |].
  rewrite (map_snd_combine _ _ _ F). apply Permutation_refl.
Qed.

Section SortFilter.
Context {K A : Type}.
Variable lt : K -> K -> bool.
Variable P : K -> Prop.
Hypothesis lt_negtrans :
  forall a b c, P a -> P b -> P c ->
    lt a b = false -> lt b c = false -> lt a c = false.
Variable q : K * A -> bool.

Lemma insert_head (x : K * A) (l : list (K * A)) :
  Forall (fun y => lt (fst y) (fst x) = false) l -> insert lt x l = x :: l.
Proof.
  intros H. destruct l as [|y r]; [reflexivity |].
  simpl. rewrite (Forall_inv H). reflexivity.
Qed.

Lemma filter_insert (x : K * A) (l : list (K * A)) :
  P (fst x) -> Forall (fun y => P (fst y)) l -> ascending lt l ->
  filter q (insert lt x l)
  = if q x then insert lt x (filter q l) else filter q l.
Proof.
  intros Px Pl S. induction S as [|y r Sr IH Hy]; simpl.
  - destruct (q x); reflexivity.
  - apply Forall_cons_iff in Pl as [Py Pr].
    destruct (lt (fst y) (fst x)) eqn:E.
    + simpl. rewrite (IH Pr).
      destruct (q y), (q x); simpl; rewrite ?E; reflexivity.
    + simpl. destruct (q x) eqn:Qx; [| reflexivity].
      symmetry. apply (insert_head x (filter q (y :: r))).
      apply Forall_forall. intros z Hz. apply filter_In in Hz as [Hz _].
      destruct Hz as [<- | Hz]; [exact E |].
      apply lt_negtrans with (fst y); auto.
      * exact (proj1 (Forall_forall _ _) Pr z Hz).
      * exact (proj1 (Forall_forall _ _) Hy z Hz).
Qed.

Hypothesis lt_asym : forall a b, lt a b = true -> lt b a = false.

Lemma filter_stable_sort (l : list (K * A)) :
  Forall (fun y => P (fst y)) l ->
  filter q (stable_sort lt l) = stable_sort lt (filter q l).
Proof.
  induction l as [|x r IH]; intros Pl; [reflexivity |].
  apply Forall_cons_iff in Pl as [Px Pr].
  simpl. rewrite filter_insert; auto.
  - rewrite (IH Pr). destruct (q x); reflexivity.
  - apply Forall_forall. intros z Hz.
    apply (Permutation_in _ (stable_sort_perm lt r)) in Hz.
    exact (proj1 (Forall_forall _ _) Pr z Hz).
  - apply (stable_sort_ascending lt P lt_asym lt_negtrans), Pr.
Qed.

Lemma filter_sort_reverse (l : list (K * A)) :
  Forall (fun y => P (fst y)) l ->
  filter q (sort_reverse lt l) = sort_reverse lt (filter q l).
Proof.
  intros Pl. unfold sort_reverse.
  rewrite filter_rev, filter_stable_sort, filter_rev; [reflexivity |].
  apply Forall_forall. intros z Hz. apply in_rev in Hz.
  exact (proj1 (Forall_forall _ _) Pl z Hz).
Qed.

End SortFilter.

Lemma mapM_filter {A : Type} (key : A -> result pynum) (p : A -> bool)
    (l : list A) (ks : list pynum) :
  mapM key l = Ok ks ->
  exists ks',
    mapM key (filter p l) = Ok ks'
    /\ combine ks' (filter p l)
       = filter (fun pair => p (snd pair)) (combine ks l).
Proof.
  revert ks. induction l as [|x r IH]; simpl; intros ks H.
  - injection H as <-. exists []. split; reflexivity.
  - destruct (key x) as [k|e] eqn:Kx; cbn [bind] in H; [| discriminate].
    destruct (mapM key r) as [kr|e] eqn:Kr; cbn [bind] in H; [| discriminate].
    injection H as <-. destruct (IH kr eq_refl) as [ks' [H1 H2]].
    simpl. destruct (p x).
    + exists (k :: ks'). simpl. rewrite Kx, H1, H2. split; reflexivity.
    + exists ks'. split; assumption.
Qed.

(** Selecting from a list and sorting the selection gives what sorting the
    list and selecting from the outcome gives. *)
Lemma sorted_reverse_filter {A : Type} (key : A -> result pynum)
    (p : A -> bool) (l out : list A) :
  Forall (keyed key) l ->
  sorted_reverse key l = Ok out ->
  sorted_reverse key (filter p l) = Ok (filter p out).
Proof.
  intros Hl H. unfold sorted_reverse in *.
  destruct (mapM key l) as [ks|e] eqn:E; cbn [bind] in H; [| discriminate].
  injection H as <-.
  destruct (mapM_filter key p l ks E) as [ks' [H1 H2]].
  rewrite H1. cbn [bind]. rewrite H2. f_equal.
  pose proof (Forall2_flip _ _ _ (mapM_Ok_inv _ _ _ E)) as F.
  assert (Hord : Forall (fun pair : pynum * A => ordered (fst pair))
                   (combine ks l)).
  { apply Forall_forall. intros [k x] Hin. simpl.
    pose proof (proj1 (Forall_forall _ _) (Forall2_combine _ _ _ F) _ Hin)
      as Hk. simpl in Hk.
    apply in_combine_r in Hin.
    destruct (proj1 (Forall_forall _ _) Hl x Hin) as [k' [Hk' Ok']].
    congruence. }
  rewrite <- (filter_sort_reverse num_lt ordered num_lt_negtrans
                (fun pair => p (snd pair)) num_lt_asym _ Hord).
  symmetry. apply filter_map_agree.
  apply Forall_forall. intros pair _. reflexivity.
Qed.

(* ===================================================================== *)
(** * Further properties: the filter and sort stage *)
(* ===================================================================== *)

Lemma satisfies_nil_filter (courses : list dict) :
  filter (satisfies []) courses = courses.
Proof. induction courses as [|c cs IH]; simpl; congruence. Qed.

Lemma apply_filters_retained (courses : list dict) (filters : option dict)
    (price_range : option (pynum * pynum)) (out : list dict) :
  CourseAggregator._apply_filters courses filters price_range = Ok out ->
  out = filter (retained filters price_range) courses.
Proof.
  unfold retained. destruct price_range as [[low high]|]; intros H.
  - rewrite apply_filters_range in H. apply filterM_Ok_inv in H as [_ ->].
    fold (items_of filters). apply filter_filter_and.
  - destruct filters as [items|].
    + rewrite apply_filters_no_range in H. injection H as <-.
      apply filter_ext. intros c. simpl. rewrite andb_true_r. reflexivity.
    + injection H as <-. simpl. symmetry. apply satisfies_nil_filter.
Qed.

(** The filter returns on any list whose courses that pass the equality
    filters all have a price the range check can read. *)
Lemma apply_filters_returns (courses : list dict) (filters : option dict)
    (price_range : option (pynum * pynum)) :
  (forall low high c,
      price_range = Some (low, high) -> In c courses ->
      satisfies (items_of filters) c = true ->
      exists b, CourseAggregator.in_price_range low high c = Ok b) ->
  CourseAggregator._apply_filters courses filters price_range
  = Ok (filter (retained filters price_range) courses).
Proof.
  intros H.
  destruct (CourseAggregator._apply_filters courses filters price_range)
    as [out|e] eqn:E.
  - f_equal. apply apply_filters_retained, E.
  - exfalso. destruct price_range as [[low high]|].
    + rewrite apply_filters_range in E. rewrite filterM_total in E;
        [discriminate |].
      apply Forall_forall. intros c Hc. apply filter_In in Hc as [Hc Hs].
      fold (items_of filters) in Hs. eapply H; eauto.
    + destruct filters as [items|];
        [rewrite apply_filters_no_range in E |]; discriminate.
Qed.

Lemma apply_filters_reads_prices (courses : list dict)
    (filters : option dict) (low high : pynum) (out : list dict) (c : dict) :
  CourseAggregator._apply_filters courses filters (Some (low, high)) = Ok out ->
  In c courses -> satisfies (items_of filters) c = true ->
  exists b, CourseAggregator.in_price_range low high c = Ok b.
Proof.
  intros H Hc Hs. rewrite apply_filters_range in H.
  apply filterM_Ok_inv in H as [Hall _].
  apply (proj1 (Forall_forall _ _) Hall c).
  apply filter_In. split; assumption.
Qed.

Lemma sort_courses_perm (courses : list dict) (sort_by : option string)
    (out : list dict) :
  CourseAggregator._sort_courses courses sort_by = Ok out ->
  Permutation out courses.
Proof.
  unfold CourseAggregator._sort_courses.
  destruct sort_by as [key|]; [destruct (String.eqb key "") |]; intros H;
    try (injection H as <-; apply Permutation_refl).
  eapply sorted_reverse_perm, H.
Qed.

Lemma stage_In (sort_by : option string) (filters : option dict)
    (price_range : option (pynum * pynum)) (found ranked : list dict)
    (c : dict) :
  stage sort_by filters price_range found = Ok ranked ->
  In c ranked -> In c found.
Proof.
  unfold stage. intros H Hc.
  destruct (CourseAggregator._apply_filters found filters price_range)
    as [kept|e] eqn:E; cbn [bind] in H; [| discriminate].
  apply apply_filters_retained in E. subst kept.
  apply sort_courses_perm in H. apply (Permutation_in _ H) in Hc.
  apply filter_In in Hc as [Hc _]. exact Hc.
Qed.

(** X8.  The filter and sort stage never invents, repeats or alters a
    course: what it returns is a rearrangement of the courses it retains
    from its input, so every course returned was in the input and there
    are at most as many. *)
Theorem stage_returns_a_selection (sort_by : option string)
    (filters : option dict) (price_range : option (pynum * pynum))
    (found ranked : list dict) :
  stage sort_by filters price_range found = Ok ranked ->
  Permutation ranked (filter (retained filters price_range) found)
  /\ (forall c, In c ranked -> In c found)
  /\ (List.length ranked <= List.length found)%nat.
Proof.
  unfold stage. intros H.
  destruct (CourseAggregator._apply_filters found filters price_range)
    as [kept|e] eqn:E; cbn [bind] in H; [| discriminate].
  apply apply_filters_retained in E. subst kept.
  apply sort_courses_perm in H. split; [exact H | split].
  - intros c Hc. apply (Permutation_in _ H) in Hc.
    apply filter_In in Hc as [Hc _]. exact Hc.
  - rewrite (Permutation_length H). apply filter_length_le.
Qed.

(** X8 on the sample: English courses up to 100, by rating. *)
Lemma stage_returns_a_selection_witness :
  Permutation
    [ sample_course "Data Science" "English" (VInt 50) 5;
      sample_course "Intro to Python" "English" (VStr "$30") 3 ]
    (filter
       (retained (Some [("language", VStr "English")])
          (Some (NInt 0, NInt 100)))
       sample_courses).
Proof.
  apply (stage_returns_a_selection (Some "rating")
           (Some [("language", VStr "English")]) (Some (NInt 0, NInt 100))
           sample_courses).
  vm_compute. reflexivity.
Defined.

(** X9.  Buckets do not mix and do not depend on each other.  In a
    response, every course of a provider's bucket was returned by that
    provider's own search; and two aggregators that share the adapter of a
    provider give, whenever both return, the same bucket for it, whatever
    their other adapters do. *)
Theorem buckets_are_independent (self : CourseAggregator.t)
    (skills : list string) (limit : Z) (sort_by : option string)
    (filters : option dict) (price_range : option (pynum * pynum))
    (found : list (string * bucket)) :
  CourseAggregator.search_all_providers self skills limit sort_by filters
    price_range = Ok found ->
  (forall name p b c,
      In (name, p) (providers self) -> bucket_at name found = Some b ->
      In c (courses b) ->
      exists returned,
        CourseAggregator._safe_provider_search p skills limit = Ok returned
        /\ In c returned)
  /\ (forall other found' name p,
        CourseAggregator.search_all_providers other skills limit sort_by
          filters price_range = Ok found' ->
        In (name, p) (providers self) -> In (name, p) (providers other) ->
        bucket_at name found = bucket_at name found').
Proof.
  intros Hf.
  apply search_all_providers_Ok_inv in Hf
    as (b1 & b2 & b3 & -> & S1 & S2 & S3).
  assert (Hmix : forall p b c,
            settles sort_by filters price_range
              (CourseAggregator._safe_provider_search p skills limit) b ->
            In c (courses b) ->
            exists returned,
              CourseAggregator._safe_provider_search p skills limit
              = Ok returned /\ In c returned).
  { intros p b c S Hc. unfold settles in S.
    destruct (CourseAggregator._safe_provider_search p skills limit)
      as [returned|e].
    - destruct S as [ranked [Hs ->]]. exists returned. split; [reflexivity |].
      exact (stage_In _ _ _ _ _ c Hs Hc).
    - subst b. destruct Hc. }
  assert (Hdet : forall p b b',
            settles sort_by filters price_range
              (CourseAggregator._safe_provider_search p skills limit) b ->
            settles sort_by filters price_range
              (CourseAggregator._safe_provider_search p skills limit) b' ->
            b = b').
  { intros p b b' S S'. unfold settles in S, S'.
    destruct (CourseAggregator._safe_provider_search p skills limit)
      as [returned|e]; [| congruence].
    destruct S as [r [Hr ->]]. destruct S' as [r' [Hr' ->]]. congruence. }
  split.
  - intros name p b c Hin Hb Hc. unfold providers in Hin. simpl in Hin.
    destruct Hin as [Hin | [Hin | [Hin | []]]]; injection Hin as <- <-;
      simpl in Hb; injection Hb as <-; eapply Hmix; eassumption.
  - intros other found' name p Hf' Hin Hin'.
    apply search_all_providers_Ok_inv in Hf'
      as (c1 & c2 & c3 & -> & T1 & T2 & T3).
    unfold providers in Hin, Hin'. simpl in Hin, Hin'.
    destruct Hin as [Hin | [Hin | [Hin | []]]]; injection Hin as <- <-;
      destruct Hin' as [Hin' | [Hin' | [Hin' | []]]];
      try discriminate Hin'; injection Hin' as Hp; rewrite <- Hp in *;
      simpl; f_equal; eapply Hdet; eassumption.
Qed.

(** X9 on the sample run, with and without an answer from Udemy. *)
Lemma buckets_are_independent_witness :
  bucket_at "coursera"
    (raw_buckets (CourseAggregator.make no_repr unrated_sessions sample_keys)
       ["python"] 5)
  = bucket_at "coursera"
      (raw_buckets
         (without_udemy
            (CourseAggregator.make no_repr unrated_sessions sample_keys))
         ["python"] 5).
Proof.
  exact (proj2
           (buckets_are_independent
              (CourseAggregator.make no_repr unrated_sessions sample_keys)
              ["python"] 5 None None None _ eq_refl)
           (without_udemy
              (CourseAggregator.make no_repr unrated_sessions sample_keys))
           _ "coursera"
           (CourseAggregator.coursera
              (CourseAggregator.make no_repr unrated_sessions sample_keys))
           eq_refl (or_introl eq_refl) (or_introl eq_refl)).
Defined.

Lemma constant_keys_sorted {A : Type} (key : A -> result pynum) (k : pynum)
    (l : list A) :
  num_ge k k = true -> Forall (fun x => key x = Ok k) l ->
  StronglySorted (key_ge key) l.
Proof.
  intros Hk. induction 1 as [|x r Hx Hr IH]; constructor; [exact IH |].
  eapply Forall_impl; [| exact Hr]. intros y Hy. exists k, k. auto.
Qed.

(** X10.  A [sort_by] other than ['price'], ['rating'] and ['reviews'],
    such as a misspelt one, is not rejected: every course gets the key [0]
    and the list comes back in the order it had, whatever the courses
    hold. *)
Theorem sort_courses_unknown_key (courses : list dict) (sort_by : string) :
  sort_by <> "price" -> sort_by <> "rating" -> sort_by <> "reviews" ->
  CourseAggregator._sort_courses courses (Some sort_by) = Ok courses.
Proof.
  intros Hp Hr Hv. unfold CourseAggregator._sort_courses.
  destruct (String.eqb sort_by ""); [reflexivity |].
  assert (Hkey : forall c,
            CourseAggregator.get_sort_key sort_by c = Ok (NInt 0)).
  { intros c. unfold CourseAggregator.get_sort_key.
    apply String.eqb_neq in Hp, Hr, Hv. rewrite Hp, Hr, Hv. reflexivity. }
  apply sorted_reverse_sorted.
  - apply Forall_forall. intros c _. eexists. apply Hkey.
  - apply (constant_keys_sorted _ (NInt 0)); [reflexivity |].
    apply Forall_forall. intros c _. apply Hkey.
Qed.

(** X10 on the sample, sorted by ["ratings"]. *)
Lemma sort_courses_unknown_key_witness :
  CourseAggregator._sort_courses sample_courses (Some "ratings")
  = Ok sample_courses.
Proof.
  apply sort_courses_unknown_key; discriminate.
Defined.

(** X11.  Ranking is idempotent: a list [_sort_courses] has returned is
    returned unchanged when it is ranked again by the same key. *)
Theorem sort_courses_idempotent (courses out : list dict)
    (sort_by : option string) :
  sortable sort_by courses ->
  CourseAggregator._sort_courses courses sort_by = Ok out ->
  CourseAggregator._sort_courses out sort_by = Ok out.
Proof.
  unfold sortable, CourseAggregator._sort_courses.
  destruct sort_by as [key|]; [| reflexivity].
  destruct (String.eqb key ""); [reflexivity |].
  intros Hk H.
  destruct (sorted_reverse_spec _ _ Hk) as (out' & Ho & Hperm & Hs & _).
  rewrite Ho in H. injection H as <-.
  apply sorted_reverse_sorted; [| exact Hs].
  apply Forall_forall. intros c Hc. apply (Permutation_in _ Hperm) in Hc.
  destruct (proj1 (Forall_forall _ _) Hk c Hc) as [k [Hkc _]].
  exists k. exact Hkc.
Qed.

(** X11 on the sample, ranked by rating. *)
Lemma sort_courses_idempotent_witness :
  CourseAggregator._sort_courses
    [ sample_course "Python avance" "French" (VStr "$20") 5;
      sample_course "Data Science" "English" (VInt 50) 5;
      sample_course "Intro to Python" "English" (VStr "$30") 3;
      sample_course "Deep Learning" "English" (VStr "$120") 1 ]
    (Some "rating")
  = Ok [ sample_course "Python avance" "French" (VStr "$20") 5;
         sample_course "Data Science" "English" (VInt 50) 5;
         sample_course "Intro to Python" "English" (VStr "$30") 3;
         sample_course "Deep Learning" "English" (VStr "$120") 1 ].
Proof.
  apply (sort_courses_idempotent sample_courses).
  - repeat constructor;
      (eexists; split; [vm_compute; reflexivity | vm_compute; discriminate]).
  - vm_compute. reflexivity.
Defined.

Lemma filter_idempotent {A : Type} (p : A -> bool) (l : list A) :
  filter p (filter p l) = filter p l.
Proof.
  rewrite filter_filter_and. apply filter_ext. intros x.
  destruct (p x); reflexivity.
Qed.

(** X12.  Filtering is idempotent and keeps the order of the input: what
    [_apply_filters] returns is the input with the courses it rejects
    left out, and filtering that again with the same filters and range
    returns it unchanged. *)
Theorem apply_filters_idempotent (courses out : list dict)
    (filters : option dict) (price_range : option (pynum * pynum)) :
  CourseAggregator._apply_filters courses filters price_range = Ok out ->
  out = filter (retained filters price_range) courses
  /\ CourseAggregator._apply_filters out filters price_range = Ok out.
Proof.
  intros H. pose proof (apply_filters_retained _ _ _ _ H) as E.
  split; [exact E |].
  rewrite apply_filters_returns.
  - rewrite E. f_equal. apply filter_idempotent.
  - intros low high c -> Hc Hs. subst out. apply filter_In in Hc as [Hc _].
    eapply apply_filters_reads_prices; eassumption.
Qed.

(** X12 on the sample: English courses up to 100. *)
Lemma apply_filters_idempotent_witness :
  [ sample_course "Intro to Python" "English" (VStr "$30") 3;
    sample_course "Data Science" "English" (VInt 50) 5 ]
  = filter
      (retained (Some [("language", VStr "English")])
         (Some (NInt 0, NInt 100)))
      sample_courses.
Proof.
  apply (proj1
           (apply_filters_idempotent sample_courses _
              (Some [("language", VStr "English")])
              (Some (NInt 0, NInt 100)) ltac:(vm_compute; reflexivity))).
Defined.

(** X13.  Filtering and ranking commute.  When the filter returns on a
    list of courses that all have a sort key, ranking the list first and
    filtering the ranking gives exactly what the stage gives by filtering
    first: the ranking of the whole list with the rejected courses left
    out. *)
Theorem filter_and_sort_commute (courses kept : list dict)
    (sort_by : option string) (filters : option dict)
    (price_range : option (pynum * pynum)) :
  sortable sort_by courses ->
  CourseAggregator._apply_filters courses filters price_range = Ok kept ->
  exists ranked,
    CourseAggregator._sort_courses courses sort_by = Ok ranked
    /\ stage sort_by filters price_range courses
       = Ok (filter (retained filters price_range) ranked)
    /\ CourseAggregator._apply_filters ranked filters price_range
       = Ok (filter (retained filters price_range) ranked).
Proof.
  intros Hk H.
  assert (Hret : forall ranked,
            Permutation ranked courses ->
            CourseAggregator._apply_filters ranked filters price_range
            = Ok (filter (retained filters price_range) ranked)).
  { intros ranked Hperm. apply apply_filters_returns.
    intros low high c -> Hc Hs. apply (Permutation_in _ Hperm) in Hc.
    eapply apply_filters_reads_prices; eassumption. }
  pose proof (apply_filters_retained _ _ _ _ H) as E.
  unfold stage. rewrite H. cbn [bind]. subst kept.
  unfold CourseAggregator._sort_courses, sortable in *.
  destruct sort_by as [key|].
  - destruct (String.eqb key "").
    + exists courses. repeat split. apply Hret, Permutation_refl.
    + destruct (sorted_reverse_spec _ _ Hk) as (ranked & Ho & Hperm & _).
      exists ranked. split; [exact Ho | split].
      * apply sorted_reverse_filter; assumption.
      * apply Hret, Hperm.
  - exists courses. repeat split. apply Hret, Permutation_refl.
Qed.

(** X13 on the sample: English courses up to 100, by rating. *)
Lemma filter_and_sort_commute_witness :
  exists ranked,
    CourseAggregator._sort_courses sample_courses (Some "rating") = Ok ranked
    /\ stage (Some "rating") (Some [("language", VStr "English")])
         (Some (NInt 0, NInt 100)) sample_courses
       = Ok (filter
               (retained (Some [("language", VStr "English")])
                  (Some (NInt 0, NInt 100)))
               ranked)
    /\ CourseAggregator._apply_filters ranked
         (Some [("language", VStr "English")]) (Some (NInt 0, NInt 100))
       = Ok (filter
               (retained (Some [("language", VStr "English")])
                  (Some (NInt 0, NInt 100)))
               ranked).
Proof.
  apply (filter_and_sort_commute sample_courses
           [ sample_course "Intro to Python" "English" (VStr "$30") 3;
             sample_course "Data Science" "English" (VInt 50) 5 ]).
  - repeat constructor;
      (eexists; split; [vm_compute; reflexivity | vm_compute; discriminate]).
  - vm_compute. reflexivity.
Defined.

(* ===================================================================== *)
(** * Further properties: what the price can raise *)
(* ===================================================================== *)

Lemma filterM_Raise_inv {A : Type} (p : A -> result bool) (l : list A)
    (e : exn) :
  filterM p l = Raise e -> exists x, In x l /\ p x = Raise e.
Proof.
  induction l as [|x r IH]; simpl; intros H; [discriminate |].
  destruct (p x) as [b|e'] eqn:Px; cbn [bind] in H.
  - destruct (filterM p r) as [ys|e''] eqn:Fr; cbn [bind] in H;
      [discriminate |].
    injection H as ->. destruct (IH eq_refl) as [z [Hz Pz]].
    exists z. split; [right |]; assumption.
  - injection H as ->. exists x. split; [left; reflexivity | exact Px].
Qed.

(** [_get_numeric_price] raises on nothing but an int beyond the floats. *)
Lemma get_numeric_price_raises (price : value) (e : exn) :
  CourseAggregator._get_numeric_price price = Raise e ->
  e = Exn OverflowError "int too large to convert to float"
  /\ exists z, price = VInt z /\ is_infinite (Z_to_float z) = true.
Proof.
  destruct price as [|b|z|f|s|l|d]; try discriminate.
  - simpl. unfold float_of_int.
    destruct (is_infinite (Z_to_float z)) eqn:I; [| discriminate].
    intros H. injection H as <-. split; [reflexivity |]. exists z. auto.
  - rewrite get_numeric_price_str. discriminate.
Qed.

Lemma in_price_range_raises (low high : pynum) (course : dict) (e : exn) :
  CourseAggregator.in_price_range low high course = Raise e ->
  e = Exn OverflowError "int too large to convert to float"
  /\ exists z,
       lookup "price" course = Some (VInt z)
       /\ is_infinite (Z_to_float z) = true.
Proof.
  unfold CourseAggregator.in_price_range. intros H.
  destruct (CourseAggregator._get_numeric_price
              (dict_get_default course "price" (VInt 0))) as [p|e'] eqn:E.
  - cbn [bind] in H. destruct (num_ge (NFloat p) low); discriminate.
  - cbn [bind] in H. injection H as ->.
    apply get_numeric_price_raises in E as [-> [z [Hz Hi]]].
    split; [reflexivity |]. exists z. split; [| exact Hi].
    unfold dict_get_default in Hz.
    destruct (lookup "price" course) as [v|]; [congruence |].
    injection Hz as <-. discriminate Hi.
Qed.

Lemma apply_filters_raises (courses : list dict) (filters : option dict)
    (price_range : option (pynum * pynum)) (e : exn) :
  CourseAggregator._apply_filters courses filters price_range = Raise e ->
  e = Exn OverflowError "int too large to convert to float"
  /\ price_range <> None
  /\ exists c z,
       In c courses /\ satisfies (items_of filters) c = true
       /\ lookup "price" c = Some (VInt z)
       /\ is_infinite (Z_to_float z) = true.
Proof.
  intros H. destruct price_range as [[low high]|].
  - rewrite apply_filters_range in H.
    apply filterM_Raise_inv in H as [c [Hc Hr]].
    apply filter_In in Hc as [Hc Hs]. fold (items_of filters) in Hs.
    apply in_price_range_raises in Hr as [-> [z [Hz Hi]]].
    split; [reflexivity | split; [discriminate |]].
    exists c, z. auto.
  - destruct filters as [items|];
      [rewrite apply_filters_no_range in H |]; discriminate.
Qed.

Lemma sort_courses_raises (courses : list dict) (sort_by : option string)
    (e : exn) :
  sort_by <> Some "rating" -> sort_by <> Some "reviews" ->
  CourseAggregator._sort_courses courses sort_by = Raise e ->
  e = Exn OverflowError "int too large to convert to float"
  /\ exists c z,
       In c courses /\ lookup "price" c = Some (VInt z)
       /\ is_infinite (Z_to_float z) = true.
Proof.
  intros Hr Hv H. unfold CourseAggregator._sort_courses in H.
  destruct sort_by as [key|]; [| discriminate].
  destruct (String.eqb key ""); [discriminate |].
  apply sorted_reverse_raises in H as [c [Hc Hk]].
  unfold CourseAggregator.get_sort_key in Hk.
  destruct (String.eqb key "price") eqn:Kp.
  - destruct (CourseAggregator._get_numeric_price
                (dict_get_default c "price" (VInt 0))) as [p|e'] eqn:E;
      cbn [bind] in Hk; [discriminate |].
    injection Hk as ->.
    apply get_numeric_price_raises in E as [-> [z [Hz Hi]]].
    split; [reflexivity |]. exists c, z. repeat split; try assumption.
    unfold dict_get_default in Hz.
    destruct (lookup "price" c) as [v|]; [congruence |].
    injection Hz as <-. discriminate Hi.
  - destruct (String.eqb key "rating") eqn:Kr;
      [apply String.eqb_eq in Kr; congruence |].
    destruct (String.eqb key "reviews") eqn:Kv;
      [apply String.eqb_eq in Kv; congruence |].
    discriminate.
Qed.

(** X14.  The filter raises on one thing only: a price range met by a
    course that passes the equality filters and whose price is an int too
    large for a float, and then it raises [OverflowError].  Without a
    price range it always returns; and with any filters and any range it
    returns on the records of the Coursera and of the Udemy mapping, whose
    prices are strings. *)
Theorem apply_filters_raises_only_overflow (courses : list dict)
    (filters : option dict) (price_range : option (pynum * pynum)) :
  (forall e,
      CourseAggregator._apply_filters courses filters price_range = Raise e ->
      e = Exn OverflowError "int too large to convert to float"
      /\ price_range <> None
      /\ exists c z,
           In c courses /\ satisfies (items_of filters) c = true
           /\ lookup "price" c = Some (VInt z)
           /\ is_infinite (Z_to_float z) = true)
  /\ (forall repr_other payload,
        CourseraAPI._process_coursera_results repr_other payload = Ok courses
        \/ UdemyAPI._process_udemy_results repr_other payload = Ok courses ->
        exists kept,
          CourseAggregator._apply_filters courses filters price_range
          = Ok kept).
Proof.
  assert (Hraise := apply_filters_raises courses filters price_range).
  split; [exact Hraise |].
  intros repr_other payload Hmap.
  destruct (CourseAggregator._apply_filters courses filters price_range)
    as [kept|e] eqn:E; [exists kept; reflexivity | exfalso].
  destruct (Hraise e eq_refl) as (_ & _ & c & z & Hc & _ & Hz & _).
  destruct Hmap as [Hmap | Hmap].
  - unfold CourseraAPI._process_coursera_results in Hmap. bind_inv Hmap.
    apply mapM_Ok_inv in Hmap.
    destruct (Forall2_In_r _ _ _ _ Hmap Hc) as [x [_ Hx]].
    apply process_coursera_course_inv in Hx as (? & ? & ? & _ & _ & _ & _ & Hp).
    congruence.
  - unfold UdemyAPI._process_udemy_results in Hmap. bind_inv Hmap.
    apply mapM_Ok_inv in Hmap.
    destruct (Forall2_In_r _ _ _ _ Hmap Hc) as [x [_ Hx]].
    apply process_udemy_course_price in Hx as [price [_ Hp]].
    congruence.
Qed.

(** X14 on a Udemy record and on a course priced [2^1024], with the range
    [[0, 100]]. *)
Lemma apply_filters_raises_only_overflow_witness :
  (exists kept,
      CourseAggregator._apply_filters
        [ [ ("provider", VStr "Udemy");
            ("title", VStr "Python Bootcamp");
            ("description", VStr "From zero to hero");
            ("url", VStr "/course/python-bootcamp/");
            ("image_url", VStr "https://img.example/480x270.jpg");
            ("price", VStr "$20");
            ("rating", VInt 4);
            ("reviews", VInt 120);
            ("provider_id", VInt 7) ] ]
        None (Some (NInt 0, NInt 100))
      = Ok kept)
  /\ Exn OverflowError "int too large to convert to float"
     = Exn OverflowError "int too large to convert to float".
Proof.
  split.
  - apply (proj2 (apply_filters_raises_only_overflow _ None
                    (Some (NInt 0, NInt 100)))
             no_repr
             (VList [udemy_record 7 "Python Bootcamp" (VInt 20) (VInt 4)])).
    right. reflexivity.
  - apply (proj1 (proj1 (apply_filters_raises_only_overflow
                           [[("title", VStr "Costly"); ("price", VInt (2 ^ 1024))]]
                           None (Some (NInt 0, NInt 100)))
                    _ ltac:(vm_compute; reflexivity))).
Defined.

(** X15.  Ranking by price is guarded where ranking by rating or reviews
    is not: [_sort_courses] with ['price'] raises on nothing but an int
    price too large for a float, then [OverflowError]; a price that is
    missing, [null], a string of any content or a container never makes it
    raise. *)
Theorem sort_by_price_raises_only_overflow (courses : list dict) :
  (forall e,
      CourseAggregator._sort_courses courses (Some "price") = Raise e ->
      e = Exn OverflowError "int too large to convert to float"
      /\ exists c z,
           In c courses /\ lookup "price" c = Some (VInt z)
           /\ is_infinite (Z_to_float z) = true)
  /\ (Forall
        (fun c => forall z, lookup "price" c = Some (VInt z) ->
                            is_infinite (Z_to_float z) = false)
        courses ->
      exists out,
        CourseAggregator._sort_courses courses (Some "price") = Ok out
        /\ Permutation out courses).
Proof.
  assert (Hraise : forall e,
    CourseAggregator._sort_courses courses (Some "price") = Raise e ->
    e = Exn OverflowError "int too large to convert to float"
    /\ exists c z,
         In c courses /\ lookup "price" c = Some (VInt z)
         /\ is_infinite (Z_to_float z) = true).
  { intros e. apply sort_courses_raises; discriminate. }
  split; [exact Hraise |].
  intros Hall.
  destruct (CourseAggregator._sort_courses courses (Some "price"))
    as [out|e] eqn:E.
  - exists out. split; [reflexivity |]. eapply sort_courses_perm, E.
  - exfalso. destruct (Hraise e eq_refl) as (_ & c & z & Hc & Hz & Hi).
    rewrite (proj1 (Forall_forall _ _) Hall c Hc z Hz) in Hi. discriminate.
Qed.

(** X15 on the sample, whose prices are strings and small ints, and on a
    course priced [2^1024]. *)
Lemma sort_by_price_raises_only_overflow_witness :
  (exists out,
      CourseAggregator._sort_courses sample_courses (Some "price") = Ok out
      /\ Permutation out sample_courses)
  /\ Exn OverflowError "int too large to convert to float"
     = Exn OverflowError "int too large to convert to float".
Proof.
  split.
  - apply (proj2 (sort_by_price_raises_only_overflow sample_courses)).
    repeat constructor; intros z H; vm_compute in H;
      try discriminate H; injection H as <-; reflexivity.
  - apply (proj1 (proj1 (sort_by_price_raises_only_overflow
                           [[("title", VStr "Costly"); ("price", VInt (2 ^ 1024))]])
                    _ ltac:(vm_compute; reflexivity))).
Defined.

(** X16.  Unless the courses are ranked by rating or by reviews,
    [search_all_providers] raises on nothing but an int price too large
    for a float, then [OverflowError]: with no [sort_by], with ['price'] or
    with an unknown key, a provider's answer whose prices are strings,
    floats, ints within the floats, [null] or missing never makes the call
    fail. *)
Theorem search_all_providers_raises_only_overflow (self : CourseAggregator.t)
    (skills : list string) (limit : Z) (sort_by : option string)
    (filters : option dict) (price_range : option (pynum * pynum)) (e : exn) :
  sort_by <> Some "rating" -> sort_by <> Some "reviews" ->
  CourseAggregator.search_all_providers self skills limit sort_by filters
    price_range = Raise e ->
  e = Exn OverflowError "int too large to convert to float"
  /\ exists name p returned c z,
       In (name, p) (providers self)
       /\ CourseAggregator._safe_provider_search p skills limit = Ok returned
       /\ In c returned
       /\ lookup "price" c = Some (VInt z)
       /\ is_infinite (Z_to_float z) = true.
Proof.
  intros Hr Hv H.
  apply search_all_providers_Raise_inv in H
    as (name & p & returned & Hin & Hs & Hstage).
  assert (Hgoal :
    e = Exn OverflowError "int too large to convert to float"
    /\ exists c z,
         In c returned /\ lookup "price" c = Some (VInt z)
         /\ is_infinite (Z_to_float z) = true).
  { unfold stage in Hstage.
    destruct (CourseAggregator._apply_filters returned filters price_range)
      as [kept|e'] eqn:E; cbn [bind] in Hstage.
    - apply apply_filters_retained in E. subst kept.
      apply sort_courses_raises in Hstage as [-> (c & z & Hc & Hz & Hi)];
        try assumption.
      apply filter_In in Hc as [Hc _].
      split; [reflexivity |]. exists c, z. auto.
    - injection Hstage as ->.
      apply apply_filters_raises in E as (-> & _ & c & z & Hc & _ & Hz & Hi).
      split; [reflexivity |]. exists c, z. auto. }
  destruct Hgoal as [He (c & z & Hc & Hz & Hi)].
  split; [exact He |]. exists name, p, returned, c, z. auto.
Qed.

(** X16 on a run in which edX lists a course priced [2^1024] and a price
    range is given. *)
Lemma search_all_providers_raises_only_overflow_witness :
  Exn OverflowError "int too large to convert to float"
  = Exn OverflowError "int too large to convert to float"
  /\ exists name p returned c z,
       In (name, p)
         (providers
            (CourseAggregator.make no_repr overpriced_sessions sample_keys))
       /\ CourseAggregator._safe_provider_search p ["python"] 5 = Ok returned
       /\ In c returned
       /\ lookup "price" c = Some (VInt z)
       /\ is_infinite (Z_to_float z) = true.
Proof.
  apply (search_all_providers_raises_only_overflow
           (CourseAggregator.make no_repr overpriced_sessions sample_keys)
           ["python"] 5 None None (Some (NInt 0, NInt 100))).
  - discriminate.
  - discriminate.
  - vm_compute. reflexivity.
Defined.

(* ===================================================================== *)
(** * Further properties: filters on fields a provider does not have *)
(* ===================================================================== *)

Ltac field_absent Hk :=
  cbn [lookup];
  repeat
    match goal with
    | |- context [String.eqb ?k ?f] =>
        destruct (String.eqb_spec k f) as [->|_];
        [exfalso; apply Hk; simpl; auto 20 |]
    end;
  reflexivity.

(** The records of a mapping have the fields of its literal and no
    other. *)
Lemma process_coursera_course_fields (repr_other : value -> string)
    (course : value) (c : dict) (k : string) :
  CourseraAPI._process_coursera_course repr_other course = Ok c ->
  ~ In k coursera_fields -> lookup k c = None.
Proof.
  unfold CourseraAPI._process_coursera_course. intros H Hk. bind_inv H.
  injection H as <-. field_absent Hk.
Qed.

Lemma process_udemy_course_fields (repr_other : value -> string)
    (course : value) (c : dict) (k : string) :
  UdemyAPI._process_udemy_course repr_other course = Ok c ->
  ~ In k udemy_fields -> lookup k c = None.
Proof.
  unfold UdemyAPI._process_udemy_course. intros H Hk. bind_inv H.
  injection H as <-. field_absent Hk.
Qed.

Lemma process_edx_course_fields (course : value) (c : dict) (k : string) :
  EdXAPI._process_edx_course course = Ok c ->
  ~ In k edx_fields -> lookup k c = None.
Proof.
  unfold EdXAPI._process_edx_course. intros H Hk. bind_inv H.
  injection H as <-. field_absent Hk.
Qed.

(** What a successful search returns is what the mapping of the adapter
    made of some payload. *)
Lemma safe_provider_search_Ok (p : provider) (skills : list string)
    (limit : Z) (found : list dict) :
  CourseAggregator._safe_provider_search p skills limit = Ok found ->
  search_courses p skills limit = Finished (Ok found).
Proof.
  unfold CourseAggregator._safe_provider_search, wait_for, try_except.
  destruct (search_courses p skills limit) as [[x|e]|].
  - intros H. injection H as ->. reflexivity.
  - destruct (isinstance_exn e TimeoutError); discriminate.
  - cbn. discriminate.
Qed.

Ltac search_inv H :=
  apply safe_provider_search_Ok in H; cbn [search_courses] in H;
  match type of H with
  | await ?t _ = _ => destruct t as [sent|]; cbn [await] in H
  end; [| discriminate H];
  injection H as H; bind_inv H; eexists; exact H.

Lemma coursera_search_inv (repr_other : value -> string)
    (self : CourseProviderBase.t) (skills : list string) (limit : Z)
    (found : list dict) :
  CourseAggregator._safe_provider_search (CourseraAPI.make repr_other self)
    skills limit = Ok found ->
  exists payload,
    CourseraAPI._process_coursera_results repr_other payload = Ok found.
Proof.
  unfold CourseraAPI.make, CourseraAPI.search_courses. intros H.
  search_inv H.
Qed.

Lemma udemy_search_inv (repr_other : value -> string)
    (self : CourseProviderBase.t) (skills : list string) (limit : Z)
    (found : list dict) :
  CourseAggregator._safe_provider_search (UdemyAPI.make repr_other self)
    skills limit = Ok found ->
  exists payload,
    UdemyAPI._process_udemy_results repr_other payload = Ok found.
Proof.
  unfold UdemyAPI.make, UdemyAPI.search_courses. intros H. search_inv H.
Qed.

Lemma edx_search_inv (self : CourseProviderBase.t) (skills : list string)
    (limit : Z) (found : list dict) :
  CourseAggregator._safe_provider_search (EdXAPI.make self) skills limit
  = Ok found ->
  exists payload, EdXAPI._process_edx_results payload = Ok found.
Proof.
  unfold EdXAPI.make, EdXAPI.search_courses. intros H. search_inv H.
Qed.

(** The records of a payload, one by one. *)
Lemma process_coursera_results_each (repr_other : value -> string)
    (payload : value) (found : list dict) (c : dict) :
  CourseraAPI._process_coursera_results repr_other payload = Ok found ->
  In c found ->
  exists item, CourseraAPI._process_coursera_course repr_other item = Ok c.
Proof.
  unfold CourseraAPI._process_coursera_results. intros H Hc. bind_inv H.
  apply mapM_Ok_inv in H.
  destruct (Forall2_In_r _ _ _ _ H Hc) as [x [_ Hx]]. exists x. exact Hx.
Qed.

Lemma process_udemy_results_each (repr_other : value -> string)
    (payload : value) (found : list dict) (c : dict) :
  UdemyAPI._process_udemy_results repr_other payload = Ok found ->
  In c found ->
  exists item, UdemyAPI._process_udemy_course repr_other item = Ok c.
Proof.
  unfold UdemyAPI._process_udemy_results. intros H Hc. bind_inv H.
  apply mapM_Ok_inv in H.
  destruct (Forall2_In_r _ _ _ _ H Hc) as [x [_ Hx]]. exists x. exact Hx.
Qed.

Lemma process_edx_results_each (payload : value) (found : list dict)
    (c : dict) :
  EdXAPI._process_edx_results payload = Ok found ->
  In c found ->
  exists item, EdXAPI._process_edx_course item = Ok c.
Proof.
  unfold EdXAPI._process_edx_results. intros H Hc. bind_inv H.
  apply mapM_Ok_inv in H.
  destruct (Forall2_In_r _ _ _ _ H Hc) as [x [_ Hx]]. exists x. exact Hx.
Qed.

(** A filter on a field that no course of the list has, with a value
    other than [None], leaves nothing for the range check and the
    ranking. *)
Lemma stage_drops_all (sort_by : option string) (items : dict)
    (price_range : option (pynum * pynum)) (found : list dict) (k : string)
    (v : value) :
  In (k, v) items -> v <> VNone ->
  (forall c, In c found -> lookup k c = None) ->
  stage sort_by (Some items) price_range found = Ok [].
Proof.
  intros Hin Hv Hnone.
  assert (Hf : filter (satisfies items) found = []).
  { clear - Hin Hv Hnone. induction found as [|c r IH]; [reflexivity |].
    simpl. destruct (satisfies items c) eqn:S.
    - exfalso. pose proof (proj1 (satisfies_In items c) S k v Hin) as S'.
      clear S. rename S' into S.
      rewrite absent_field_does_not_match in S by (apply Hnone; left; reflexivity).
      destruct v; congruence.
    - apply IH. intros c' Hc'. apply Hnone. right. exact Hc'. }
  unfold stage.
  assert (Hk : CourseAggregator._apply_filters found (Some items) price_range
               = Ok []).
  { destruct price_range as [[low high]|].
    - rewrite apply_filters_range, Hf. reflexivity.
    - rewrite apply_filters_no_range, Hf. reflexivity. }
  rewrite Hk. cbn [bind].
  destruct sort_by as [key|]; [| reflexivity].
  unfold CourseAggregator._sort_courses.
  destruct (String.eqb key ""); reflexivity.
Qed.

(** Every record of the Coursera mapping has the same sort key, whatever
    the key asked for: the price is one fixed string and there is neither a
    rating nor a count of reviews. *)
Lemma coursera_constant_key (repr_other : value -> string) (key : string) :
  exists k,
    num_ge k k = true
    /\ forall item c,
         CourseraAPI._process_coursera_course repr_other item = Ok c ->
         CourseAggregator.get_sort_key key c = Ok k.
Proof.
  unfold CourseAggregator.get_sort_key.
  destruct (String.eqb key "price");
    [| destruct (String.eqb key "rating");
       [| destruct (String.eqb key "reviews")]].
  - exists (NFloat float_zero). split; [reflexivity |]. intros item c H.
    apply process_coursera_course_inv in H
      as (? & ? & ? & _ & _ & _ & _ & Hp).
    unfold dict_get_default. rewrite Hp, get_numeric_price_str. reflexivity.
  - exists (NFloat float_zero). split; [reflexivity |]. intros item c H.
    unfold dict_get_default.
    rewrite (process_coursera_course_fields _ _ _ "rating" H); [reflexivity |].
    simpl. intuition discriminate.
  - exists (NInt 0). split; [reflexivity |]. intros item c H.
    unfold dict_get_default.
    rewrite (process_coursera_course_fields _ _ _ "reviews" H); [reflexivity |].
    simpl. intuition discriminate.
  - exists (NInt 0). split; [reflexivity |]. reflexivity.
Qed.

(** On the courses of the Coursera mapping the stage always returns, and
    what it returns is what the filter retains, in the order of the
    input. *)
Lemma coursera_stage (repr_other : value -> string) (payload : value)
    (found : list dict) (sort_by : option string) (filters : option dict)
    (price_range : option (pynum * pynum)) :
  CourseraAPI._process_coursera_results repr_other payload = Ok found ->
  stage sort_by filters price_range found
  = Ok (filter (retained filters price_range) found).
Proof.
  intros Hmap. unfold stage.
  destruct (CourseAggregator._apply_filters found filters price_range)
    as [kept|e] eqn:E.
  - apply apply_filters_retained in E. subst kept. cbn [bind].
    unfold CourseAggregator._sort_courses.
    destruct sort_by as [key|]; [| reflexivity].
    destruct (String.eqb key ""); [reflexivity |].
    destruct (coursera_constant_key repr_other key) as [k [Hk Hkey]].
    assert (Hall : Forall (fun c => CourseAggregator.get_sort_key key c = Ok k)
                     (filter (retained filters price_range) found)).
    { apply Forall_forall. intros c Hc. apply filter_In in Hc as [Hc _].
      destruct (process_coursera_results_each _ _ _ _ Hmap Hc) as [item Hi].
      exact (Hkey item c Hi). }
    apply sorted_reverse_sorted.
    + eapply Forall_impl; [| exact Hall]. intros c Hc. exists k. exact Hc.
    + exact (constant_keys_sorted _ k _ Hk Hall).
  - exfalso. apply apply_filters_raises in E
      as (_ & _ & c & z & Hc & _ & Hz & _).
    destruct (process_coursera_results_each _ _ _ _ Hmap Hc) as [item Hi].
    apply process_coursera_course_inv in Hi
      as (? & ? & ? & _ & _ & _ & _ & Hp).
    congruence.
Qed.

(** The stage on what the Udemy and the edX adapter return, under a filter
    on a field their records do not have. *)
Lemma udemy_stage_drops_all (repr_other : value -> string)
    (self : CourseProviderBase.t) (skills : list string) (limit : Z)
    (returned : list dict) (sort_by : option string) (items : dict)
    (price_range : option (pynum * pynum)) (k : string) (v : value) :
  In (k, v) items -> v <> VNone -> ~ In k udemy_fields ->
  CourseAggregator._safe_provider_search (UdemyAPI.make repr_other self)
    skills limit = Ok returned ->
  stage sort_by (Some items) price_range returned = Ok [].
Proof.
  intros Hin Hv Hk Hs. apply udemy_search_inv in Hs as [payload Hmap].
  apply (stage_drops_all _ _ _ _ k v Hin Hv). intros c Hc.
  destruct (process_udemy_results_each _ _ _ _ Hmap Hc) as [item Hi].
  exact (process_udemy_course_fields _ _ _ k Hi Hk).
Qed.

Lemma edx_stage_drops_all (self : CourseProviderBase.t)
    (skills : list string) (limit : Z) (returned : list dict)
    (sort_by : option string) (items : dict)
    (price_range : option (pynum * pynum)) (k : string) (v : value) :
  In (k, v) items -> v <> VNone -> ~ In k edx_fields ->
  CourseAggregator._safe_provider_search (EdXAPI.make self) skills limit
  = Ok returned ->
  stage sort_by (Some items) price_range returned = Ok [].
Proof.
  intros Hin Hv Hk Hs. apply edx_search_inv in Hs as [payload Hmap].
  apply (stage_drops_all _ _ _ _ k v Hin Hv). intros c Hc.
  destruct (process_edx_results_each _ _ _ Hmap Hc) as [item Hi].
  exact (process_edx_course_fields _ _ k Hi Hk).
Qed.

(** A bucket settled by a stage that drops everything holds no course. *)
Lemma settles_no_courses (sort_by : option string) (filters : option dict)
    (price_range : option (pynum * pynum)) (outcome : result (list dict))
    (b : bucket) :
  (forall returned,
      outcome = Ok returned ->
      stage sort_by filters price_range returned = Ok []) ->
  settles sort_by filters price_range outcome b -> courses b = [].
Proof.
  unfold settles. intros H S. destruct outcome as [returned|e].
  - destruct S as [ranked [Hr ->]]. rewrite (H returned eq_refl) in Hr.
    injection Hr as <-. reflexivity.
  - subst b. reflexivity.
Qed.

(** With a filter on a field that neither the Udemy nor the edX records
    have, the aggregator over the three adapters always returns, and its
    Udemy and edX buckets hold no course. *)
Lemma search_with_coursera_filter (repr_other : value -> string)
    (sessions : string -> client_session) (api_keys : string -> string)
    (skills : list string) (limit : Z) (sort_by : option string)
    (items : dict) (price_range : option (pynum * pynum)) (k : string)
    (v : value) :
  In (k, v) items -> v <> VNone ->
  ~ In k udemy_fields -> ~ In k edx_fields ->
  exists b1 b2 b3,
    CourseAggregator.search_all_providers
      (CourseAggregator.make repr_other sessions api_keys) skills limit
      sort_by (Some items) price_range
    = Ok [("coursera", b1); ("udemy", b2); ("edx", b3)]
    /\ settles sort_by (Some items) price_range
         (CourseAggregator._safe_provider_search
            (CourseAggregator.coursera
               (CourseAggregator.make repr_other sessions api_keys))
            skills limit) b1
    /\ courses b2 = [] /\ courses b3 = []
    /\ (error b2 = None \/ exists e, error b2 = Some (exn_str e))
    /\ (error b3 = None \/ exists e, error b3 = Some (exn_str e)).
Proof.
  intros Hin Hv Hu He.
  destruct (search_all_providers_returns
              (CourseAggregator.make repr_other sessions api_keys) skills
              limit sort_by (Some items) price_range) as [found Hf].
  { intros name p returned Hp Hs. unfold providers in Hp. simpl in Hp.
    destruct Hp as [Hp | [Hp | [Hp | []]]]; injection Hp as <- <-.
    - apply coursera_search_inv in Hs as [payload Hmap].
      eexists. eapply coursera_stage, Hmap.
    - exists []. eapply udemy_stage_drops_all; eassumption.
    - exists []. eapply edx_stage_drops_all; eassumption. }
  rewrite Hf.
  apply search_all_providers_Ok_inv in Hf
    as (b1 & b2 & b3 & -> & S1 & S2 & S3).
  exists b1, b2, b3. split; [reflexivity |]. split; [exact S1 |].
  split; [| split; [| split]].
  - eapply settles_no_courses; [| exact S2]. intros returned Hr.
    exact (udemy_stage_drops_all repr_other _ skills limit returned sort_by
             items price_range k v Hin Hv Hu Hr).
  - eapply settles_no_courses; [| exact S3]. intros returned Hr.
    exact (edx_stage_drops_all _ skills limit returned sort_by items
             price_range k v Hin Hv He Hr).
  - unfold settles in S2.
    destruct (CourseAggregator._safe_provider_search _ _ _) as [r|e] in S2.
    + destruct S2 as [? [_ ->]]. left; reflexivity.
    + subst b2. right. exists e. reflexivity.
  - unfold settles in S3.
    destruct (CourseAggregator._safe_provider_search _ _ _) as [r|e] in S3.
    + destruct S3 as [? [_ ->]]. left; reflexivity.
    + subst b3. right. exists e. reflexivity.
Qed.

(** X17.  Ranking never changes the Coursera bucket.  The records of the
    Coursera mapping have one fixed price, no rating and no count of
    reviews, so every sort key is equal on them: whatever [sort_by] is, the
    stage returns on them, and the bucket of a response is what the filter
    retains of the courses the search returned, in the order the provider
    sent them. *)
Theorem coursera_bucket_keeps_upstream_order (repr_other : value -> string)
    (sessions : string -> client_session) (api_keys : string -> string)
    (skills : list string) (limit : Z) (sort_by : option string)
    (filters : option dict) (price_range : option (pynum * pynum))
    (returned : list dict) :
  CourseAggregator._safe_provider_search
    (CourseAggregator.coursera
       (CourseAggregator.make repr_other sessions api_keys)) skills limit
  = Ok returned ->
  stage sort_by filters price_range returned
  = Ok (filter (retained filters price_range) returned)
  /\ forall found b,
       CourseAggregator.search_all_providers
         (CourseAggregator.make repr_other sessions api_keys) skills limit
         sort_by filters price_range = Ok found ->
       bucket_at "coursera" found = Some b ->
       b = {| error := None;
              courses := filter (retained filters price_range) returned |}.
Proof.
  intros Hs. pose proof Hs as Hs'.
  apply coursera_search_inv in Hs' as [payload Hmap].
  pose proof (coursera_stage _ _ _ sort_by filters price_range Hmap) as Hst.
  split; [exact Hst |].
  intros found b Hf Hb.
  apply search_all_providers_Ok_inv in Hf
    as (b1 & b2 & b3 & -> & S1 & _ & _).
  simpl in Hb. injection Hb as <-.
  rewrite Hs in S1. destruct S1 as [ranked [Hr ->]].
  rewrite Hst in Hr. injection Hr as <-. reflexivity.
Qed.

(** X17 on a run ranked by rating in which Coursera answers with one
    course. *)
Lemma coursera_bucket_keeps_upstream_order_witness :
  exists returned,
    CourseAggregator._safe_provider_search
      (CourseAggregator.coursera
         (CourseAggregator.make no_repr empty_query_sessions sample_keys))
      [] 10
    = Ok returned
    /\ stage (Some "rating") None None returned
       = Ok (filter (retained None None) returned).
Proof.
  eexists. split; [vm_compute; reflexivity |].
  apply (coursera_bucket_keeps_upstream_order no_repr empty_query_sessions
           sample_keys [] 10 (Some "rating") None None).
  vm_compute. reflexivity.
Defined.

(** X18.  A filter on a field that only the Coursera records have, such
    as [language], [certificate] or [duration], with a value other than
    [None], empties the Udemy and the edX bucket: their records lack the
    field, and a missing field equals nothing but [None].  Their courses
    are dropped before the range check and the ranking see them, so with
    such a filter [search_all_providers] never raises, whatever the
    providers answer and whatever [sort_by] and the price range are. *)
Theorem filter_on_coursera_field_empties_others
    (repr_other : value -> string) (sessions : string -> client_session)
    (api_keys : string -> string) (skills : list string) (limit : Z)
    (sort_by : option string) (items : dict)
    (price_range : option (pynum * pynum)) (k : string) (v : value) :
  In (k, v) items -> v <> VNone ->
  ~ In k udemy_fields -> ~ In k edx_fields ->
  exists found,
    CourseAggregator.search_all_providers
      (CourseAggregator.make repr_other sessions api_keys) skills limit
      sort_by (Some items) price_range
    = Ok found
    /\ no_courses "udemy" found /\ no_courses "edx" found.
Proof.
  intros Hin Hv Hu He.
  destruct (search_with_coursera_filter repr_other sessions api_keys skills
              limit sort_by items price_range k v Hin Hv Hu He)
    as (b1 & b2 & b3 & Hf & _ & H2 & H3 & _).
  eexists. split; [exact Hf |].
  split; intros b Hb; simpl in Hb; injection Hb as <-; assumption.
Qed.

(** X18 on the run in which the Udemy course has no rating yet and the
    courses are ranked by rating, now filtered by language. *)
Lemma filter_on_coursera_field_empties_others_witness :
  exists found,
    CourseAggregator.search_all_providers
      (CourseAggregator.make no_repr unrated_sessions sample_keys)
      ["python"] 5 (Some "rating") (Some [("language", VStr "English")])
      None
    = Ok found
    /\ no_courses "udemy" found /\ no_courses "edx" found.
Proof.
  apply (filter_on_coursera_field_empties_others no_repr unrated_sessions
           sample_keys ["python"] 5 (Some "rating")
           [("language", VStr "English")] None "language" (VStr "English")).
  - left. reflexivity.
  - discriminate.
  - simpl. intuition discriminate.
  - simpl. intuition discriminate.
Defined.

(* ===================================================================== *)
(** * Further properties: what [run_courses.py] prints *)
(* ===================================================================== *)

Lemma and_then_quiet {A B : Type} (a : A) (k : A -> printing B) :
  and_then (quiet (Ok a)) k = k a.
Proof. unfold and_then, quiet. simpl. destruct (k a). reflexivity. Qed.

Lemma for_each_lines {A : Type} (body : A -> printing unit)
    (lines : A -> list string) (l : list A) :
  (forall x, In x l -> body x = (lines x, Ok tt)) ->
  for_each l body = (flat_map lines l, Ok tt).
Proof.
  induction l as [|x r IH]; intros H; [reflexivity |].
  cbn [for_each flat_map]. unfold and_then.
  rewrite (H x (or_introl eq_refl)). cbn [fst snd].
  rewrite IH by (intros y Hy; apply H; right; exact Hy). reflexivity.
Qed.

(** The range [(0, 100)] and the filter on English, on a course of the
    Coursera mapping. *)
Lemma retained_in_english (repr_other : value -> string) (item : value)
    (c : dict) :
  CourseraAPI._process_coursera_course repr_other item = Ok c ->
  retained (Some [("language", VStr "English")]) (Some (NInt 0, NInt 100)) c
  = in_english c.
Proof.
  intros H.
  apply process_coursera_course_inv in H as (? & ? & ? & _ & _ & _ & _ & Hp).
  unfold retained, satisfies, in_english, items_of. cbn [forallb fst snd].
  assert (Hz : CourseAggregator._get_numeric_price
                 (dict_get_default c "price" (VInt 0)) = Ok float_zero).
  { unfold dict_get_default. rewrite Hp, get_numeric_price_str. reflexivity. }
  rewrite (proj2 (in_price_range_free (NInt 0) (NInt 100) c Hz))
    by reflexivity.
  rewrite !andb_true_r. reflexivity.
Qed.

(** An exception that leaves [try ... except Exception: print(...)] is one
    the standard output raised. *)
Lemma reporting_raises (out : stream) (body : printing unit) (e : exn) :
  snd (reporting out body) = Raise e -> exists text, out text = Some e.
Proof.
  unfold reporting. destruct body as [lines [[]|e']]; cbn [fst snd].
  - discriminate.
  - unfold and_then, print. cbn [fst snd].
    destruct (out ("An error occurred: " ++ exn_str e')) as [e''|] eqn:E;
      cbn [fst snd]; [| discriminate].
    intros H. injection H as ->. eexists. exact E.
Qed.

Section Written.
Variable out : stream.
Hypothesis out_writes : writes_all out.

Lemma print_written (text : string) : print out text = ([text], Ok tt).
Proof. unfold print. rewrite out_writes. reflexivity. Qed.

Lemma and_then_print {B : Type} (text : string) (k : unit -> printing B) :
  and_then (print out text) k = (text :: fst (k tt), snd (k tt)).
Proof. rewrite print_written. reflexivity. Qed.

(** A course of the Coursera mapping is shown on four lines. *)
Lemma show_coursera_course (repr_other : value -> string) (item : value)
    (c : dict) :
  CourseraAPI._process_coursera_course repr_other item = Ok c ->
  run_courses.show_course repr_other out c
  = (coursera_card repr_other c, Ok tt).
Proof.
  intros H.
  assert (Hr : lookup "rating" c = None).
  { apply (process_coursera_course_fields _ _ _ "rating" H).
    simpl. intuition discriminate. }
  apply process_coursera_course_inv in H
    as (name & description & slug & _ & Ht & _ & Hu & Hp).
  unfold run_courses.show_course, coursera_card, getitem, dict_get,
    dict_get_default.
  rewrite Ht, Hu, Hp, Hr.
  repeat (rewrite ?and_then_print, ?and_then_quiet; cbn beta).
  reflexivity.
Qed.

(** A bucket without courses is shown on two lines. *)
Lemma show_provider_no_course (repr_other : value -> string) (name : string)
    (b : bucket) :
  courses b = [] ->
  exists lines,
    run_courses.show_provider repr_other out (name, b)
    = ((nl ++ upper name ++ ":") :: lines, Ok tt)
    /\ shows_no_course lines.
Proof.
  intros Hc. unfold run_courses.show_provider. cbn [fst snd].
  destruct (error b) as [[|a r]|] eqn:E; rewrite ?Hc, !print_written.
  - exists ["Found 0 courses:"]. split; [reflexivity | left; reflexivity].
  - exists ["Error: " ++ String a r]. split; [reflexivity |].
    right. exists (String a r). split; [discriminate | reflexivity].
  - exists ["Found 0 courses:"]. split; [reflexivity | left; reflexivity].
Qed.

End Written.

(** X19.  What [run_courses.py] prints, whatever the three providers do.
    Its search filters on the language [English], so the search never
    fails: the except branch of [main] can be reached only by a [print]
    that raises, and an exception that leaves [main] is one the standard
    output raised.  On a standard output that writes every text, [main]
    returns after printing the banner and the three providers in the order
    Coursera, Udemy, edX.  Udemy and edX never show a course: each gets
    its error or the line [Found 0 courses:].  Coursera gets its error, or
    the count and four lines for each of its courses in English, in the
    order the provider sent them; the ranking by rating changes nothing
    and no rating is shown. *)
Theorem run_courses_main_output (repr_other : value -> string)
    (out : stream) (sessions : string -> client_session) :
  (exists found, run_courses.search repr_other sessions = Ok found)
  /\ (forall e,
        snd (run_courses.main repr_other out sessions) = Raise e ->
        exists text, out text = Some e)
  /\ (writes_all out ->
      exists coursera udemy edx,
        run_courses.main repr_other out sessions
        = ((banner :: heading "COURSERA" :: coursera
              ++ heading "UDEMY" :: udemy ++ heading "EDX" :: edx)%list,
           Ok tt)
        /\ shows_no_course udemy
        /\ shows_no_course edx
        /\ coursera
           = match error (coursera_answer repr_other sessions) with
             | Some (String a r) => ["Error: " ++ String a r]
             | _ =>
                 let shown :=
                   filter in_english
                     (courses (coursera_answer repr_other sessions)) in
                 ("Found " ++ decimal (List.length shown) ++ " courses:")
                   :: flat_map (coursera_card repr_other) shown
             end).
Proof.
  destruct (search_with_coursera_filter repr_other sessions
              run_courses.api_key_of ["python"; "machine learning"] 5
              (Some "rating") [("language", VStr "English")]
              (Some (NInt 0, NInt 100)) "language" (VStr "English"))
    as (b1 & b2 & b3 & Hf & S1 & H2 & H3 & _).
  { left. reflexivity. }
  { discriminate. }
  { simpl. intuition discriminate. }
  { simpl. intuition discriminate. }
  split; [eexists; exact Hf |].
  split; [intros e; apply reporting_raises |].
  intros Hout.
  destruct (show_provider_no_course out Hout repr_other "udemy" b2 H2)
    as (udemy & Hu & Pu).
  destruct (show_provider_no_course out Hout repr_other "edx" b3 H3)
    as (edx & He & Pe).
  assert (Hc : exists coursera,
    run_courses.show_provider repr_other out ("coursera", b1)
    = ((nl ++ "COURSERA:") :: coursera, Ok tt)
    /\ coursera
       = match error (coursera_answer repr_other sessions) with
         | Some (String a r) => ["Error: " ++ String a r]
         | _ =>
             let shown :=
               filter in_english
                 (courses (coursera_answer repr_other sessions)) in
             ("Found " ++ decimal (List.length shown) ++ " courses:")
               :: flat_map (coursera_card repr_other) shown
         end).
  { unfold coursera_answer, settles in *.
    destruct (CourseAggregator._safe_provider_search
                (CourseAggregator.coursera
                   (CourseAggregator.make repr_other sessions
                      run_courses.api_key_of))
                ["python"; "machine learning"] 5) as [returned|e] eqn:Es.
    - destruct S1 as [ranked [Hr ->]].
      apply coursera_search_inv in Es as [payload Hmap].
      rewrite (coursera_stage _ _ _ _ _ _ Hmap) in Hr. injection Hr as <-.
      match goal with
      | |- context [filter ?p returned] =>
          assert (Hfil : filter p returned = filter in_english returned)
      end.
      { apply filter_ext_in. intros c Hin.
        destruct (process_coursera_results_each _ _ _ _ Hmap Hin)
          as [item Hi].
        exact (retained_in_english _ _ _ Hi). }
      rewrite Hfil. eexists. split; [| reflexivity].
      unfold run_courses.show_provider.
      cbn [fst snd error courses CourseAggregator.bucket_of].
      rewrite (and_then_print out Hout). rewrite (print_written out Hout).
      unfold and_then at 1. cbn [fst snd].
      rewrite (for_each_lines _ (coursera_card repr_other)).
      + reflexivity.
      + intros c Hin. apply filter_In in Hin as [Hin _].
        destruct (process_coursera_results_each _ _ _ _ Hmap Hin)
          as [item Hi].
        exact (show_coursera_course out Hout _ _ _ Hi).
    - subst b1. cbn [error courses CourseAggregator.bucket_of].
      unfold run_courses.show_provider. cbn [fst snd error courses].
      destruct (exn_str e) as [|a r];
        repeat (rewrite ?(and_then_print out Hout), ?(print_written out Hout);
                cbn beta);
        eexists; split; reflexivity. }
  destruct Hc as (coursera & Hc & Pc).
  exists coursera, udemy, edx. split; [| auto].
  unfold run_courses.main.
  replace (run_courses.search repr_other sessions)
    with (Ok [("coursera", b1); ("udemy", b2); ("edx", b3)])
    by (symmetry; exact Hf).
  rewrite and_then_quiet, (and_then_print out Hout).
  cbn [for_each]. unfold and_then. rewrite Hc, Hu, He.
  unfold reporting. cbn [fst snd]. rewrite app_nil_r. reflexivity.
Qed.

(** X19 on the run in which the Udemy course has no rating yet, edX does
    not answer in time and the standard output writes everything. *)
Lemma run_courses_main_output_witness :
  exists coursera udemy edx,
    run_courses.main no_repr terminal unrated_sessions
    = ((banner :: heading "COURSERA" :: coursera
          ++ heading "UDEMY" :: udemy ++ heading "EDX" :: edx)%list,
       Ok tt)
    /\ shows_no_course udemy
    /\ shows_no_course edx
    /\ coursera
       = match error (coursera_answer no_repr unrated_sessions) with
         | Some (String a r) => ["Error: " ++ String a r]
         | _ =>
             let shown :=
               filter in_english
                 (courses (coursera_answer no_repr unrated_sessions)) in
             ("Found " ++ decimal (List.length shown) ++ " courses:")
               :: flat_map (coursera_card no_repr) shown
         end.
Proof.
  apply (proj2 (proj2
           (run_courses_main_output no_repr terminal unrated_sessions))).
  intros text. reflexivity.
Defined.

(* ===================================================================== *)
(** * Further properties: the parameters of the interactive run *)
(* ===================================================================== *)

Lemma lstrip_idem (space : ascii -> bool) (l : list ascii) :
  lstrip space (lstrip space l) = lstrip space l.
Proof.
  induction l as [|c r IH]; [reflexivity |]. simpl.
  destruct (space c) eqn:E; [exact IH |]. simpl. rewrite E. reflexivity.
Qed.

Lemma lstrip_head (space : ascii -> bool) (l r : list ascii) (c : ascii) :
  lstrip space l = c :: r -> space c = false.
Proof.
  induction l as [|a l IH]; [discriminate |]. simpl.
  destruct (space a) eqn:E; [exact IH |].
  intros H. injection H as <- _. exact E.
Qed.

Lemma lstrip_app_nonspace (space : ascii -> bool) (l : list ascii)
    (c : ascii) :
  space c = false -> (lstrip space (l ++ [c]) = lstrip space l ++ [c])%list.
Proof.
  intros Hc. induction l as [|a l IH]; simpl.
  - rewrite Hc. reflexivity.
  - destruct (space a); [exact IH | reflexivity].
Qed.

(** What [strip] returns neither starts nor ends with whitespace. *)
Lemma strip_stripped (space : ascii -> bool) (l : list ascii) :
  lstrip space (strip space l) = strip space l
  /\ lstrip space (rev (strip space l)) = rev (strip space l).
Proof.
  unfold strip. split.
  - destruct (lstrip space l) as [|c r] eqn:E; [reflexivity |].
    pose proof (lstrip_head _ _ _ _ E) as Hc.
    cbn [rev]. rewrite (lstrip_app_nonspace _ _ _ Hc), rev_unit.
    simpl. rewrite Hc. reflexivity.
  - rewrite rev_involutive. apply lstrip_idem.
Qed.

Lemma str_strip_stripped (s : string) : stripped (str_strip s).
Proof.
  unfold stripped, str_strip.
  rewrite list_ascii_of_string_of_list_ascii. apply strip_stripped.
Qed.

(** [split] gives one part more than there are separators. *)
Lemma split_length (sep : ascii) (s : string) :
  List.length (split sep s) = S (count_char sep s).
Proof.
  unfold split.
  assert (H : List.length (snd (split_parts sep s)) = count_char sep s).
  { induction s as [|c r IH]; [reflexivity |].
    cbn [split_parts count_char].
    destruct (split_parts sep r) as [part parts].
    destruct (Ascii.eqb c sep); simpl in *; rewrite IH; reflexivity. }
  destruct (split_parts sep s) as [part parts]. simpl in *.
  rewrite H. reflexivity.
Qed.

(** [float] of a str raises nothing but its [ValueError]. *)
Lemma float_of_str_raises (s : string) (e : exn) :
  float_of_str s = Raise e -> e = could_not_convert s.
Proof.
  unfold float_of_str.
  destruct (sign (strip isspace_num (list_ascii_of_string s))) as [neg body].
  destruct (_ || _); [discriminate |].
  destruct (String.eqb _ "nan"); [discriminate |].
  destruct (number body) as [[[ip fp] r]|]; [destruct (exponent r) |];
    intros H; try discriminate H; injection H as <-; reflexivity.
Qed.

(** X20.  The parameters the interactive run builds from its four input
    lines.  Only the maximum price can make it fail: a price that is not
    empty and not a float literal raises the [ValueError] of [float], and
    it does so before the [try] of [main].  Otherwise there is always at
    least one skill, one more than the commas of the first line, and no
    skill starts or ends with whitespace; the limit is [5]; an empty line
    stands for no ranking, no filter or no price range, and a price gives
    the range from [0] to it; a language gives the one filter on
    [language], and then the search always returns and shows no Udemy and
    no edX course. *)
Theorem interactive_search_params
    (skills_line max_price sort_line language_line : string) :
  let read :=
    run_courses_interactive.read_search_params skills_line max_price
      sort_line language_line in
  (forall e,
      read = Raise e ->
      max_price <> EmptyString
      /\ float_of_str max_price = Raise e
      /\ e = could_not_convert max_price)
  /\ (forall params,
        read = Ok params ->
        List.length (run_courses_interactive.skills params)
        = S (count_char ","%char skills_line)
        /\ Forall stripped (run_courses_interactive.skills params)
        /\ run_courses_interactive.limit_per_provider params = 5
        /\ run_courses_interactive.sort_by params
           = match sort_line with
             | EmptyString => None
             | _ => Some sort_line
             end
        /\ run_courses_interactive.filters params
           = match language_line with
             | EmptyString => None
             | _ => Some [("language", VStr language_line)]
             end
        /\ match max_price with
           | EmptyString =>
               run_courses_interactive.price_range params = None
           | _ =>
               exists high,
                 float_of_str max_price = Ok high
                 /\ run_courses_interactive.price_range params
                    = Some (NInt 0, NFloat high)
           end
        /\ (language_line <> EmptyString ->
            forall repr_other sessions,
            exists found,
              run_courses_interactive.search repr_other sessions params
              = Ok found
              /\ no_courses "udemy" found /\ no_courses "edx" found)).
Proof.
  cbv zeta. unfold run_courses_interactive.read_search_params. split.
  - intros e H. destruct max_price as [|a r]; [discriminate |].
    destruct (float_of_str (String a r)) as [high|e'] eqn:E;
      cbn [bind] in H; [discriminate |].
    injection H as ->. split; [discriminate | split; [reflexivity |]].
    exact (float_of_str_raises _ _ E).
  - intros params H.
    assert (Hparts :
      exists range,
        params
        = {| run_courses_interactive.skills :=
               map str_strip (split ","%char skills_line);
             run_courses_interactive.limit_per_provider := 5;
             run_courses_interactive.sort_by :=
               run_courses_interactive.or_None sort_line;
             run_courses_interactive.filters :=
               match language_line with
               | EmptyString => None
               | _ => Some [("language", VStr language_line)]
               end;
             run_courses_interactive.price_range := range |}
        /\ match max_price with
           | EmptyString => range = None
           | _ =>
               exists high,
                 float_of_str max_price = Ok high
                 /\ range = Some (NInt 0, NFloat high)
           end).
    { destruct max_price as [|a r].
      - cbn [bind] in H. injection H as <-. exists None.
        split; [| reflexivity]. destruct language_line; reflexivity.
      - destruct (float_of_str (String a r)) as [high|e'] eqn:E;
          cbn [bind] in H; [| discriminate].
        injection H as <-. exists (Some (NInt 0, NFloat high)).
        split; [destruct language_line; reflexivity |].
        exists high. split; reflexivity. }
    destruct Hparts as (range & -> & Hrange).
    cbn [run_courses_interactive.skills
           run_courses_interactive.limit_per_provider
           run_courses_interactive.sort_by run_courses_interactive.filters
           run_courses_interactive.price_range].
    split; [rewrite length_map; apply split_length |].
    split; [apply Forall_forall; intros s Hs;
            apply in_map_iff in Hs as [x [<- _]]; apply str_strip_stripped |].
    split; [reflexivity |].
    split; [destruct sort_line; reflexivity |].
    split; [reflexivity |].
    split.
    + destruct max_price; [exact Hrange |].
      destruct Hrange as [high [Hh ->]]. exists high. split; [exact Hh | reflexivity].
    + intros Hl repr_other sessions.
      unfold run_courses_interactive.search.
      cbn [run_courses_interactive.skills
             run_courses_interactive.limit_per_provider
             run_courses_interactive.sort_by run_courses_interactive.filters
             run_courses_interactive.price_range].
      destruct language_line as [|a r]; [congruence |].
      destruct (search_with_coursera_filter repr_other sessions
                  run_courses.api_key_of
                  (map str_strip (split ","%char skills_line)) 5
                  (run_courses_interactive.or_None sort_line)
                  [("language", VStr (String a r))] range "language"
                  (VStr (String a r)))
        as (b1 & b2 & b3 & Hf & _ & H2 & H3 & _).
      { left. reflexivity. }
      { discriminate. }
      { simpl. intuition discriminate. }
      { simpl. intuition discriminate. }
      eexists. split; [exact Hf |].
      split; intros b Hb; simpl in Hb; injection Hb as <-; assumption.
Qed.

(** X20 on the lines [python, machine learning], [100], [rating] and
    [English], and on two prices that [float] rejects: [don't], which the
    message shows between double quotes, and [100] after the separator of
    code 28, which [str.strip] would remove and [float] does not. *)
Lemma interactive_search_params_witness :
  (exists params,
      run_courses_interactive.read_search_params "python, machine learning"
        "100" "rating" "English"
      = Ok params
      /\ run_courses_interactive.skills params = ["python"; "machine learning"]
      /\ List.length (run_courses_interactive.skills params) = 2%nat
      /\ Forall stripped (run_courses_interactive.skills params))
  /\ Exn ValueError
       ("could not convert string to float: "
          ++ String dquote ("don't" ++ String dquote EmptyString))
     = could_not_convert "don't"
  /\ Exn ValueError "could not convert string to float: '\x1c100'"
     = could_not_convert (String (ascii_of_nat 28) "100").
Proof.
  split; [| split].
  - eexists. split; [vm_compute; reflexivity |].
    split; [reflexivity |].
    destruct (proj2 (interactive_search_params "python, machine learning"
                       "100" "rating" "English") _ eq_refl)
      as (Hn & Hs & _).
    split; [exact Hn | exact Hs].
  - apply (proj1 (interactive_search_params "" "don't" "" "")
             (Exn ValueError
                ("could not convert string to float: "
                   ++ String dquote ("don't" ++ String dquote EmptyString)))).
    vm_compute. reflexivity.
  - apply (proj1 (interactive_search_params ""
                    (String (ascii_of_nat 28) "100") "" "")
             (Exn ValueError
                "could not convert string to float: '\x1c100'")).
    vm_compute. reflexivity.
Defined.
